(** * overseerTgBot: the response normalizer, the upstream client and the
      chat handlers of [bot.py] / [overseerr_client.py], embedded in Rocq.

    Layout of the development:
    - [Unicode] : the character tables of the interpreter;
    - [PyStr]   : the Python string operations the program calls;
    - [Py]      : JSON payloads as Python values, exceptions, the error monad;
    - [Bot]     : the pure normalizer functions of [bot.py];
    - [IO]      : external calls (HTTP, chat transport) as a free monad with
                  a deterministic world answering every call;
    - [Client]  : [overseerr_client.py];
    - [Handlers]: [start], [on_query], [on_callback] of [bot.py];
    - the vocabulary of the properties, with the concrete inputs and
      worlds they are tried on;
    - the lemmas and theorems, one section per property.

    A text is modelled by the [string] of its UTF-8 bytes, so a text with
    a lone surrogate, which has no encoding, is outside the model.
    [len], slicing, [strip], [upper], [lower] and [int] follow the
    interpreter on every character, with its tables; [repr] writes the
    characters outside ASCII as they are (the interpreter escapes those of
    them that are not printable). *)

From Stdlib Require Import String Ascii List ZArith NArith Bool Lia DecimalString DecimalPos.
Import ListNotations.
Open Scope string_scope.
Open Scope list_scope.

(* ------------------------------------------------------------------ *)
(** * The character tables of the interpreter *)
(* ------------------------------------------------------------------ *)

(** What CPython 3.11 (Unicode 14.0) knows of the characters that the
    string methods of the program look at, by code point. *)
Module Unicode.

Definition in_ranges (n : N) (ranges : list (N * N)) : bool :=
  existsb (fun r => (fst r <=? n)%N && (n <=? snd r)%N) ranges.

(** The characters [str.isspace] accepts: what [str.strip] removes. *)
Definition space_ranges : list (N * N) :=
  [(9, 13); (28, 32); (133, 133); (160, 160); (5760, 5760); (8192, 8202);
   (8232, 8233); (8239, 8239); (8287, 8287); (12288, 12288)]%N.

(** The digit zero of every script: the ten decimal digits of a script
    follow each other from its zero on. *)
Definition digit_zeros : list N :=
  [48; 1632; 1776; 1984; 2406; 2534; 2662; 2790; 2918; 3046; 3174; 3302;
   3430; 3558; 3664; 3792; 3872; 4160; 4240; 6112; 6160; 6470; 6608; 6784;
   6800; 6992; 7088; 7232; 7248; 42528; 43216; 43264; 43472; 43504; 43600;
   44016; 65296; 66720; 68912; 69734; 69872; 69942; 70096; 70384; 70736;
   70864; 71248; 71360; 71472; 71904; 72016; 72784; 73040; 73120; 92768;
   92864; 93008; 120782; 120792; 120802; 120812; 120822; 123200; 123632;
   125264; 130032]%N.

(** The characters [str.upper] changes, with what it writes for them. *)
Definition upper_table : list (N * list N) :=
  [(97, [65]); (98, [66]); (99, [67]); (100, [68]); (101, [69]); (102, [70]);
   (103, [71]); (104, [72]); (105, [73]); (106, [74]); (107, [75]);
   (108, [76]); (109, [77]); (110, [78]); (111, [79]); (112, [80]);
   (113, [81]); (114, [82]); (115, [83]); (116, [84]); (117, [85]);
   (118, [86]); (119, [87]); (120, [88]); (121, [89]); (122, [90]);
   (181, [924]); (223, [83; 83]); (224, [192]); (225, [193]); (226, [194]);
   (227, [195]); (228, [196]); (229, [197]); (230, [198]); (231, [199]);
   (232, [200]); (233, [201]); (234, [202]); (235, [203]); (236, [204]);
   (237, [205]); (238, [206]); (239, [207]); (240, [208]); (241, [209]);
   (242, [210]); (243, [211]); (244, [212]); (245, [213]); (246, [214]);
   (248, [216]); (249, [217]); (250, [218]); (251, [219]); (252, [220]);
   (253, [221]); (254, [222]); (255, [376]); (257, [256]); (259, [258]);
   (261, [260]); (263, [262]); (265, [264]); (267, [266]); (269, [268]);
   (271, [270]); (273, [272]); (275, [274]); (277, [276]); (279, [278]);
   (281, [280]); (283, [282]); (285, [284]); (287, [286]); (289, [288]);
   (291, [290]); (293, [292]); (295, [294]); (297, [296]); (299, [298]);
   (301, [300]); (303, [302]); (305, [73]); (307, [306]); (309, [308]);
   (311, [310]); (314, [313]); (316, [315]); (318, [317]); (320, [319]);
   (322, [321]); (324, [323]); (326, [325]); (328, [327]); (329, [700; 78]);
   (331, [330]); (333, [332]); (335, [334]); (337, [336]); (339, [338]);
   (341, [340]); (343, [342]); (345, [344]); (347, [346]); (349, [348]);
   (351, [350]); (353, [352]); (355, [354]); (357, [356]); (359, [358]);
   (361, [360]); (363, [362]); (365, [364]); (367, [366]); (369, [368]);
   (371, [370]); (373, [372]); (375, [374]); (378, [377]); (380, [379]);
   (382, [381]); (383, [83]); (384, [579]); (387, [386]); (389, [388]);
   (392, [391]); (396, [395]); (402, [401]); (405, [502]); (409, [408]);
   (410, [573]); (414, [544]); (417, [416]); (419, [418]); (421, [420]);
   (424, [423]); (429, [428]); (432, [431]); (436, [435]); (438, [437]);
   (441, [440]); (445, [444]); (447, [503]); (453, [452]); (454, [452]);
   (456, [455]); (457, [455]); (459, [458]); (460, [458]); (462, [461]);
   (464, [463]); (466, [465]); (468, [467]); (470, [469]); (472, [471]);
   (474, [473]); (476, [475]); (477, [398]); (479, [478]); (481, [480]);
   (483, [482]); (485, [484]); (487, [486]); (489, [488]); (491, [490]);
   (493, [492]); (495, [494]); (496, [74; 780]); (498, [497]); (499, [497]);
   (501, [500]); (505, [504]); (507, [506]); (509, [508]); (511, [510]);
   (513, [512]); (515, [514]); (517, [516]); (519, [518]); (521, [520]);
   (523, [522]); (525, [524]); (527, [526]); (529, [528]); (531, [530]);
   (533, [532]); (535, [534]); (537, [536]); (539, [538]); (541, [540]);
   (543, [542]); (547, [546]); (549, [548]); (551, [550]); (553, [552]);
   (555, [554]); (557, [556]); (559, [558]); (561, [560]); (563, [562]);
   (572, [571]); (575, [11390]); (576, [11391]); (578, [577]); (583, [582]);
   (585, [584]); (587, [586]); (589, [588]); (591, [590]); (592, [11375]);
   (593, [11373]); (594, [11376]); (595, [385]); (596, [390]); (598, [393]);
   (599, [394]); (601, [399]); (603, [400]); (604, [42923]); (608, [403]);
   (609, [42924]); (611, [404]); (613, [42893]); (614, [42922]);
   (616, [407]); (617, [406]); (618, [42926]); (619, [11362]);
   (620, [42925]); (623, [412]); (625, [11374]); (626, [413]); (629, [415]);
   (637, [11364]); (640, [422]); (642, [42949]); (643, [425]);
   (647, [42929]); (648, [430]); (649, [580]); (650, [433]); (651, [434]);
   (652, [581]); (658, [439]); (669, [42930]); (670, [42928]); (837, [921]);
   (881, [880]); (883, [882]); (887, [886]); (891, [1021]); (892, [1022]);
   (893, [1023]); (912, [921; 776; 769]); (940, [902]); (941, [904]);
   (942, [905]); (943, [906]); (944, [933; 776; 769]); (945, [913]);
   (946, [914]); (947, [915]); (948, [916]); (949, [917]); (950, [918]);
   (951, [919]); (952, [920]); (953, [921]); (954, [922]); (955, [923]);
   (956, [924]); (957, [925]); (958, [926]); (959, [927]); (960, [928]);
   (961, [929]); (962, [931]); (963, [931]); (964, [932]); (965, [933]);
   (966, [934]); (967, [935]); (968, [936]); (969, [937]); (970, [938]);
   (971, [939]); (972, [908]); (973, [910]); (974, [911]); (976, [914]);
   (977, [920]); (981, [934]); (982, [928]); (983, [975]); (985, [984]);
   (987, [986]); (989, [988]); (991, [990]); (993, [992]); (995, [994]);
   (997, [996]); (999, [998]); (1001, [1000]); (1003, [1002]);
   (1005, [1004]); (1007, [1006]); (1008, [922]); (1009, [929]);
   (1010, [1017]); (1011, [895]); (1013, [917]); (1016, [1015]);
   (1019, [1018]); (1072, [1040]); (1073, [1041]); (1074, [1042]);
   (1075, [1043]); (1076, [1044]); (1077, [1045]); (1078, [1046]);
   (1079, [1047]); (1080, [1048]); (1081, [1049]); (1082, [1050]);
   (1083, [1051]); (1084, [1052]); (1085, [1053]); (1086, [1054]);
   (1087, [1055]); (1088, [1056]); (1089, [1057]); (1090, [1058]);
   (1091, [1059]); (1092, [1060]); (1093, [1061]); (1094, [1062]);
   (1095, [1063]); (1096, [1064]); (1097, [1065]); (1098, [1066]);
   (1099, [1067]); (1100, [1068]); (1101, [1069]); (1102, [1070]);
   (1103, [1071]); (1104, [1024]); (1105, [1025]); (1106, [1026]);
   (1107, [1027]); (1108, [1028]); (1109, [1029]); (1110, [1030]);
   (1111, [1031]); (1112, [1032]); (1113, [1033]); (1114, [1034]);
   (1115, [1035]); (1116, [1036]); (1117, [1037]); (1118, [1038]);
   (1119, [1039]); (1121, [1120]); (1123, [1122]); (1125, [1124]);
   (1127, [1126]); (1129, [1128]); (1131, [1130]); (1133, [1132]);
   (1135, [1134]); (1137, [1136]); (1139, [1138]); (1141, [1140]);
   (1143, [1142]); (1145, [1144]); (1147, [1146]); (1149, [1148]);
   (1151, [1150]); (1153, [1152]); (1163, [1162]); (1165, [1164]);
   (1167, [1166]); (1169, [1168]); (1171, [1170]); (1173, [1172]);
   (1175, [1174]); (1177, [1176]); (1179, [1178]); (1181, [1180]);
   (1183, [1182]); (1185, [1184]); (1187, [1186]); (1189, [1188]);
   (1191, [1190]); (1193, [1192]); (1195, [1194]); (1197, [1196]);
   (1199, [1198]); (1201, [1200]); (1203, [1202]); (1205, [1204]);
   (1207, [1206]); (1209, [1208]); (1211, [1210]); (1213, [1212]);
   (1215, [1214]); (1218, [1217]); (1220, [1219]); (1222, [1221]);
   (1224, [1223]); (1226, [1225]); (1228, [1227]); (1230, [1229]);
   (1231, [1216]); (1233, [1232]); (1235, [1234]); (1237, [1236]);
   (1239, [1238]); (1241, [1240]); (1243, [1242]); (1245, [1244]);
   (1247, [1246]); (1249, [1248]); (1251, [1250]); (1253, [1252]);
   (1255, [1254]); (1257, [1256]); (1259, [1258]); (1261, [1260]);
   (1263, [1262]); (1265, [1264]); (1267, [1266]); (1269, [1268]);
   (1271, [1270]); (1273, [1272]); (1275, [1274]); (1277, [1276]);
   (1279, [1278]); (1281, [1280]); (1283, [1282]); (1285, [1284]);
   (1287, [1286]); (1289, [1288]); (1291, [1290]); (1293, [1292]);
   (1295, [1294]); (1297, [1296]); (1299, [1298]); (1301, [1300]);
   (1303, [1302]); (1305, [1304]); (1307, [1306]); (1309, [1308]);
   (1311, [1310]); (1313, [1312]); (1315, [1314]); (1317, [1316]);
   (1319, [1318]); (1321, [1320]); (1323, [1322]); (1325, [1324]);
   (1327, [1326]); (1377, [1329]); (1378, [1330]); (1379, [1331]);
   (1380, [1332]); (1381, [1333]); (1382, [1334]); (1383, [1335]);
   (1384, [1336]); (1385, [1337]); (1386, [1338]); (1387, [1339]);
   (1388, [1340]); (1389, [1341]); (1390, [1342]); (1391, [1343]);
   (1392, [1344]); (1393, [1345]); (1394, [1346]); (1395, [1347]);
   (1396, [1348]); (1397, [1349]); (1398, [1350]); (1399, [1351]);
   (1400, [1352]); (1401, [1353]); (1402, [1354]); (1403, [1355]);
   (1404, [1356]); (1405, [1357]); (1406, [1358]); (1407, [1359]);
   (1408, [1360]); (1409, [1361]); (1410, [1362]); (1411, [1363]);
   (1412, [1364]); (1413, [1365]); (1414, [1366]); (1415, [1333; 1362]);
   (4304, [7312]); (4305, [7313]); (4306, [7314]); (4307, [7315]);
   (4308, [7316]); (4309, [7317]); (4310, [7318]); (4311, [7319]);
   (4312, [7320]); (4313, [7321]); (4314, [7322]); (4315, [7323]);
   (4316, [7324]); (4317, [7325]); (4318, [7326]); (4319, [7327]);
   (4320, [7328]); (4321, [7329]); (4322, [7330]); (4323, [7331]);
   (4324, [7332]); (4325, [7333]); (4326, [7334]); (4327, [7335]);
   (4328, [7336]); (4329, [7337]); (4330, [7338]); (4331, [7339]);
   (4332, [7340]); (4333, [7341]); (4334, [7342]); (4335, [7343]);
   (4336, [7344]); (4337, [7345]); (4338, [7346]); (4339, [7347]);
   (4340, [7348]); (4341, [7349]); (4342, [7350]); (4343, [7351]);
   (4344, [7352]); (4345, [7353]); (4346, [7354]); (4349, [7357]);
   (4350, [7358]); (4351, [7359]); (5112, [5104]); (5113, [5105]);
   (5114, [5106]); (5115, [5107]); (5116, [5108]); (5117, [5109]);
   (7296, [1042]); (7297, [1044]); (7298, [1054]); (7299, [1057]);
   (7300, [1058]); (7301, [1058]); (7302, [1066]); (7303, [1122]);
   (7304, [42570]); (7545, [42877]); (7549, [11363]); (7566, [42950]);
   (7681, [7680]); (7683, [7682]); (7685, [7684]); (7687, [7686]);
   (7689, [7688]); (7691, [7690]); (7693, [7692]); (7695, [7694]);
   (7697, [7696]); (7699, [7698]); (7701, [7700]); (7703, [7702]);
   (7705, [7704]); (7707, [7706]); (7709, [7708]); (7711, [7710]);
   (7713, [7712]); (7715, [7714]); (7717, [7716]); (7719, [7718]);
   (7721, [7720]); (7723, [7722]); (7725, [7724]); (7727, [7726]);
   (7729, [7728]); (7731, [7730]); (7733, [7732]); (7735, [7734]);
   (7737, [7736]); (7739, [7738]); (7741, [7740]); (7743, [7742]);
   (7745, [7744]); (7747, [7746]); (7749, [7748]); (7751, [7750]);
   (7753, [7752]); (7755, [7754]); (7757, [7756]); (7759, [7758]);
   (7761, [7760]); (7763, [7762]); (7765, [7764]); (7767, [7766]);
   (7769, [7768]); (7771, [7770]); (7773, [7772]); (7775, [7774]);
   (7777, [7776]); (7779, [7778]); (7781, [7780]); (7783, [7782]);
   (7785, [7784]); (7787, [7786]); (7789, [7788]); (7791, [7790]);
   (7793, [7792]); (7795, [7794]); (7797, [7796]); (7799, [7798]);
   (7801, [7800]); (7803, [7802]); (7805, [7804]); (7807, [7806]);
   (7809, [7808]); (7811, [7810]); (7813, [7812]); (7815, [7814]);
   (7817, [7816]); (7819, [7818]); (7821, [7820]); (7823, [7822]);
   (7825, [7824]); (7827, [7826]); (7829, [7828]); (7830, [72; 817]);
   (7831, [84; 776]); (7832, [87; 778]); (7833, [89; 778]);
   (7834, [65; 702]); (7835, [7776]); (7841, [7840]); (7843, [7842]);
   (7845, [7844]); (7847, [7846]); (7849, [7848]); (7851, [7850]);
   (7853, [7852]); (7855, [7854]); (7857, [7856]); (7859, [7858]);
   (7861, [7860]); (7863, [7862]); (7865, [7864]); (7867, [7866]);
   (7869, [7868]); (7871, [7870]); (7873, [7872]); (7875, [7874]);
   (7877, [7876]); (7879, [7878]); (7881, [7880]); (7883, [7882]);
   (7885, [7884]); (7887, [7886]); (7889, [7888]); (7891, [7890]);
   (7893, [7892]); (7895, [7894]); (7897, [7896]); (7899, [7898]);
   (7901, [7900]); (7903, [7902]); (7905, [7904]); (7907, [7906]);
   (7909, [7908]); (7911, [7910]); (7913, [7912]); (7915, [7914]);
   (7917, [7916]); (7919, [7918]); (7921, [7920]); (7923, [7922]);
   (7925, [7924]); (7927, [7926]); (7929, [7928]); (7931, [7930]);
   (7933, [7932]); (7935, [7934]); (7936, [7944]); (7937, [7945]);
   (7938, [7946]); (7939, [7947]); (7940, [7948]); (7941, [7949]);
   (7942, [7950]); (7943, [7951]); (7952, [7960]); (7953, [7961]);
   (7954, [7962]); (7955, [7963]); (7956, [7964]); (7957, [7965]);
   (7968, [7976]); (7969, [7977]); (7970, [7978]); (7971, [7979]);
   (7972, [7980]); (7973, [7981]); (7974, [7982]); (7975, [7983]);
   (7984, [7992]); (7985, [7993]); (7986, [7994]); (7987, [7995]);
   (7988, [7996]); (7989, [7997]); (7990, [7998]); (7991, [7999]);
   (8000, [8008]); (8001, [8009]); (8002, [8010]); (8003, [8011]);
   (8004, [8012]); (8005, [8013]); (8016, [933; 787]); (8017, [8025]);
   (8018, [933; 787; 768]); (8019, [8027]); (8020, [933; 787; 769]);
   (8021, [8029]); (8022, [933; 787; 834]); (8023, [8031]); (8032, [8040]);
   (8033, [8041]); (8034, [8042]); (8035, [8043]); (8036, [8044]);
   (8037, [8045]); (8038, [8046]); (8039, [8047]); (8048, [8122]);
   (8049, [8123]); (8050, [8136]); (8051, [8137]); (8052, [8138]);
   (8053, [8139]); (8054, [8154]); (8055, [8155]); (8056, [8184]);
   (8057, [8185]); (8058, [8170]); (8059, [8171]); (8060, [8186]);
   (8061, [8187]); (8064, [7944; 921]); (8065, [7945; 921]);
   (8066, [7946; 921]); (8067, [7947; 921]); (8068, [7948; 921]);
   (8069, [7949; 921]); (8070, [7950; 921]); (8071, [7951; 921]);
   (8072, [7944; 921]); (8073, [7945; 921]); (8074, [7946; 921]);
   (8075, [7947; 921]); (8076, [7948; 921]); (8077, [7949; 921]);
   (8078, [7950; 921]); (8079, [7951; 921]); (8080, [7976; 921]);
   (8081, [7977; 921]); (8082, [7978; 921]); (8083, [7979; 921]);
   (8084, [7980; 921]); (8085, [7981; 921]); (8086, [7982; 921]);
   (8087, [7983; 921]); (8088, [7976; 921]); (8089, [7977; 921]);
   (8090, [7978; 921]); (8091, [7979; 921]); (8092, [7980; 921]);
   (8093, [7981; 921]); (8094, [7982; 921]); (8095, [7983; 921]);
   (8096, [8040; 921]); (8097, [8041; 921]); (8098, [8042; 921]);
   (8099, [8043; 921]); (8100, [8044; 921]); (8101, [8045; 921]);
   (8102, [8046; 921]); (8103, [8047; 921]); (8104, [8040; 921]);
   (8105, [8041; 921]); (8106, [8042; 921]); (8107, [8043; 921]);
   (8108, [8044; 921]); (8109, [8045; 921]); (8110, [8046; 921]);
   (8111, [8047; 921]); (8112, [8120]); (8113, [8121]); (8114, [8122; 921]);
   (8115, [913; 921]); (8116, [902; 921]); (8118, [913; 834]);
   (8119, [913; 834; 921]); (8124, [913; 921]); (8126, [921]);
   (8130, [8138; 921]); (8131, [919; 921]); (8132, [905; 921]);
   (8134, [919; 834]); (8135, [919; 834; 921]); (8140, [919; 921]);
   (8144, [8152]); (8145, [8153]); (8146, [921; 776; 768]);
   (8147, [921; 776; 769]); (8150, [921; 834]); (8151, [921; 776; 834]);
   (8160, [8168]); (8161, [8169]); (8162, [933; 776; 768]);
   (8163, [933; 776; 769]); (8164, [929; 787]); (8165, [8172]);
   (8166, [933; 834]); (8167, [933; 776; 834]); (8178, [8186; 921]);
   (8179, [937; 921]); (8180, [911; 921]); (8182, [937; 834]);
   (8183, [937; 834; 921]); (8188, [937; 921]); (8526, [8498]);
   (8560, [8544]); (8561, [8545]); (8562, [8546]); (8563, [8547]);
   (8564, [8548]); (8565, [8549]); (8566, [8550]); (8567, [8551]);
   (8568, [8552]); (8569, [8553]); (8570, [8554]); (8571, [8555]);
   (8572, [8556]); (8573, [8557]); (8574, [8558]); (8575, [8559]);
   (8580, [8579]); (9424, [9398]); (9425, [9399]); (9426, [9400]);
   (9427, [9401]); (9428, [9402]); (9429, [9403]); (9430, [9404]);
   (9431, [9405]); (9432, [9406]); (9433, [9407]); (9434, [9408]);
   (9435, [9409]); (9436, [9410]); (9437, [9411]); (9438, [9412]);
   (9439, [9413]); (9440, [9414]); (9441, [9415]); (9442, [9416]);
   (9443, [9417]); (9444, [9418]); (9445, [9419]); (9446, [9420]);
   (9447, [9421]); (9448, [9422]); (9449, [9423]); (11312, [11264]);
   (11313, [11265]); (11314, [11266]); (11315, [11267]); (11316, [11268]);
   (11317, [11269]); (11318, [11270]); (11319, [11271]); (11320, [11272]);
   (11321, [11273]); (11322, [11274]); (11323, [11275]); (11324, [11276]);
   (11325, [11277]); (11326, [11278]); (11327, [11279]); (11328, [11280]);
   (11329, [11281]); (11330, [11282]); (11331, [11283]); (11332, [11284]);
   (11333, [11285]); (11334, [11286]); (11335, [11287]); (11336, [11288]);
   (11337, [11289]); (11338, [11290]); (11339, [11291]); (11340, [11292]);
   (11341, [11293]); (11342, [11294]); (11343, [11295]); (11344, [11296]);
   (11345, [11297]); (11346, [11298]); (11347, [11299]); (11348, [11300]);
   (11349, [11301]); (11350, [11302]); (11351, [11303]); (11352, [11304]);
   (11353, [11305]); (11354, [11306]); (11355, [11307]); (11356, [11308]);
   (11357, [11309]); (11358, [11310]); (11359, [11311]); (11361, [11360]);
   (11365, [570]); (11366, [574]); (11368, [11367]); (11370, [11369]);
   (11372, [11371]); (11379, [11378]); (11382, [11381]); (11393, [11392]);
   (11395, [11394]); (11397, [11396]); (11399, [11398]); (11401, [11400]);
   (11403, [11402]); (11405, [11404]); (11407, [11406]); (11409, [11408]);
   (11411, [11410]); (11413, [11412]); (11415, [11414]); (11417, [11416]);
   (11419, [11418]); (11421, [11420]); (11423, [11422]); (11425, [11424]);
   (11427, [11426]); (11429, [11428]); (11431, [11430]); (11433, [11432]);
   (11435, [11434]); (11437, [11436]); (11439, [11438]); (11441, [11440]);
   (11443, [11442]); (11445, [11444]); (11447, [11446]); (11449, [11448]);
   (11451, [11450]); (11453, [11452]); (11455, [11454]); (11457, [11456]);
   (11459, [11458]); (11461, [11460]); (11463, [11462]); (11465, [11464]);
   (11467, [11466]); (11469, [11468]); (11471, [11470]); (11473, [11472]);
   (11475, [11474]); (11477, [11476]); (11479, [11478]); (11481, [11480]);
   (11483, [11482]); (11485, [11484]); (11487, [11486]); (11489, [11488]);
   (11491, [11490]); (11500, [11499]); (11502, [11501]); (11507, [11506]);
   (11520, [4256]); (11521, [4257]); (11522, [4258]); (11523, [4259]);
   (11524, [4260]); (11525, [4261]); (11526, [4262]); (11527, [4263]);
   (11528, [4264]); (11529, [4265]); (11530, [4266]); (11531, [4267]);
   (11532, [4268]); (11533, [4269]); (11534, [4270]); (11535, [4271]);
   (11536, [4272]); (11537, [4273]); (11538, [4274]); (11539, [4275]);
   (11540, [4276]); (11541, [4277]); (11542, [4278]); (11543, [4279]);
   (11544, [4280]); (11545, [4281]); (11546, [4282]); (11547, [4283]);
   (11548, [4284]); (11549, [4285]); (11550, [4286]); (11551, [4287]);
   (11552, [4288]); (11553, [4289]); (11554, [4290]); (11555, [4291]);
   (11556, [4292]); (11557, [4293]); (11559, [4295]); (11565, [4301]);
   (42561, [42560]); (42563, [42562]); (42565, [42564]); (42567, [42566]);
   (42569, [42568]); (42571, [42570]); (42573, [42572]); (42575, [42574]);
   (42577, [42576]); (42579, [42578]); (42581, [42580]); (42583, [42582]);
   (42585, [42584]); (42587, [42586]); (42589, [42588]); (42591, [42590]);
   (42593, [42592]); (42595, [42594]); (42597, [42596]); (42599, [42598]);
   (42601, [42600]); (42603, [42602]); (42605, [42604]); (42625, [42624]);
   (42627, [42626]); (42629, [42628]); (42631, [42630]); (42633, [42632]);
   (42635, [42634]); (42637, [42636]); (42639, [42638]); (42641, [42640]);
   (42643, [42642]); (42645, [42644]); (42647, [42646]); (42649, [42648]);
   (42651, [42650]); (42787, [42786]); (42789, [42788]); (42791, [42790]);
   (42793, [42792]); (42795, [42794]); (42797, [42796]); (42799, [42798]);
   (42803, [42802]); (42805, [42804]); (42807, [42806]); (42809, [42808]);
   (42811, [42810]); (42813, [42812]); (42815, [42814]); (42817, [42816]);
   (42819, [42818]); (42821, [42820]); (42823, [42822]); (42825, [42824]);
   (42827, [42826]); (42829, [42828]); (42831, [42830]); (42833, [42832]);
   (42835, [42834]); (42837, [42836]); (42839, [42838]); (42841, [42840]);
   (42843, [42842]); (42845, [42844]); (42847, [42846]); (42849, [42848]);
   (42851, [42850]); (42853, [42852]); (42855, [42854]); (42857, [42856]);
   (42859, [42858]); (42861, [42860]); (42863, [42862]); (42874, [42873]);
   (42876, [42875]); (42879, [42878]); (42881, [42880]); (42883, [42882]);
   (42885, [42884]); (42887, [42886]); (42892, [42891]); (42897, [42896]);
   (42899, [42898]); (42900, [42948]); (42903, [42902]); (42905, [42904]);
   (42907, [42906]); (42909, [42908]); (42911, [42910]); (42913, [42912]);
   (42915, [42914]); (42917, [42916]); (42919, [42918]); (42921, [42920]);
   (42933, [42932]); (42935, [42934]); (42937, [42936]); (42939, [42938]);
   (42941, [42940]); (42943, [42942]); (42945, [42944]); (42947, [42946]);
   (42952, [42951]); (42954, [42953]); (42961, [42960]); (42967, [42966]);
   (42969, [42968]); (42998, [42997]); (43859, [42931]); (43888, [5024]);
   (43889, [5025]); (43890, [5026]); (43891, [5027]); (43892, [5028]);
   (43893, [5029]); (43894, [5030]); (43895, [5031]); (43896, [5032]);
   (43897, [5033]); (43898, [5034]); (43899, [5035]); (43900, [5036]);
   (43901, [5037]); (43902, [5038]); (43903, [5039]); (43904, [5040]);
   (43905, [5041]); (43906, [5042]); (43907, [5043]); (43908, [5044]);
   (43909, [5045]); (43910, [5046]); (43911, [5047]); (43912, [5048]);
   (43913, [5049]); (43914, [5050]); (43915, [5051]); (43916, [5052]);
   (43917, [5053]); (43918, [5054]); (43919, [5055]); (43920, [5056]);
   (43921, [5057]); (43922, [5058]); (43923, [5059]); (43924, [5060]);
   (43925, [5061]); (43926, [5062]); (43927, [5063]); (43928, [5064]);
   (43929, [5065]); (43930, [5066]); (43931, [5067]); (43932, [5068]);
   (43933, [5069]); (43934, [5070]); (43935, [5071]); (43936, [5072]);
   (43937, [5073]); (43938, [5074]); (43939, [5075]); (43940, [5076]);
   (43941, [5077]); (43942, [5078]); (43943, [5079]); (43944, [5080]);
   (43945, [5081]); (43946, [5082]); (43947, [5083]); (43948, [5084]);
   (43949, [5085]); (43950, [5086]); (43951, [5087]); (43952, [5088]);
   (43953, [5089]); (43954, [5090]); (43955, [5091]); (43956, [5092]);
   (43957, [5093]); (43958, [5094]); (43959, [5095]); (43960, [5096]);
   (43961, [5097]); (43962, [5098]); (43963, [5099]); (43964, [5100]);
   (43965, [5101]); (43966, [5102]); (43967, [5103]); (64256, [70; 70]);
   (64257, [70; 73]); (64258, [70; 76]); (64259, [70; 70; 73]);
   (64260, [70; 70; 76]); (64261, [83; 84]); (64262, [83; 84]);
   (64275, [1348; 1350]); (64276, [1348; 1333]); (64277, [1348; 1339]);
   (64278, [1358; 1350]); (64279, [1348; 1341]); (65345, [65313]);
   (65346, [65314]); (65347, [65315]); (65348, [65316]); (65349, [65317]);
   (65350, [65318]); (65351, [65319]); (65352, [65320]); (65353, [65321]);
   (65354, [65322]); (65355, [65323]); (65356, [65324]); (65357, [65325]);
   (65358, [65326]); (65359, [65327]); (65360, [65328]); (65361, [65329]);
   (65362, [65330]); (65363, [65331]); (65364, [65332]); (65365, [65333]);
   (65366, [65334]); (65367, [65335]); (65368, [65336]); (65369, [65337]);
   (65370, [65338]); (66600, [66560]); (66601, [66561]); (66602, [66562]);
   (66603, [66563]); (66604, [66564]); (66605, [66565]); (66606, [66566]);
   (66607, [66567]); (66608, [66568]); (66609, [66569]); (66610, [66570]);
   (66611, [66571]); (66612, [66572]); (66613, [66573]); (66614, [66574]);
   (66615, [66575]); (66616, [66576]); (66617, [66577]); (66618, [66578]);
   (66619, [66579]); (66620, [66580]); (66621, [66581]); (66622, [66582]);
   (66623, [66583]); (66624, [66584]); (66625, [66585]); (66626, [66586]);
   (66627, [66587]); (66628, [66588]); (66629, [66589]); (66630, [66590]);
   (66631, [66591]); (66632, [66592]); (66633, [66593]); (66634, [66594]);
   (66635, [66595]); (66636, [66596]); (66637, [66597]); (66638, [66598]);
   (66639, [66599]); (66776, [66736]); (66777, [66737]); (66778, [66738]);
   (66779, [66739]); (66780, [66740]); (66781, [66741]); (66782, [66742]);
   (66783, [66743]); (66784, [66744]); (66785, [66745]); (66786, [66746]);
   (66787, [66747]); (66788, [66748]); (66789, [66749]); (66790, [66750]);
   (66791, [66751]); (66792, [66752]); (66793, [66753]); (66794, [66754]);
   (66795, [66755]); (66796, [66756]); (66797, [66757]); (66798, [66758]);
   (66799, [66759]); (66800, [66760]); (66801, [66761]); (66802, [66762]);
   (66803, [66763]); (66804, [66764]); (66805, [66765]); (66806, [66766]);
   (66807, [66767]); (66808, [66768]); (66809, [66769]); (66810, [66770]);
   (66811, [66771]); (66967, [66928]); (66968, [66929]); (66969, [66930]);
   (66970, [66931]); (66971, [66932]); (66972, [66933]); (66973, [66934]);
   (66974, [66935]); (66975, [66936]); (66976, [66937]); (66977, [66938]);
   (66979, [66940]); (66980, [66941]); (66981, [66942]); (66982, [66943]);
   (66983, [66944]); (66984, [66945]); (66985, [66946]); (66986, [66947]);
   (66987, [66948]); (66988, [66949]); (66989, [66950]); (66990, [66951]);
   (66991, [66952]); (66992, [66953]); (66993, [66954]); (66995, [66956]);
   (66996, [66957]); (66997, [66958]); (66998, [66959]); (66999, [66960]);
   (67000, [66961]); (67001, [66962]); (67003, [66964]); (67004, [66965]);
   (68800, [68736]); (68801, [68737]); (68802, [68738]); (68803, [68739]);
   (68804, [68740]); (68805, [68741]); (68806, [68742]); (68807, [68743]);
   (68808, [68744]); (68809, [68745]); (68810, [68746]); (68811, [68747]);
   (68812, [68748]); (68813, [68749]); (68814, [68750]); (68815, [68751]);
   (68816, [68752]); (68817, [68753]); (68818, [68754]); (68819, [68755]);
   (68820, [68756]); (68821, [68757]); (68822, [68758]); (68823, [68759]);
   (68824, [68760]); (68825, [68761]); (68826, [68762]); (68827, [68763]);
   (68828, [68764]); (68829, [68765]); (68830, [68766]); (68831, [68767]);
   (68832, [68768]); (68833, [68769]); (68834, [68770]); (68835, [68771]);
   (68836, [68772]); (68837, [68773]); (68838, [68774]); (68839, [68775]);
   (68840, [68776]); (68841, [68777]); (68842, [68778]); (68843, [68779]);
   (68844, [68780]); (68845, [68781]); (68846, [68782]); (68847, [68783]);
   (68848, [68784]); (68849, [68785]); (68850, [68786]); (71872, [71840]);
   (71873, [71841]); (71874, [71842]); (71875, [71843]); (71876, [71844]);
   (71877, [71845]); (71878, [71846]); (71879, [71847]); (71880, [71848]);
   (71881, [71849]); (71882, [71850]); (71883, [71851]); (71884, [71852]);
   (71885, [71853]); (71886, [71854]); (71887, [71855]); (71888, [71856]);
   (71889, [71857]); (71890, [71858]); (71891, [71859]); (71892, [71860]);
   (71893, [71861]); (71894, [71862]); (71895, [71863]); (71896, [71864]);
   (71897, [71865]); (71898, [71866]); (71899, [71867]); (71900, [71868]);
   (71901, [71869]); (71902, [71870]); (71903, [71871]); (93792, [93760]);
   (93793, [93761]); (93794, [93762]); (93795, [93763]); (93796, [93764]);
   (93797, [93765]); (93798, [93766]); (93799, [93767]); (93800, [93768]);
   (93801, [93769]); (93802, [93770]); (93803, [93771]); (93804, [93772]);
   (93805, [93773]); (93806, [93774]); (93807, [93775]); (93808, [93776]);
   (93809, [93777]); (93810, [93778]); (93811, [93779]); (93812, [93780]);
   (93813, [93781]); (93814, [93782]); (93815, [93783]); (93816, [93784]);
   (93817, [93785]); (93818, [93786]); (93819, [93787]); (93820, [93788]);
   (93821, [93789]); (93822, [93790]); (93823, [93791]); (125218, [125184]);
   (125219, [125185]); (125220, [125186]); (125221, [125187]);
   (125222, [125188]); (125223, [125189]); (125224, [125190]);
   (125225, [125191]); (125226, [125192]); (125227, [125193]);
   (125228, [125194]); (125229, [125195]); (125230, [125196]);
   (125231, [125197]); (125232, [125198]); (125233, [125199]);
   (125234, [125200]); (125235, [125201]); (125236, [125202]);
   (125237, [125203]); (125238, [125204]); (125239, [125205]);
   (125240, [125206]); (125241, [125207]); (125242, [125208]);
   (125243, [125209]); (125244, [125210]); (125245, [125211]);
   (125246, [125212]); (125247, [125213]); (125248, [125214]);
   (125249, [125215]); (125250, [125216]); (125251, [125217])]%N.

(** The characters [str.lower] changes, with what it writes for them; the
    capital sigma (931), written according to its context, is apart. *)
Definition lower_table : list (N * list N) :=
  [(65, [97]); (66, [98]); (67, [99]); (68, [100]); (69, [101]); (70, [102]);
   (71, [103]); (72, [104]); (73, [105]); (74, [106]); (75, [107]);
   (76, [108]); (77, [109]); (78, [110]); (79, [111]); (80, [112]);
   (81, [113]); (82, [114]); (83, [115]); (84, [116]); (85, [117]);
   (86, [118]); (87, [119]); (88, [120]); (89, [121]); (90, [122]);
   (192, [224]); (193, [225]); (194, [226]); (195, [227]); (196, [228]);
   (197, [229]); (198, [230]); (199, [231]); (200, [232]); (201, [233]);
   (202, [234]); (203, [235]); (204, [236]); (205, [237]); (206, [238]);
   (207, [239]); (208, [240]); (209, [241]); (210, [242]); (211, [243]);
   (212, [244]); (213, [245]); (214, [246]); (216, [248]); (217, [249]);
   (218, [250]); (219, [251]); (220, [252]); (221, [253]); (222, [254]);
   (256, [257]); (258, [259]); (260, [261]); (262, [263]); (264, [265]);
   (266, [267]); (268, [269]); (270, [271]); (272, [273]); (274, [275]);
   (276, [277]); (278, [279]); (280, [281]); (282, [283]); (284, [285]);
   (286, [287]); (288, [289]); (290, [291]); (292, [293]); (294, [295]);
   (296, [297]); (298, [299]); (300, [301]); (302, [303]); (304, [105; 775]);
   (306, [307]); (308, [309]); (310, [311]); (313, [314]); (315, [316]);
   (317, [318]); (319, [320]); (321, [322]); (323, [324]); (325, [326]);
   (327, [328]); (330, [331]); (332, [333]); (334, [335]); (336, [337]);
   (338, [339]); (340, [341]); (342, [343]); (344, [345]); (346, [347]);
   (348, [349]); (350, [351]); (352, [353]); (354, [355]); (356, [357]);
   (358, [359]); (360, [361]); (362, [363]); (364, [365]); (366, [367]);
   (368, [369]); (370, [371]); (372, [373]); (374, [375]); (376, [255]);
   (377, [378]); (379, [380]); (381, [382]); (385, [595]); (386, [387]);
   (388, [389]); (390, [596]); (391, [392]); (393, [598]); (394, [599]);
   (395, [396]); (398, [477]); (399, [601]); (400, [603]); (401, [402]);
   (403, [608]); (404, [611]); (406, [617]); (407, [616]); (408, [409]);
   (412, [623]); (413, [626]); (415, [629]); (416, [417]); (418, [419]);
   (420, [421]); (422, [640]); (423, [424]); (425, [643]); (428, [429]);
   (430, [648]); (431, [432]); (433, [650]); (434, [651]); (435, [436]);
   (437, [438]); (439, [658]); (440, [441]); (444, [445]); (452, [454]);
   (453, [454]); (455, [457]); (456, [457]); (458, [460]); (459, [460]);
   (461, [462]); (463, [464]); (465, [466]); (467, [468]); (469, [470]);
   (471, [472]); (473, [474]); (475, [476]); (478, [479]); (480, [481]);
   (482, [483]); (484, [485]); (486, [487]); (488, [489]); (490, [491]);
   (492, [493]); (494, [495]); (497, [499]); (498, [499]); (500, [501]);
   (502, [405]); (503, [447]); (504, [505]); (506, [507]); (508, [509]);
   (510, [511]); (512, [513]); (514, [515]); (516, [517]); (518, [519]);
   (520, [521]); (522, [523]); (524, [525]); (526, [527]); (528, [529]);
   (530, [531]); (532, [533]); (534, [535]); (536, [537]); (538, [539]);
   (540, [541]); (542, [543]); (544, [414]); (546, [547]); (548, [549]);
   (550, [551]); (552, [553]); (554, [555]); (556, [557]); (558, [559]);
   (560, [561]); (562, [563]); (570, [11365]); (571, [572]); (573, [410]);
   (574, [11366]); (577, [578]); (579, [384]); (580, [649]); (581, [652]);
   (582, [583]); (584, [585]); (586, [587]); (588, [589]); (590, [591]);
   (880, [881]); (882, [883]); (886, [887]); (895, [1011]); (902, [940]);
   (904, [941]); (905, [942]); (906, [943]); (908, [972]); (910, [973]);
   (911, [974]); (913, [945]); (914, [946]); (915, [947]); (916, [948]);
   (917, [949]); (918, [950]); (919, [951]); (920, [952]); (921, [953]);
   (922, [954]); (923, [955]); (924, [956]); (925, [957]); (926, [958]);
   (927, [959]); (928, [960]); (929, [961]); (932, [964]); (933, [965]);
   (934, [966]); (935, [967]); (936, [968]); (937, [969]); (938, [970]);
   (939, [971]); (975, [983]); (984, [985]); (986, [987]); (988, [989]);
   (990, [991]); (992, [993]); (994, [995]); (996, [997]); (998, [999]);
   (1000, [1001]); (1002, [1003]); (1004, [1005]); (1006, [1007]);
   (1012, [952]); (1015, [1016]); (1017, [1010]); (1018, [1019]);
   (1021, [891]); (1022, [892]); (1023, [893]); (1024, [1104]);
   (1025, [1105]); (1026, [1106]); (1027, [1107]); (1028, [1108]);
   (1029, [1109]); (1030, [1110]); (1031, [1111]); (1032, [1112]);
   (1033, [1113]); (1034, [1114]); (1035, [1115]); (1036, [1116]);
   (1037, [1117]); (1038, [1118]); (1039, [1119]); (1040, [1072]);
   (1041, [1073]); (1042, [1074]); (1043, [1075]); (1044, [1076]);
   (1045, [1077]); (1046, [1078]); (1047, [1079]); (1048, [1080]);
   (1049, [1081]); (1050, [1082]); (1051, [1083]); (1052, [1084]);
   (1053, [1085]); (1054, [1086]); (1055, [1087]); (1056, [1088]);
   (1057, [1089]); (1058, [1090]); (1059, [1091]); (1060, [1092]);
   (1061, [1093]); (1062, [1094]); (1063, [1095]); (1064, [1096]);
   (1065, [1097]); (1066, [1098]); (1067, [1099]); (1068, [1100]);
   (1069, [1101]); (1070, [1102]); (1071, [1103]); (1120, [1121]);
   (1122, [1123]); (1124, [1125]); (1126, [1127]); (1128, [1129]);
   (1130, [1131]); (1132, [1133]); (1134, [1135]); (1136, [1137]);
   (1138, [1139]); (1140, [1141]); (1142, [1143]); (1144, [1145]);
   (1146, [1147]); (1148, [1149]); (1150, [1151]); (1152, [1153]);
   (1162, [1163]); (1164, [1165]); (1166, [1167]); (1168, [1169]);
   (1170, [1171]); (1172, [1173]); (1174, [1175]); (1176, [1177]);
   (1178, [1179]); (1180, [1181]); (1182, [1183]); (1184, [1185]);
   (1186, [1187]); (1188, [1189]); (1190, [1191]); (1192, [1193]);
   (1194, [1195]); (1196, [1197]); (1198, [1199]); (1200, [1201]);
   (1202, [1203]); (1204, [1205]); (1206, [1207]); (1208, [1209]);
   (1210, [1211]); (1212, [1213]); (1214, [1215]); (1216, [1231]);
   (1217, [1218]); (1219, [1220]); (1221, [1222]); (1223, [1224]);
   (1225, [1226]); (1227, [1228]); (1229, [1230]); (1232, [1233]);
   (1234, [1235]); (1236, [1237]); (1238, [1239]); (1240, [1241]);
   (1242, [1243]); (1244, [1245]); (1246, [1247]); (1248, [1249]);
   (1250, [1251]); (1252, [1253]); (1254, [1255]); (1256, [1257]);
   (1258, [1259]); (1260, [1261]); (1262, [1263]); (1264, [1265]);
   (1266, [1267]); (1268, [1269]); (1270, [1271]); (1272, [1273]);
   (1274, [1275]); (1276, [1277]); (1278, [1279]); (1280, [1281]);
   (1282, [1283]); (1284, [1285]); (1286, [1287]); (1288, [1289]);
   (1290, [1291]); (1292, [1293]); (1294, [1295]); (1296, [1297]);
   (1298, [1299]); (1300, [1301]); (1302, [1303]); (1304, [1305]);
   (1306, [1307]); (1308, [1309]); (1310, [1311]); (1312, [1313]);
   (1314, [1315]); (1316, [1317]); (1318, [1319]); (1320, [1321]);
   (1322, [1323]); (1324, [1325]); (1326, [1327]); (1329, [1377]);
   (1330, [1378]); (1331, [1379]); (1332, [1380]); (1333, [1381]);
   (1334, [1382]); (1335, [1383]); (1336, [1384]); (1337, [1385]);
   (1338, [1386]); (1339, [1387]); (1340, [1388]); (1341, [1389]);
   (1342, [1390]); (1343, [1391]); (1344, [1392]); (1345, [1393]);
   (1346, [1394]); (1347, [1395]); (1348, [1396]); (1349, [1397]);
   (1350, [1398]); (1351, [1399]); (1352, [1400]); (1353, [1401]);
   (1354, [1402]); (1355, [1403]); (1356, [1404]); (1357, [1405]);
   (1358, [1406]); (1359, [1407]); (1360, [1408]); (1361, [1409]);
   (1362, [1410]); (1363, [1411]); (1364, [1412]); (1365, [1413]);
   (1366, [1414]); (4256, [11520]); (4257, [11521]); (4258, [11522]);
   (4259, [11523]); (4260, [11524]); (4261, [11525]); (4262, [11526]);
   (4263, [11527]); (4264, [11528]); (4265, [11529]); (4266, [11530]);
   (4267, [11531]); (4268, [11532]); (4269, [11533]); (4270, [11534]);
   (4271, [11535]); (4272, [11536]); (4273, [11537]); (4274, [11538]);
   (4275, [11539]); (4276, [11540]); (4277, [11541]); (4278, [11542]);
   (4279, [11543]); (4280, [11544]); (4281, [11545]); (4282, [11546]);
   (4283, [11547]); (4284, [11548]); (4285, [11549]); (4286, [11550]);
   (4287, [11551]); (4288, [11552]); (4289, [11553]); (4290, [11554]);
   (4291, [11555]); (4292, [11556]); (4293, [11557]); (4295, [11559]);
   (4301, [11565]); (5024, [43888]); (5025, [43889]); (5026, [43890]);
   (5027, [43891]); (5028, [43892]); (5029, [43893]); (5030, [43894]);
   (5031, [43895]); (5032, [43896]); (5033, [43897]); (5034, [43898]);
   (5035, [43899]); (5036, [43900]); (5037, [43901]); (5038, [43902]);
   (5039, [43903]); (5040, [43904]); (5041, [43905]); (5042, [43906]);
   (5043, [43907]); (5044, [43908]); (5045, [43909]); (5046, [43910]);
   (5047, [43911]); (5048, [43912]); (5049, [43913]); (5050, [43914]);
   (5051, [43915]); (5052, [43916]); (5053, [43917]); (5054, [43918]);
   (5055, [43919]); (5056, [43920]); (5057, [43921]); (5058, [43922]);
   (5059, [43923]); (5060, [43924]); (5061, [43925]); (5062, [43926]);
   (5063, [43927]); (5064, [43928]); (5065, [43929]); (5066, [43930]);
   (5067, [43931]); (5068, [43932]); (5069, [43933]); (5070, [43934]);
   (5071, [43935]); (5072, [43936]); (5073, [43937]); (5074, [43938]);
   (5075, [43939]); (5076, [43940]); (5077, [43941]); (5078, [43942]);
   (5079, [43943]); (5080, [43944]); (5081, [43945]); (5082, [43946]);
   (5083, [43947]); (5084, [43948]); (5085, [43949]); (5086, [43950]);
   (5087, [43951]); (5088, [43952]); (5089, [43953]); (5090, [43954]);
   (5091, [43955]); (5092, [43956]); (5093, [43957]); (5094, [43958]);
   (5095, [43959]); (5096, [43960]); (5097, [43961]); (5098, [43962]);
   (5099, [43963]); (5100, [43964]); (5101, [43965]); (5102, [43966]);
   (5103, [43967]); (5104, [5112]); (5105, [5113]); (5106, [5114]);
   (5107, [5115]); (5108, [5116]); (5109, [5117]); (7312, [4304]);
   (7313, [4305]); (7314, [4306]); (7315, [4307]); (7316, [4308]);
   (7317, [4309]); (7318, [4310]); (7319, [4311]); (7320, [4312]);
   (7321, [4313]); (7322, [4314]); (7323, [4315]); (7324, [4316]);
   (7325, [4317]); (7326, [4318]); (7327, [4319]); (7328, [4320]);
   (7329, [4321]); (7330, [4322]); (7331, [4323]); (7332, [4324]);
   (7333, [4325]); (7334, [4326]); (7335, [4327]); (7336, [4328]);
   (7337, [4329]); (7338, [4330]); (7339, [4331]); (7340, [4332]);
   (7341, [4333]); (7342, [4334]); (7343, [4335]); (7344, [4336]);
   (7345, [4337]); (7346, [4338]); (7347, [4339]); (7348, [4340]);
   (7349, [4341]); (7350, [4342]); (7351, [4343]); (7352, [4344]);
   (7353, [4345]); (7354, [4346]); (7357, [4349]); (7358, [4350]);
   (7359, [4351]); (7680, [7681]); (7682, [7683]); (7684, [7685]);
   (7686, [7687]); (7688, [7689]); (7690, [7691]); (7692, [7693]);
   (7694, [7695]); (7696, [7697]); (7698, [7699]); (7700, [7701]);
   (7702, [7703]); (7704, [7705]); (7706, [7707]); (7708, [7709]);
   (7710, [7711]); (7712, [7713]); (7714, [7715]); (7716, [7717]);
   (7718, [7719]); (7720, [7721]); (7722, [7723]); (7724, [7725]);
   (7726, [7727]); (7728, [7729]); (7730, [7731]); (7732, [7733]);
   (7734, [7735]); (7736, [7737]); (7738, [7739]); (7740, [7741]);
   (7742, [7743]); (7744, [7745]); (7746, [7747]); (7748, [7749]);
   (7750, [7751]); (7752, [7753]); (7754, [7755]); (7756, [7757]);
   (7758, [7759]); (7760, [7761]); (7762, [7763]); (7764, [7765]);
   (7766, [7767]); (7768, [7769]); (7770, [7771]); (7772, [7773]);
   (7774, [7775]); (7776, [7777]); (7778, [7779]); (7780, [7781]);
   (7782, [7783]); (7784, [7785]); (7786, [7787]); (7788, [7789]);
   (7790, [7791]); (7792, [7793]); (7794, [7795]); (7796, [7797]);
   (7798, [7799]); (7800, [7801]); (7802, [7803]); (7804, [7805]);
   (7806, [7807]); (7808, [7809]); (7810, [7811]); (7812, [7813]);
   (7814, [7815]); (7816, [7817]); (7818, [7819]); (7820, [7821]);
   (7822, [7823]); (7824, [7825]); (7826, [7827]); (7828, [7829]);
   (7838, [223]); (7840, [7841]); (7842, [7843]); (7844, [7845]);
   (7846, [7847]); (7848, [7849]); (7850, [7851]); (7852, [7853]);
   (7854, [7855]); (7856, [7857]); (7858, [7859]); (7860, [7861]);
   (7862, [7863]); (7864, [7865]); (7866, [7867]); (7868, [7869]);
   (7870, [7871]); (7872, [7873]); (7874, [7875]); (7876, [7877]);
   (7878, [7879]); (7880, [7881]); (7882, [7883]); (7884, [7885]);
   (7886, [7887]); (7888, [7889]); (7890, [7891]); (7892, [7893]);
   (7894, [7895]); (7896, [7897]); (7898, [7899]); (7900, [7901]);
   (7902, [7903]); (7904, [7905]); (7906, [7907]); (7908, [7909]);
   (7910, [7911]); (7912, [7913]); (7914, [7915]); (7916, [7917]);
   (7918, [7919]); (7920, [7921]); (7922, [7923]); (7924, [7925]);
   (7926, [7927]); (7928, [7929]); (7930, [7931]); (7932, [7933]);
   (7934, [7935]); (7944, [7936]); (7945, [7937]); (7946, [7938]);
   (7947, [7939]); (7948, [7940]); (7949, [7941]); (7950, [7942]);
   (7951, [7943]); (7960, [7952]); (7961, [7953]); (7962, [7954]);
   (7963, [7955]); (7964, [7956]); (7965, [7957]); (7976, [7968]);
   (7977, [7969]); (7978, [7970]); (7979, [7971]); (7980, [7972]);
   (7981, [7973]); (7982, [7974]); (7983, [7975]); (7992, [7984]);
   (7993, [7985]); (7994, [7986]); (7995, [7987]); (7996, [7988]);
   (7997, [7989]); (7998, [7990]); (7999, [7991]); (8008, [8000]);
   (8009, [8001]); (8010, [8002]); (8011, [8003]); (8012, [8004]);
   (8013, [8005]); (8025, [8017]); (8027, [8019]); (8029, [8021]);
   (8031, [8023]); (8040, [8032]); (8041, [8033]); (8042, [8034]);
   (8043, [8035]); (8044, [8036]); (8045, [8037]); (8046, [8038]);
   (8047, [8039]); (8072, [8064]); (8073, [8065]); (8074, [8066]);
   (8075, [8067]); (8076, [8068]); (8077, [8069]); (8078, [8070]);
   (8079, [8071]); (8088, [8080]); (8089, [8081]); (8090, [8082]);
   (8091, [8083]); (8092, [8084]); (8093, [8085]); (8094, [8086]);
   (8095, [8087]); (8104, [8096]); (8105, [8097]); (8106, [8098]);
   (8107, [8099]); (8108, [8100]); (8109, [8101]); (8110, [8102]);
   (8111, [8103]); (8120, [8112]); (8121, [8113]); (8122, [8048]);
   (8123, [8049]); (8124, [8115]); (8136, [8050]); (8137, [8051]);
   (8138, [8052]); (8139, [8053]); (8140, [8131]); (8152, [8144]);
   (8153, [8145]); (8154, [8054]); (8155, [8055]); (8168, [8160]);
   (8169, [8161]); (8170, [8058]); (8171, [8059]); (8172, [8165]);
   (8184, [8056]); (8185, [8057]); (8186, [8060]); (8187, [8061]);
   (8188, [8179]); (8486, [969]); (8490, [107]); (8491, [229]);
   (8498, [8526]); (8544, [8560]); (8545, [8561]); (8546, [8562]);
   (8547, [8563]); (8548, [8564]); (8549, [8565]); (8550, [8566]);
   (8551, [8567]); (8552, [8568]); (8553, [8569]); (8554, [8570]);
   (8555, [8571]); (8556, [8572]); (8557, [8573]); (8558, [8574]);
   (8559, [8575]); (8579, [8580]); (9398, [9424]); (9399, [9425]);
   (9400, [9426]); (9401, [9427]); (9402, [9428]); (9403, [9429]);
   (9404, [9430]); (9405, [9431]); (9406, [9432]); (9407, [9433]);
   (9408, [9434]); (9409, [9435]); (9410, [9436]); (9411, [9437]);
   (9412, [9438]); (9413, [9439]); (9414, [9440]); (9415, [9441]);
   (9416, [9442]); (9417, [9443]); (9418, [9444]); (9419, [9445]);
   (9420, [9446]); (9421, [9447]); (9422, [9448]); (9423, [9449]);
   (11264, [11312]); (11265, [11313]); (11266, [11314]); (11267, [11315]);
   (11268, [11316]); (11269, [11317]); (11270, [11318]); (11271, [11319]);
   (11272, [11320]); (11273, [11321]); (11274, [11322]); (11275, [11323]);
   (11276, [11324]); (11277, [11325]); (11278, [11326]); (11279, [11327]);
   (11280, [11328]); (11281, [11329]); (11282, [11330]); (11283, [11331]);
   (11284, [11332]); (11285, [11333]); (11286, [11334]); (11287, [11335]);
   (11288, [11336]); (11289, [11337]); (11290, [11338]); (11291, [11339]);
   (11292, [11340]); (11293, [11341]); (11294, [11342]); (11295, [11343]);
   (11296, [11344]); (11297, [11345]); (11298, [11346]); (11299, [11347]);
   (11300, [11348]); (11301, [11349]); (11302, [11350]); (11303, [11351]);
   (11304, [11352]); (11305, [11353]); (11306, [11354]); (11307, [11355]);
   (11308, [11356]); (11309, [11357]); (11310, [11358]); (11311, [11359]);
   (11360, [11361]); (11362, [619]); (11363, [7549]); (11364, [637]);
   (11367, [11368]); (11369, [11370]); (11371, [11372]); (11373, [593]);
   (11374, [625]); (11375, [592]); (11376, [594]); (11378, [11379]);
   (11381, [11382]); (11390, [575]); (11391, [576]); (11392, [11393]);
   (11394, [11395]); (11396, [11397]); (11398, [11399]); (11400, [11401]);
   (11402, [11403]); (11404, [11405]); (11406, [11407]); (11408, [11409]);
   (11410, [11411]); (11412, [11413]); (11414, [11415]); (11416, [11417]);
   (11418, [11419]); (11420, [11421]); (11422, [11423]); (11424, [11425]);
   (11426, [11427]); (11428, [11429]); (11430, [11431]); (11432, [11433]);
   (11434, [11435]); (11436, [11437]); (11438, [11439]); (11440, [11441]);
   (11442, [11443]); (11444, [11445]); (11446, [11447]); (11448, [11449]);
   (11450, [11451]); (11452, [11453]); (11454, [11455]); (11456, [11457]);
   (11458, [11459]); (11460, [11461]); (11462, [11463]); (11464, [11465]);
   (11466, [11467]); (11468, [11469]); (11470, [11471]); (11472, [11473]);
   (11474, [11475]); (11476, [11477]); (11478, [11479]); (11480, [11481]);
   (11482, [11483]); (11484, [11485]); (11486, [11487]); (11488, [11489]);
   (11490, [11491]); (11499, [11500]); (11501, [11502]); (11506, [11507]);
   (42560, [42561]); (42562, [42563]); (42564, [42565]); (42566, [42567]);
   (42568, [42569]); (42570, [42571]); (42572, [42573]); (42574, [42575]);
   (42576, [42577]); (42578, [42579]); (42580, [42581]); (42582, [42583]);
   (42584, [42585]); (42586, [42587]); (42588, [42589]); (42590, [42591]);
   (42592, [42593]); (42594, [42595]); (42596, [42597]); (42598, [42599]);
   (42600, [42601]); (42602, [42603]); (42604, [42605]); (42624, [42625]);
   (42626, [42627]); (42628, [42629]); (42630, [42631]); (42632, [42633]);
   (42634, [42635]); (42636, [42637]); (42638, [42639]); (42640, [42641]);
   (42642, [42643]); (42644, [42645]); (42646, [42647]); (42648, [42649]);
   (42650, [42651]); (42786, [42787]); (42788, [42789]); (42790, [42791]);
   (42792, [42793]); (42794, [42795]); (42796, [42797]); (42798, [42799]);
   (42802, [42803]); (42804, [42805]); (42806, [42807]); (42808, [42809]);
   (42810, [42811]); (42812, [42813]); (42814, [42815]); (42816, [42817]);
   (42818, [42819]); (42820, [42821]); (42822, [42823]); (42824, [42825]);
   (42826, [42827]); (42828, [42829]); (42830, [42831]); (42832, [42833]);
   (42834, [42835]); (42836, [42837]); (42838, [42839]); (42840, [42841]);
   (42842, [42843]); (42844, [42845]); (42846, [42847]); (42848, [42849]);
   (42850, [42851]); (42852, [42853]); (42854, [42855]); (42856, [42857]);
   (42858, [42859]); (42860, [42861]); (42862, [42863]); (42873, [42874]);
   (42875, [42876]); (42877, [7545]); (42878, [42879]); (42880, [42881]);
   (42882, [42883]); (42884, [42885]); (42886, [42887]); (42891, [42892]);
   (42893, [613]); (42896, [42897]); (42898, [42899]); (42902, [42903]);
   (42904, [42905]); (42906, [42907]); (42908, [42909]); (42910, [42911]);
   (42912, [42913]); (42914, [42915]); (42916, [42917]); (42918, [42919]);
   (42920, [42921]); (42922, [614]); (42923, [604]); (42924, [609]);
   (42925, [620]); (42926, [618]); (42928, [670]); (42929, [647]);
   (42930, [669]); (42931, [43859]); (42932, [42933]); (42934, [42935]);
   (42936, [42937]); (42938, [42939]); (42940, [42941]); (42942, [42943]);
   (42944, [42945]); (42946, [42947]); (42948, [42900]); (42949, [642]);
   (42950, [7566]); (42951, [42952]); (42953, [42954]); (42960, [42961]);
   (42966, [42967]); (42968, [42969]); (42997, [42998]); (65313, [65345]);
   (65314, [65346]); (65315, [65347]); (65316, [65348]); (65317, [65349]);
   (65318, [65350]); (65319, [65351]); (65320, [65352]); (65321, [65353]);
   (65322, [65354]); (65323, [65355]); (65324, [65356]); (65325, [65357]);
   (65326, [65358]); (65327, [65359]); (65328, [65360]); (65329, [65361]);
   (65330, [65362]); (65331, [65363]); (65332, [65364]); (65333, [65365]);
   (65334, [65366]); (65335, [65367]); (65336, [65368]); (65337, [65369]);
   (65338, [65370]); (66560, [66600]); (66561, [66601]); (66562, [66602]);
   (66563, [66603]); (66564, [66604]); (66565, [66605]); (66566, [66606]);
   (66567, [66607]); (66568, [66608]); (66569, [66609]); (66570, [66610]);
   (66571, [66611]); (66572, [66612]); (66573, [66613]); (66574, [66614]);
   (66575, [66615]); (66576, [66616]); (66577, [66617]); (66578, [66618]);
   (66579, [66619]); (66580, [66620]); (66581, [66621]); (66582, [66622]);
   (66583, [66623]); (66584, [66624]); (66585, [66625]); (66586, [66626]);
   (66587, [66627]); (66588, [66628]); (66589, [66629]); (66590, [66630]);
   (66591, [66631]); (66592, [66632]); (66593, [66633]); (66594, [66634]);
   (66595, [66635]); (66596, [66636]); (66597, [66637]); (66598, [66638]);
   (66599, [66639]); (66736, [66776]); (66737, [66777]); (66738, [66778]);
   (66739, [66779]); (66740, [66780]); (66741, [66781]); (66742, [66782]);
   (66743, [66783]); (66744, [66784]); (66745, [66785]); (66746, [66786]);
   (66747, [66787]); (66748, [66788]); (66749, [66789]); (66750, [66790]);
   (66751, [66791]); (66752, [66792]); (66753, [66793]); (66754, [66794]);
   (66755, [66795]); (66756, [66796]); (66757, [66797]); (66758, [66798]);
   (66759, [66799]); (66760, [66800]); (66761, [66801]); (66762, [66802]);
   (66763, [66803]); (66764, [66804]); (66765, [66805]); (66766, [66806]);
   (66767, [66807]); (66768, [66808]); (66769, [66809]); (66770, [66810]);
   (66771, [66811]); (66928, [66967]); (66929, [66968]); (66930, [66969]);
   (66931, [66970]); (66932, [66971]); (66933, [66972]); (66934, [66973]);
   (66935, [66974]); (66936, [66975]); (66937, [66976]); (66938, [66977]);
   (66940, [66979]); (66941, [66980]); (66942, [66981]); (66943, [66982]);
   (66944, [66983]); (66945, [66984]); (66946, [66985]); (66947, [66986]);
   (66948, [66987]); (66949, [66988]); (66950, [66989]); (66951, [66990]);
   (66952, [66991]); (66953, [66992]); (66954, [66993]); (66956, [66995]);
   (66957, [66996]); (66958, [66997]); (66959, [66998]); (66960, [66999]);
   (66961, [67000]); (66962, [67001]); (66964, [67003]); (66965, [67004]);
   (68736, [68800]); (68737, [68801]); (68738, [68802]); (68739, [68803]);
   (68740, [68804]); (68741, [68805]); (68742, [68806]); (68743, [68807]);
   (68744, [68808]); (68745, [68809]); (68746, [68810]); (68747, [68811]);
   (68748, [68812]); (68749, [68813]); (68750, [68814]); (68751, [68815]);
   (68752, [68816]); (68753, [68817]); (68754, [68818]); (68755, [68819]);
   (68756, [68820]); (68757, [68821]); (68758, [68822]); (68759, [68823]);
   (68760, [68824]); (68761, [68825]); (68762, [68826]); (68763, [68827]);
   (68764, [68828]); (68765, [68829]); (68766, [68830]); (68767, [68831]);
   (68768, [68832]); (68769, [68833]); (68770, [68834]); (68771, [68835]);
   (68772, [68836]); (68773, [68837]); (68774, [68838]); (68775, [68839]);
   (68776, [68840]); (68777, [68841]); (68778, [68842]); (68779, [68843]);
   (68780, [68844]); (68781, [68845]); (68782, [68846]); (68783, [68847]);
   (68784, [68848]); (68785, [68849]); (68786, [68850]); (71840, [71872]);
   (71841, [71873]); (71842, [71874]); (71843, [71875]); (71844, [71876]);
   (71845, [71877]); (71846, [71878]); (71847, [71879]); (71848, [71880]);
   (71849, [71881]); (71850, [71882]); (71851, [71883]); (71852, [71884]);
   (71853, [71885]); (71854, [71886]); (71855, [71887]); (71856, [71888]);
   (71857, [71889]); (71858, [71890]); (71859, [71891]); (71860, [71892]);
   (71861, [71893]); (71862, [71894]); (71863, [71895]); (71864, [71896]);
   (71865, [71897]); (71866, [71898]); (71867, [71899]); (71868, [71900]);
   (71869, [71901]); (71870, [71902]); (71871, [71903]); (93760, [93792]);
   (93761, [93793]); (93762, [93794]); (93763, [93795]); (93764, [93796]);
   (93765, [93797]); (93766, [93798]); (93767, [93799]); (93768, [93800]);
   (93769, [93801]); (93770, [93802]); (93771, [93803]); (93772, [93804]);
   (93773, [93805]); (93774, [93806]); (93775, [93807]); (93776, [93808]);
   (93777, [93809]); (93778, [93810]); (93779, [93811]); (93780, [93812]);
   (93781, [93813]); (93782, [93814]); (93783, [93815]); (93784, [93816]);
   (93785, [93817]); (93786, [93818]); (93787, [93819]); (93788, [93820]);
   (93789, [93821]); (93790, [93822]); (93791, [93823]); (125184, [125218]);
   (125185, [125219]); (125186, [125220]); (125187, [125221]);
   (125188, [125222]); (125189, [125223]); (125190, [125224]);
   (125191, [125225]); (125192, [125226]); (125193, [125227]);
   (125194, [125228]); (125195, [125229]); (125196, [125230]);
   (125197, [125231]); (125198, [125232]); (125199, [125233]);
   (125200, [125234]); (125201, [125235]); (125202, [125236]);
   (125203, [125237]); (125204, [125238]); (125205, [125239]);
   (125206, [125240]); (125207, [125241]); (125208, [125242]);
   (125209, [125243]); (125210, [125244]); (125211, [125245]);
   (125212, [125246]); (125213, [125247]); (125214, [125248]);
   (125215, [125249]); (125216, [125250]); (125217, [125251])]%N.

(** The case-ignorable characters. *)
Definition case_ignorable : list (N * N) :=
  [(39, 39); (46, 46); (58, 58); (94, 94); (96, 96); (168, 168); (173, 173);
   (175, 175); (180, 180); (183, 184); (688, 879); (884, 885); (890, 890);
   (900, 901); (903, 903); (1155, 1161); (1369, 1369); (1375, 1375);
   (1425, 1469); (1471, 1471); (1473, 1474); (1476, 1477); (1479, 1479);
   (1524, 1524); (1536, 1541); (1552, 1562); (1564, 1564); (1600, 1600);
   (1611, 1631); (1648, 1648); (1750, 1757); (1759, 1768); (1770, 1773);
   (1807, 1807); (1809, 1809); (1840, 1866); (1958, 1968); (2027, 2037);
   (2042, 2042); (2045, 2045); (2070, 2093); (2137, 2139); (2184, 2184);
   (2192, 2193); (2200, 2207); (2249, 2306); (2362, 2362); (2364, 2364);
   (2369, 2376); (2381, 2381); (2385, 2391); (2402, 2403); (2417, 2417);
   (2433, 2433); (2492, 2492); (2497, 2500); (2509, 2509); (2530, 2531);
   (2558, 2558); (2561, 2562); (2620, 2620); (2625, 2626); (2631, 2632);
   (2635, 2637); (2641, 2641); (2672, 2673); (2677, 2677); (2689, 2690);
   (2748, 2748); (2753, 2757); (2759, 2760); (2765, 2765); (2786, 2787);
   (2810, 2815); (2817, 2817); (2876, 2876); (2879, 2879); (2881, 2884);
   (2893, 2893); (2901, 2902); (2914, 2915); (2946, 2946); (3008, 3008);
   (3021, 3021); (3072, 3072); (3076, 3076); (3132, 3132); (3134, 3136);
   (3142, 3144); (3146, 3149); (3157, 3158); (3170, 3171); (3201, 3201);
   (3260, 3260); (3263, 3263); (3270, 3270); (3276, 3277); (3298, 3299);
   (3328, 3329); (3387, 3388); (3393, 3396); (3405, 3405); (3426, 3427);
   (3457, 3457); (3530, 3530); (3538, 3540); (3542, 3542); (3633, 3633);
   (3636, 3642); (3654, 3662); (3761, 3761); (3764, 3772); (3782, 3782);
   (3784, 3789); (3864, 3865); (3893, 3893); (3895, 3895); (3897, 3897);
   (3953, 3966); (3968, 3972); (3974, 3975); (3981, 3991); (3993, 4028);
   (4038, 4038); (4141, 4144); (4146, 4151); (4153, 4154); (4157, 4158);
   (4184, 4185); (4190, 4192); (4209, 4212); (4226, 4226); (4229, 4230);
   (4237, 4237); (4253, 4253); (4348, 4348); (4957, 4959); (5906, 5908);
   (5938, 5939); (5970, 5971); (6002, 6003); (6068, 6069); (6071, 6077);
   (6086, 6086); (6089, 6099); (6103, 6103); (6109, 6109); (6155, 6159);
   (6211, 6211); (6277, 6278); (6313, 6313); (6432, 6434); (6439, 6440);
   (6450, 6450); (6457, 6459); (6679, 6680); (6683, 6683); (6742, 6742);
   (6744, 6750); (6752, 6752); (6754, 6754); (6757, 6764); (6771, 6780);
   (6783, 6783); (6823, 6823); (6832, 6862); (6912, 6915); (6964, 6964);
   (6966, 6970); (6972, 6972); (6978, 6978); (7019, 7027); (7040, 7041);
   (7074, 7077); (7080, 7081); (7083, 7085); (7142, 7142); (7144, 7145);
   (7149, 7149); (7151, 7153); (7212, 7219); (7222, 7223); (7288, 7293);
   (7376, 7378); (7380, 7392); (7394, 7400); (7405, 7405); (7412, 7412);
   (7416, 7417); (7468, 7530); (7544, 7544); (7579, 7679); (8125, 8125);
   (8127, 8129); (8141, 8143); (8157, 8159); (8173, 8175); (8189, 8190);
   (8203, 8207); (8216, 8217); (8228, 8228); (8231, 8231); (8234, 8238);
   (8288, 8292); (8294, 8303); (8305, 8305); (8319, 8319); (8336, 8348);
   (8400, 8432); (11388, 11389); (11503, 11505); (11631, 11631);
   (11647, 11647); (11744, 11775); (11823, 11823); (12293, 12293);
   (12330, 12333); (12337, 12341); (12347, 12347); (12441, 12446);
   (12540, 12542); (40981, 40981); (42232, 42237); (42508, 42508);
   (42607, 42610); (42612, 42621); (42623, 42623); (42652, 42655);
   (42736, 42737); (42752, 42785); (42864, 42864); (42888, 42890);
   (42994, 42996); (43000, 43001); (43010, 43010); (43014, 43014);
   (43019, 43019); (43045, 43046); (43052, 43052); (43204, 43205);
   (43232, 43249); (43263, 43263); (43302, 43309); (43335, 43345);
   (43392, 43394); (43443, 43443); (43446, 43449); (43452, 43453);
   (43471, 43471); (43493, 43494); (43561, 43566); (43569, 43570);
   (43573, 43574); (43587, 43587); (43596, 43596); (43632, 43632);
   (43644, 43644); (43696, 43696); (43698, 43700); (43703, 43704);
   (43710, 43711); (43713, 43713); (43741, 43741); (43756, 43757);
   (43763, 43764); (43766, 43766); (43867, 43871); (43881, 43883);
   (44005, 44005); (44008, 44008); (44013, 44013); (64286, 64286);
   (64434, 64450); (65024, 65039); (65043, 65043); (65056, 65071);
   (65106, 65106); (65109, 65109); (65279, 65279); (65287, 65287);
   (65294, 65294); (65306, 65306); (65342, 65342); (65344, 65344);
   (65392, 65392); (65438, 65439); (65507, 65507); (65529, 65531);
   (66045, 66045); (66272, 66272); (66422, 66426); (67456, 67461);
   (67463, 67504); (67506, 67514); (68097, 68099); (68101, 68102);
   (68108, 68111); (68152, 68154); (68159, 68159); (68325, 68326);
   (68900, 68903); (69291, 69292); (69446, 69456); (69506, 69509);
   (69633, 69633); (69688, 69702); (69744, 69744); (69747, 69748);
   (69759, 69761); (69811, 69814); (69817, 69818); (69821, 69821);
   (69826, 69826); (69837, 69837); (69888, 69890); (69927, 69931);
   (69933, 69940); (70003, 70003); (70016, 70017); (70070, 70078);
   (70089, 70092); (70095, 70095); (70191, 70193); (70196, 70196);
   (70198, 70199); (70206, 70206); (70367, 70367); (70371, 70378);
   (70400, 70401); (70459, 70460); (70464, 70464); (70502, 70508);
   (70512, 70516); (70712, 70719); (70722, 70724); (70726, 70726);
   (70750, 70750); (70835, 70840); (70842, 70842); (70847, 70848);
   (70850, 70851); (71090, 71093); (71100, 71101); (71103, 71104);
   (71132, 71133); (71219, 71226); (71229, 71229); (71231, 71232);
   (71339, 71339); (71341, 71341); (71344, 71349); (71351, 71351);
   (71453, 71455); (71458, 71461); (71463, 71467); (71727, 71735);
   (71737, 71738); (71995, 71996); (71998, 71998); (72003, 72003);
   (72148, 72151); (72154, 72155); (72160, 72160); (72193, 72202);
   (72243, 72248); (72251, 72254); (72263, 72263); (72273, 72278);
   (72281, 72283); (72330, 72342); (72344, 72345); (72752, 72758);
   (72760, 72765); (72767, 72767); (72850, 72871); (72874, 72880);
   (72882, 72883); (72885, 72886); (73009, 73014); (73018, 73018);
   (73020, 73021); (73023, 73029); (73031, 73031); (73104, 73105);
   (73109, 73109); (73111, 73111); (73459, 73460); (78896, 78904);
   (92912, 92916); (92976, 92982); (92992, 92995); (94031, 94031);
   (94095, 94111); (94176, 94177); (94179, 94180); (110576, 110579);
   (110581, 110587); (110589, 110590); (113821, 113822); (113824, 113827);
   (118528, 118573); (118576, 118598); (119143, 119145); (119155, 119170);
   (119173, 119179); (119210, 119213); (119362, 119364); (121344, 121398);
   (121403, 121452); (121461, 121461); (121476, 121476); (121499, 121503);
   (121505, 121519); (122880, 122886); (122888, 122904); (122907, 122913);
   (122915, 122916); (122918, 122922); (123184, 123197); (123566, 123566);
   (123628, 123631); (125136, 125142); (125252, 125259); (127995, 127999);
   (917505, 917505); (917536, 917631); (917760, 917999)]%N.

(** The cased characters among those that are not case-ignorable. *)
Definition cased : list (N * N) :=
  [(65, 90); (97, 122); (170, 170); (181, 181); (186, 186); (192, 214);
   (216, 246); (248, 442); (444, 447); (452, 659); (661, 687); (880, 883);
   (886, 887); (891, 893); (895, 895); (902, 902); (904, 906); (908, 908);
   (910, 929); (931, 1013); (1015, 1153); (1162, 1327); (1329, 1366);
   (1376, 1416); (4256, 4293); (4295, 4295); (4301, 4301); (4304, 4346);
   (4349, 4351); (5024, 5109); (5112, 5117); (7296, 7304); (7312, 7354);
   (7357, 7359); (7424, 7467); (7531, 7543); (7545, 7578); (7680, 7957);
   (7960, 7965); (7968, 8005); (8008, 8013); (8016, 8023); (8025, 8025);
   (8027, 8027); (8029, 8029); (8031, 8061); (8064, 8116); (8118, 8124);
   (8126, 8126); (8130, 8132); (8134, 8140); (8144, 8147); (8150, 8155);
   (8160, 8172); (8178, 8180); (8182, 8188); (8450, 8450); (8455, 8455);
   (8458, 8467); (8469, 8469); (8473, 8477); (8484, 8484); (8486, 8486);
   (8488, 8488); (8490, 8493); (8495, 8500); (8505, 8505); (8508, 8511);
   (8517, 8521); (8526, 8526); (8544, 8575); (8579, 8580); (9398, 9449);
   (11264, 11387); (11390, 11492); (11499, 11502); (11506, 11507);
   (11520, 11557); (11559, 11559); (11565, 11565); (42560, 42605);
   (42624, 42651); (42786, 42863); (42865, 42887); (42891, 42894);
   (42896, 42954); (42960, 42961); (42963, 42963); (42965, 42969);
   (42997, 42998); (43002, 43002); (43824, 43866); (43872, 43880);
   (43888, 43967); (64256, 64262); (64275, 64279); (65313, 65338);
   (65345, 65370); (66560, 66639); (66736, 66771); (66776, 66811);
   (66928, 66938); (66940, 66954); (66956, 66962); (66964, 66965);
   (66967, 66977); (66979, 66993); (66995, 67001); (67003, 67004);
   (68736, 68786); (68800, 68850); (71840, 71903); (93760, 93823);
   (119808, 119892); (119894, 119964); (119966, 119967); (119970, 119970);
   (119973, 119974); (119977, 119980); (119982, 119993); (119995, 119995);
   (119997, 120003); (120005, 120069); (120071, 120074); (120077, 120084);
   (120086, 120092); (120094, 120121); (120123, 120126); (120128, 120132);
   (120134, 120134); (120138, 120144); (120146, 120485); (120488, 120512);
   (120514, 120538); (120540, 120570); (120572, 120596); (120598, 120628);
   (120630, 120654); (120656, 120686); (120688, 120712); (120714, 120744);
   (120746, 120770); (120772, 120779); (122624, 122633); (122635, 122654);
   (125184, 125251); (127280, 127305); (127312, 127337); (127344, 127369)]%N.

End Unicode.

(* ------------------------------------------------------------------ *)
(** * Python string operations *)
(* ------------------------------------------------------------------ *)

Module PyStr.
Import Unicode.

(** An f-string is the concatenation of its pieces. *)
Definition fmt (pieces : list string) : string := String.concat "" pieces.

(** The double quote and the line feed, as one-character strings. *)
Definition dq : string := String (ascii_of_nat 34) "".
Definition nl : string := String (ascii_of_nat 10) "".

(** ["\n".join(lines)] *)
Definition join_lines (lines : list string) : string := String.concat nl lines.

Definition code (c : ascii) : nat := nat_of_ascii c.

Definition is_lower (c : ascii) : bool := (97 <=? code c)%nat && (code c <=? 122)%nat.
Definition is_upper (c : ascii) : bool := (65 <=? code c)%nat && (code c <=? 90)%nat.
Definition is_digit (c : ascii) : bool := (48 <=? code c)%nat && (code c <=? 57)%nat.

Definition is_empty (s : string) : bool :=
  match s with EmptyString => true | _ => false end.

(** ** Characters

    A text is kept as the bytes of its UTF-8 encoding.  [len], slicing,
    [strip], [upper], [lower] and [int] work on characters: they read
    the code points back from the bytes. *)

(** A byte that continues the encoding of a character. *)
Definition is_cont (b : ascii) : bool := (128 <=? code b)%nat && (code b <? 192)%nat.

Definition starts_cont (s : string) : bool :=
  match s with String b _ => is_cont b | EmptyString => false end.

(** The characters of a text, each as the bytes that encode it. *)
Fixpoint chars (s : string) : list string :=
  match s with
  | EmptyString => []
  | String b s' =>
      match chars s' with
      | ch :: rest =>
          if starts_cont s' then String b ch :: rest
          else String b "" :: ch :: rest
      | [] => [String b ""]
      end
  end.

(** The text made of a list of characters. *)
Definition join (l : list string) : string := fold_right String.append "" l.

Definition byte (b : ascii) : N := N.of_nat (code b).

(** The code point a character encodes; [None] on bytes that encode none. *)
Definition codepoint (ch : string) : option N :=
  match ch with
  | String b0 EmptyString =>
      if (byte b0 <? 128)%N then Some (byte b0) else None
  | String b0 (String b1 EmptyString) =>
      let n := ((byte b0 - 192) * 64 + (byte b1 - 128))%N in
      if (192 <=? byte b0)%N && (byte b0 <? 224)%N && (128 <=? n)%N
      then Some n else None
  | String b0 (String b1 (String b2 EmptyString)) =>
      let n := ((byte b0 - 224) * 4096 + (byte b1 - 128) * 64
                + (byte b2 - 128))%N in
      if (224 <=? byte b0)%N && (byte b0 <? 240)%N && (2048 <=? n)%N
      then Some n else None
  | String b0 (String b1 (String b2 (String b3 EmptyString))) =>
      let n := ((byte b0 - 240) * 262144 + (byte b1 - 128) * 4096
                + (byte b2 - 128) * 64 + (byte b3 - 128))%N in
      if (240 <=? byte b0)%N && (byte b0 <? 248)%N && (65536 <=? n)%N
         && (n <? 1114112)%N
      then Some n else None
  | _ => None
  end.

(** The bytes that encode a code point. *)
Definition encode (n : N) : string :=
  if (n <? 128)%N then String (ascii_of_N n) ""
  else if (n <? 2048)%N then
    String (ascii_of_N (192 + n / 64))
      (String (ascii_of_N (128 + n mod 64)) "")
  else if (n <? 65536)%N then
    String (ascii_of_N (224 + n / 4096))
      (String (ascii_of_N (128 + (n / 64) mod 64))
         (String (ascii_of_N (128 + n mod 64)) ""))
  else
    String (ascii_of_N (240 + n / 262144))
      (String (ascii_of_N (128 + (n / 4096) mod 64))
         (String (ascii_of_N (128 + (n / 64) mod 64))
            (String (ascii_of_N (128 + n mod 64)) ""))).

(** A character has the property that [p] tells of code points. *)
Definition char_is (p : N -> bool) (ch : string) : bool :=
  match codepoint ch with Some n => p n | None => false end.

(** [len(s)] *)
Definition len (s : string) : nat := List.length (chars s).

(** [s[:n]] *)
Definition take (n : nat) (s : string) : string := join (firstn n (chars s)).

(** Every byte of the text is an ASCII character. *)
Fixpoint is_ascii (s : string) : bool :=
  match s with
  | EmptyString => true
  | String b s' => (code b <? 128)%nat && is_ascii s'
  end.

(** ** Whitespace *)

(** [ch.isspace()] *)
Definition is_space (ch : string) : bool :=
  char_is (fun n => in_ranges n space_ranges) ch.

Fixpoint drop_while {A} (p : A -> bool) (l : list A) : list A :=
  match l with
  | [] => []
  | x :: l' => if p x then drop_while p l' else l
  end.

(** [s.lstrip()], [s.rstrip()] and [s.strip()] *)
Definition lstrip (s : string) : string := join (drop_while is_space (chars s)).
Definition rstrip (s : string) : string :=
  join (rev (drop_while is_space (rev (chars s)))).
Definition strip (s : string) : string :=
  join (rev (drop_while is_space (rev (drop_while is_space (chars s))))).

(** Drops the longest prefix, or suffix, whose bytes all satisfy [p]. *)
Fixpoint lstrip_by (p : ascii -> bool) (s : string) : string :=
  match s with
  | EmptyString => EmptyString
  | String c s' => if p c then lstrip_by p s' else s
  end.

Fixpoint rstrip_by (p : ascii -> bool) (s : string) : string :=
  match s with
  | EmptyString => EmptyString
  | String c s' =>
      let r := rstrip_by p s' in
      if is_empty r && p c then EmptyString else String c r
  end.

(** [s.rstrip("/")] *)
Definition rstrip_slash (s : string) : string :=
  rstrip_by (fun c => Ascii.eqb c "/") s.

(** ** Letter case *)

Definition assoc (n : N) (table : list (N * list N)) : option (list N) :=
  option_map snd (find (fun e => N.eqb (fst e) n) table).

(** One character under a case table. *)
Definition map_case (table : list (N * list N)) (ch : string) : string :=
  match codepoint ch with
  | Some n =>
      match assoc n table with
      | Some l => join (map encode l)
      | None => ch
      end
  | None => ch
  end.

(** [s.upper()] *)
Definition upper (s : string) : string :=
  join (map (map_case upper_table) (chars s)).

Definition is_case_ignorable (ch : string) : bool :=
  char_is (fun n => in_ranges n case_ignorable) ch.

(** Asked of a character that is not case-ignorable. *)
Definition is_cased (ch : string) : bool :=
  char_is (fun n => in_ranges n cased) ch.

(** The capital sigma stands at the end of a word: a cased character
    comes before it and none after it, the case-ignorable characters
    next to it set aside.  [before] is read backwards. *)
Definition final_sigma (before after : list string) : bool :=
  match drop_while is_case_ignorable before with
  | ch :: _ =>
      is_cased ch
      && match drop_while is_case_ignorable after with
         | ch' :: _ => negb (is_cased ch')
         | [] => true
         end
  | [] => false
  end.

Definition is_capital_sigma (ch : string) : bool := char_is (N.eqb 931) ch.

Fixpoint lower_chars (before l : list string) : list string :=
  match l with
  | [] => []
  | ch :: l' =>
      (if is_capital_sigma ch
       then encode (if final_sigma before l' then 962 else 963)
       else map_case lower_table ch)
      :: lower_chars (ch :: before) l'
  end.

(** [s.lower()] *)
Definition lower (s : string) : string := join (lower_chars [] (chars s)).

(** The case of an ASCII letter. *)
Definition upper_char (c : ascii) : ascii :=
  if is_lower c then ascii_of_nat (code c - 32) else c.

Definition lower_char (c : ascii) : ascii :=
  if is_upper c then ascii_of_nat (code c + 32) else c.

(** ** Prefixes and pieces *)

(** [s.startswith(p)] *)
Definition startswith (p s : string) : bool := prefix p s.

(** [s.split(sep, n)]: at most [n] cuts; [acc] is the piece being read. *)
Fixpoint splitn (n : nat) (sep : ascii) (acc s : string) : list string :=
  match s with
  | EmptyString => [acc]
  | String c s' =>
      match n with
      | O => [acc ++ s]%string
      | S n' =>
          if Ascii.eqb c sep then acc :: splitn n' sep "" s'
          else splitn n sep (acc ++ String c "")%string s'
      end
  end.

(** [s.split(sep)]: a string of [k] bytes holds at most [k] separators. *)
Definition split (sep : ascii) (s : string) : list string :=
  splitn (String.length s) sep "" s.

(** ** Numbers *)

(** [str(n)] of an integer: decimal, with a minus sign when negative. *)
Definition str_of_Z (n : Z) : string := NilZero.string_of_int (Z.to_int n).

(** The value of a decimal digit of any script. *)
Definition decimal (n : N) : option N :=
  option_map (fun zero => (n - zero)%N)
    (find (fun zero => (zero <=? n)%N && (n <? zero + 10)%N) digit_zeros).

(** What [int] makes of one character of a text that is not all ASCII,
    before it reads the number: an ASCII character below 127 stays, any
    other whitespace becomes a space, a decimal digit of any script
    becomes the ASCII digit, anything else a question mark. *)
Definition to_ascii_char (ch : string) : string :=
  match codepoint ch with
  | Some n =>
      if (n <? 127)%N then ch
      else if in_ranges n space_ranges then " "
      else match decimal n with
           | Some d => String (ascii_of_N (48 + d)) ""
           | None => "?"
           end
  | None => "?"
  end.

Definition to_ascii (s : string) : string :=
  if is_ascii s then s else join (map to_ascii_char (chars s)).

(** The whitespace of the C locale, which the number reader skips. *)
Definition is_c_space (c : ascii) : bool :=
  ((9 <=? code c)%nat && (code c <=? 13)%nat) || (code c =? 32)%nat.

Definition digit_val (c : ascii) : Z := Z.of_nat (code c - 48).

(** The digits of an [int] literal: underscores only between two digits. *)
Fixpoint digits_val (acc : Z) (after_digit : bool) (s : string) : option Z :=
  match s with
  | EmptyString => if after_digit then Some acc else None
  | String c s' =>
      if is_digit c then digits_val (10 * acc + digit_val c)%Z true s'
      else if Ascii.eqb c "_" then
        (if after_digit then digits_val acc false s' else None)
      else None
  end.

(** [int(s)] on text: surrounding whitespace, an optional sign, digits.
    [None] is Python's [ValueError].  (The length limit that recent
    interpreters put on the literal is not part of the model.) *)
Definition int_of_str (s : string) : option Z :=
  match rstrip_by is_c_space (lstrip_by is_c_space (to_ascii s)) with
  | String "-" r => option_map Z.opp (digits_val 0 false r)
  | String "+" r => digits_val 0 false r
  | r => digits_val 0 false r
  end.

(** ** [repr] *)

Definition hex_digit (n : nat) : string :=
  String (ascii_of_nat (if (n <? 10)%nat then 48 + n else 87 + n)) "".

Fixpoint contains_char (c : ascii) (s : string) : bool :=
  match s with
  | EmptyString => false
  | String c' s' => Ascii.eqb c c' || contains_char c s'
  end.

(** One character of [repr(s)] under the quote [q]. *)
Definition repr_char (q c : ascii) : string :=
  if Ascii.eqb c q || Ascii.eqb c "\" then String "\" (String c "")
  else if (code c =? 9)%nat then "\t"
  else if (code c =? 10)%nat then "\n"
  else if (code c =? 13)%nat then "\r"
  else if (code c <? 32)%nat || (code c =? 127)%nat then
    fmt ["\x"; hex_digit (code c / 16); hex_digit (code c mod 16)]
  else String c "".

Fixpoint repr_body (q : ascii) (s : string) : string :=
  match s with
  | EmptyString => EmptyString
  | String c s' => (repr_char q c ++ repr_body q s')%string
  end.

(** [repr(s)]: single quotes, unless the text holds a single quote and no
    double quote. *)
Definition repr (s : string) : string :=
  let q := if contains_char "'" s && negb (contains_char (ascii_of_nat 34) s)
           then ascii_of_nat 34 else "'"%char in
  fmt [String q ""; repr_body q s; String q ""].

(** Equality up to the case of ASCII letters. *)
Fixpoint eq_nocase (s t : string) : bool :=
  match s, t with
  | EmptyString, EmptyString => true
  | String a s', String b t' =>
      Ascii.eqb (lower_char a) (lower_char b) && eq_nocase s' t'
  | _, _ => false
  end.

End PyStr.

(* ------------------------------------------------------------------ *)
(** * Python values, exceptions and the error monad *)
(* ------------------------------------------------------------------ *)

Module Py.
Import PyStr.

(** The exceptions the program can meet; all derive from [Exception].
    [ClientResponseError] is what [raise_for_status] raises; [Exception]
    stands for any other failure of the HTTP or chat transport. *)
Inductive exn : Type :=
| AttributeError (msg : string)
| TypeError (msg : string)
| ValueError (msg : string)
| OverflowError (msg : string)
| ClientResponseError (status : Z) (message url : string)
| Exception (msg : string).

(** [str(e)], the text of [f"...{e}"]. *)
Definition exn_str (e : exn) : string :=
  match e with
  | AttributeError m | TypeError m | ValueError m | OverflowError m
  | Exception m => m
  | ClientResponseError st m u =>
      fmt [str_of_Z st; ", message="; repr m; ", url="; repr u]
  end.

Inductive result (A : Type) : Type :=
| Ok (a : A)
| Err (e : exn).
Arguments Ok {A} a.
Arguments Err {A} e.

Definition bind {A B} (r : result A) (k : A -> result B) : result B :=
  match r with Ok a => k a | Err e => Err e end.

(** A float is used by the program only through [str], truthiness and
    [int]; a float value is the record of these three observations. *)
Record pyfloat : Type := {
  float_str : string;
  float_truthy : bool;
  float_int : result Z
}.

(** What [json.loads] returns.  A dict is the list of its items, in
    insertion order, with distinct keys. *)
#[warnings="-register-all"] Inductive json : Type :=
| JNull
| JBool (b : bool)
| JInt (n : Z)
| JFloat (f : pyfloat)
| JStr (s : string)
| JList (l : list json)
| JDict (d : list (string * json)).

Definition dict : Type := list (string * json).

Definition type_name (v : json) : string :=
  match v with
  | JNull => "NoneType" | JBool _ => "bool" | JInt _ => "int"
  | JFloat _ => "float" | JStr _ => "str" | JList _ => "list"
  | JDict _ => "dict"
  end.

(** [bool(v)] *)
Definition truthy (v : json) : bool :=
  match v with
  | JNull => false
  | JBool b => b
  | JInt n => negb (n =? 0)%Z
  | JFloat f => float_truthy f
  | JStr s => negb (is_empty s)
  | JList l => match l with [] => false | _ => true end
  | JDict d => match d with [] => false | _ => true end
  end.

(** [v is None] *)
Definition is_None (v : json) : bool :=
  match v with JNull => true | _ => false end.

(** [a or b] on values already computed. *)
Definition py_or (a b : json) : json := if truthy a then a else b.

(** [d.get(k)] on a dict: [None] when the key is missing. *)
Fixpoint dget (k : string) (d : dict) : json :=
  match d with
  | [] => JNull
  | (k', v) :: d' => if String.eqb k k' then v else dget k d'
  end.

(** [k in d] *)
Fixpoint dmem (k : string) (d : dict) : bool :=
  match d with
  | [] => false
  | (k', _) :: d' => String.eqb k k' || dmem k d'
  end.

(** [d[k] = v]: in place when the key exists, appended otherwise. *)
Fixpoint dset (k : string) (v : json) (d : dict) : dict :=
  match d with
  | [] => [(k, v)]
  | (k', v') :: d' =>
      if String.eqb k k' then (k', v) :: d' else (k', v') :: dset k v d'
  end.

(** [d.update(other)] *)
Definition dupdate (d other : dict) : dict :=
  fold_left (fun acc kv => dset (fst kv) (snd kv) acc) other d.

Definition no_get (v : json) : exn :=
  AttributeError (fmt ["'"; type_name v; "' object has no attribute 'get'"]).

(** [v.get(k)]: only a dict has the method. *)
Definition py_get (v : json) (k : string) : result json :=
  match v with
  | JDict d => Ok (dget k d)
  | _ => Err (no_get v)
  end.

(** [repr(v)] *)
Fixpoint py_repr (v : json) : string :=
  match v with
  | JNull => "None"
  | JBool b => if b then "True" else "False"
  | JInt n => str_of_Z n
  | JFloat f => float_str f
  | JStr s => repr s
  | JList l => fmt ["["; String.concat ", " (map py_repr l); "]"]
  | JDict d =>
      fmt ["{";
           String.concat ", "
             (map (fun kv : string * json => let (k, x) := kv in
                             fmt [repr k; ": "; py_repr x]) d);
           "}"]
  end.

(** [str(v)], also what an f-string field [{v}] prints. *)
Definition py_str (v : json) : string :=
  match v with JStr s => s | _ => py_repr v end.

(** [int(v)] *)
Definition py_int (v : json) : result Z :=
  match v with
  | JBool b => Ok (Z.b2z b)
  | JInt n => Ok n
  | JFloat f => float_int f
  | JStr s =>
      match int_of_str s with
      | Some n => Ok n
      | None =>
          Err (ValueError
                 (fmt ["invalid literal for int() with base 10: "; repr s]))
      end
  | _ =>
      Err (TypeError
             (fmt ["int() argument must be a string, a bytes-like object ";
                   "or a real number, not '"; type_name v; "'"]))
  end.

(** [list(v)] *)
Definition py_list (v : json) : result (list json) :=
  match v with
  | JList l => Ok l
  | JDict d => Ok (map (fun kv => JStr (fst kv)) d)
  | JStr s => Ok (map (fun c => JStr (String c "")) (list_ascii_of_string s))
  | _ => Err (TypeError (fmt ["'"; type_name v; "' object is not iterable"]))
  end.

(** [v == s] for a text literal [s]. *)
Definition eq_str (v : json) (s : string) : bool :=
  match v with JStr t => String.eqb t s | _ => false end.

(** Truthiness of an [Optional[str]]. *)
Definition otruthy (o : option string) : bool :=
  match o with Some s => negb (is_empty s) | None => false end.

(** [a or b] on strings. *)
Definition sor (a b : string) : string := if is_empty a then b else a.

End Py.

Declare Scope py_scope.
Delimit Scope py_scope with py.
Notation "x <- c ;; k" := (Py.bind c (fun x => k))
  (at level 61, c at next level, right associativity) : py_scope.
Notation "' p <- c ;; k" := (Py.bind c (fun x => let 'p := x in k))
  (at level 61, p pattern, c at next level, right associativity) : py_scope.

(** Lazy [a or b] where the operands are computations that may raise. *)
Definition lazy_or (a b : Py.result Py.json) : Py.result Py.json :=
  Py.bind a (fun x => if Py.truthy x then Py.Ok x else b).
Notation "a <||> b" := (lazy_or a b) (at level 55, right associativity) : py_scope.

(* ------------------------------------------------------------------ *)
(** * bot.py: the normalizer *)
(* ------------------------------------------------------------------ *)

Module Bot.
Import PyStr Py.
Local Open Scope py_scope.

(** [_extract_title_year_type(item)] *)
Definition _extract_title_year_type (item : json)
  : result (json * option string * string) :=
  media_type <- py_get item "mediaType" <||> py_get item "media_type"
                <||> Ok (JStr "movie") ;;
  title <- py_get item "title" <||> py_get item "name"
           <||> Ok (JStr "(untitled)") ;;
  date <- py_get item "releaseDate" <||> py_get item "firstAirDate"
          <||> py_get item "release_date" <||> py_get item "first_air_date" ;;
  let year :=
    match date with
    | JStr s => if (4 <=? len s)%nat then Some (take 4 s) else None
    | _ => None
    end in
  Ok (title, year, if eq_str media_type "movie" then "movie" else "tv series").

(** [_is_available(item)]; a [bool] status is an [int] (0 or 1). *)
Definition _is_available (item : json) : result bool :=
  media_info <- py_get item "mediaInfo" <||> Ok (JDict []) ;;
  status <- py_get media_info "status" ;;
  match status with
  | JStr s => Ok (String.eqb (upper s) "AVAILABLE")
  | JInt n => Ok (4 <=? n)%Z
  | JBool b => Ok (4 <=? Z.b2z b)%Z
  | _ => Ok false
  end.

(** The list [lines] of [_build_caption(item)], before the join. *)
Definition _build_caption_lines (item : json) : result (list string) :=
  ' (title, year, type_label) <- _extract_title_year_type item ;;
  available <- _is_available item ;;
  let status_text := if available then "in library" else "not in library" in
  let status_icon := if available then "✅" else "❌" in
  Ok ([fmt ["<b>"; py_str title; "</b> - ("; type_label; ")"]]
      ++ (if otruthy year
          then [fmt ["Year - "; match year with Some y => y | None => "" end]]
          else [])
      ++ [""]
      ++ [fmt [status_icon; " Status: "; status_text]]).

(** [_build_caption(item)] *)
Definition _build_caption (item : json) : result string :=
  lines <- _build_caption_lines item ;;
  Ok (join_lines lines).

(** The dict returned by [_extract_imdb_and_rt]. *)
Record rates : Type := {
  imdb_id : json;
  imdb_rating : option string;
  imdb_url : option string;
  rt_tomato : option string;
  rt_popcorn : option string;
  rt_url : json
}.

(** [str(b.get(k1) or b.get(k2) or b.get(k3))] *)
Definition str_first3 (b : dict) (k1 k2 k3 : string) : string :=
  py_str (py_or (py_or (dget k1 b) (dget k2 b)) (dget k3 b)).

(** The [isinstance(rt_block, dict)] branch: returns
    [(rt_tomato, rt_popcorn, rt_url)]. *)
Definition rt_from_block (b : dict) : option string * option string * json :=
  let critics := match dget "critics" b with JDict c => JDict c | _ => JNull end in
  let audience := match dget "audience" b with JDict a => JDict a | _ => JNull end in
  let '(rt_tomato, rt_url) :=
    match critics with
    | JDict c =>
        if truthy critics
        then (Some (str_first3 c "score" "rating" "value"), dget "url" c)
        else (None, JNull)
    | _ => (None, JNull)
    end in
  let '(rt_popcorn, rt_url) :=
    match audience with
    | JDict a =>
        if truthy audience
        then (Some (str_first3 a "score" "rating" "value"),
              if truthy rt_url then rt_url else dget "url" a)
        else (None, rt_url)
    | _ => (None, rt_url)
    end in
  (* Flat fallbacks *)
  let rt_tomato :=
    if otruthy rt_tomato then rt_tomato
    else Some (sor (py_str (dget "tomatometer" b))
                 (sor (py_str (dget "tomatoMeter" b))
                    (py_str (dget "criticsScore" b)))) in
  let rt_popcorn :=
    if otruthy rt_popcorn then rt_popcorn
    else Some (sor (py_str (dget "audienceScore" b))
                 (py_str (dget "popcornMeter" b))) in
  let rt_url := if truthy rt_url then rt_url else dget "url" b in
  (rt_tomato, rt_popcorn, rt_url).

(** The [isinstance(ratings, dict)] branch: returns
    [(imdb_id, imdb_rating, rt_tomato, rt_popcorn, rt_url)]. *)
Definition from_ratings (imdb_id : json) (r : dict)
  : json * option string * option string * option string * json :=
  let imdb_block := py_or (py_or (dget "imdb" r) (dget "IMDb" r)) (dget "imdbRating" r) in
  let '(imdb_rating, imdb_id) :=
    match imdb_block with
    | JDict b =>
        (Some (sor (py_str (dget "value" b))
                 (sor (py_str (dget "rating" b)) (py_str (dget "score" b)))),
         if truthy imdb_id then imdb_id
         else match dget "url" b with
              | JStr maybe_url =>
                  if startswith "http" maybe_url
                  then JStr (last (split "/" (rstrip_slash maybe_url)) "")
                  else imdb_id
              | _ => imdb_id
              end)
    | JInt _ | JBool _ | JFloat _ | JStr _ => (Some (py_str imdb_block), imdb_id)
    | _ => (None, imdb_id)
    end in
  let rt_block :=
    py_or (py_or (dget "rottenTomatoes" r) (dget "rotten_tomatoes" r)) (dget "rotten" r) in
  let '(rt_tomato, rt_popcorn, rt_url) :=
    match rt_block with
    | JDict b => rt_from_block b
    | _ => (None, None, JNull)
    end in
  (* the flat object of the ratings endpoint *)
  if negb (otruthy rt_tomato || otruthy rt_popcorn)
  then
    if dmem "criticsScore" r || dmem "audienceScore" r
    then
      let rt_tomato :=
        if negb (is_None (dget "criticsScore" r))
        then Some (py_str (dget "criticsScore" r)) else rt_tomato in
      let rt_popcorn :=
        if negb (is_None (dget "audienceScore" r))
        then Some (py_str (dget "audienceScore" r)) else rt_popcorn in
      let rt_url :=
        if negb (truthy rt_url)
        then match dget "url" r with JStr u => JStr u | _ => rt_url end
        else rt_url in
      (imdb_id, imdb_rating, rt_tomato, rt_popcorn, rt_url)
    else (imdb_id, imdb_rating, rt_tomato, rt_popcorn, rt_url)
  else (imdb_id, imdb_rating, rt_tomato, rt_popcorn, rt_url).

(** [_extract_imdb_and_rt(details)] *)
Definition _extract_imdb_and_rt (details : json) : result rates :=
  ext <- py_get details "externalIds" <||> py_get details "external_ids"
         <||> Ok (JDict []) ;;
  imdb_id <- py_get ext "imdbId" <||> py_get ext "imdb_id" ;;
  ratings <- py_get details "ratings" <||> Ok (JDict []) ;;
  let '(imdb_id, imdb_rating, rt_tomato, rt_popcorn, rt_url) :=
    match ratings with
    | JDict r => from_ratings imdb_id r
    | _ => (imdb_id, None, None, None, JNull)
    end in
  let imdb_url :=
    if truthy imdb_id
    then Some (fmt ["https://www.imdb.com/title/"; py_str imdb_id])
    else None in
  Ok {| imdb_id := imdb_id; imdb_rating := imdb_rating; imdb_url := imdb_url;
        rt_tomato := rt_tomato; rt_popcorn := rt_popcorn; rt_url := rt_url |}.

(** A [for v in videos: ... return ...] loop: the first video [pick]
    accepts, raising where [pick] raises before a match. *)
Fixpoint find_video (pick : json -> result (option string)) (vs : list json)
  : result (option string) :=
  match vs with
  | [] => Ok None
  | v :: vs' =>
      r <- pick v ;;
      match r with
      | Some u => Ok (Some u)
      | None => find_video pick vs'
      end
  end.

(** Runs [b] when [a] fell through without returning. *)
Definition or_else (a b : result (option string)) : result (option string) :=
  r <- a ;;
  match r with Some u => Ok (Some u) | None => b end.

(** Body of the loops over [relatedVideos]; [preferred_type = None] is the
    last loop, which does not test the type. *)
Definition pick_related (preferred_type : option string) (v : json)
  : result (option string) :=
  url <- py_get v "url" ;;
  site <- py_get v "site" ;;
  ty <- py_get v "type" ;;
  let type_ok :=
    match preferred_type with Some p => eq_str ty p | None => true end in
  match url with
  | JStr u => if eq_str site "YouTube" && type_ok then Ok (Some u) else Ok None
  | _ => Ok None
  end.

(** Body of the loops over [videos.results]. *)
Definition pick_tmdb (preferred_type : option string) (v : json)
  : result (option string) :=
  site <- py_get v "site" ;;
  ty <- py_get v "type" ;;
  key <- py_get v "key" ;;
  let type_ok :=
    match preferred_type with Some p => eq_str ty p | None => true end in
  if eq_str site "YouTube" && type_ok && truthy key
  then Ok (Some (fmt ["https://youtu.be/"; py_str key]))
  else Ok None.

Definition preferred (pick : option string -> json -> result (option string))
                     (vs : list json) : result (option string) :=
  or_else (find_video (pick (Some "Trailer")) vs)
    (or_else (find_video (pick (Some "Teaser")) vs)
       (find_video (pick None) vs)).

(** [_extract_trailer_url(details)] *)
Definition _extract_trailer_url (details : json) : result (option string) :=
  related <- py_get details "relatedVideos" ;;
  or_else
    (match related with
     | JList vs => preferred pick_related vs
     | _ => Ok None
     end)
    (videos <- py_get details "videos" <||> Ok (JDict []) ;;
     let results :=
       match videos with JDict d => dget "results" d | _ => JNull end in
     match results with
     | JList vs => preferred pick_tmdb vs
     | _ => Ok None
     end).

(** [r and r not in ("None", "nan")] for a rating text. *)
Definition shown (r : option string) : bool :=
  otruthy r
  && match r with
     | Some s => negb (String.eqb s "None" || String.eqb s "nan")
     | None => false
     end.

Definition text_of (r : option string) : string :=
  match r with Some s => s | None => "None" end.

Definition link (href text : string) : string :=
  fmt ["<a href="; dq; href; dq; ">"; text; "</a>"].

(** The rating lines appended for [rates], in the order of the source. *)
Definition rating_lines (r : rates) : list string :=
  (if otruthy (imdb_url r)
   then
     let label :=
       if negb (shown (imdb_rating r)) then "IMDb"
       else fmt ["IMDb: "; text_of (imdb_rating r)] in
     [link (text_of (imdb_url r)) label]
   else [])
  ++
  (let rt_url := py_or (rt_url r) (JStr "https://www.rottentomatoes.com/") in
   (if shown (rt_tomato r)
    then [link (py_str rt_url)
            (fmt ["🍅 Tomatometer : "; text_of (rt_tomato r); "%"])]
    else [])
   ++
   (if shown (rt_popcorn r)
    then [link (py_str rt_url)
            (fmt ["🍿 Popcorn: "; text_of (rt_popcorn r); "%"])]
    else [])).

(** The lines appended for the trailer. *)
Definition trailer_lines (trailer : option string) : list string :=
  if otruthy trailer
  then [""; link (text_of trailer) "🎬 Trailer"]
  else [].

(** The list [parts] of [_append_enrichment_to_caption], before the join. *)
Definition _append_enrichment_parts (base_caption : string) (details : json)
  : result (list string) :=
  r <- _extract_imdb_and_rt details ;;
  trailer <- _extract_trailer_url details ;;
  Ok ([base_caption] ++ [""] ++ rating_lines r ++ trailer_lines trailer).

(** [_append_enrichment_to_caption(base_caption, details)] *)
Definition _append_enrichment_to_caption (base_caption : string) (details : json)
  : result string :=
  parts <- _append_enrichment_parts base_caption details ;;
  Ok (join_lines parts).

(** [InlineKeyboardButton(text, callback_data=...)] *)
Record button : Type := {
  text : string;
  callback_data : string
}.

(** [InlineKeyboardMarkup(rows)] *)
Definition markup : Type := list (list button).

(** [_build_keyboard(item)] *)
Definition _build_keyboard (item : json) : result (option markup) :=
  media_type <- py_get item "mediaType" <||> py_get item "media_type"
                <||> Ok (JStr "movie") ;;
  media_id <- py_get item "id" ;;
  if is_None media_id then Ok None
  else
    available <- _is_available item ;;
    let download :=
      if negb available
      then [{| text := "⏬ Download";
               callback_data :=
                 fmt ["req|"; py_str media_type; "|"; py_str media_id] |}]
      else [] in
    let recommendations :=
      if eq_str media_type "tv" || eq_str media_type "movie"
      then [{| text := "👀 Recommendations";
               callback_data :=
                 fmt ["rec|"; py_str media_type; "|"; py_str media_id] |}]
      else [] in
    let buttons := download ++ recommendations in
    match buttons with
    | [] => Ok None
    | _ => Ok (Some [buttons])
    end.

End Bot.

(* ------------------------------------------------------------------ *)
(** * External calls *)
(* ------------------------------------------------------------------ *)

Module IO.
Import PyStr Py.

(** What an [aiohttp] response shows to the client: the status line and
    the outcome of [await resp.json()]. *)
Record response : Type := {
  status : Z;
  reason : string;
  body : result json
}.

(** The awaited calls that leave the process: the two HTTP verbs of the
    session and the chat operations on the incoming update. *)
Inductive call : Type -> Type :=
| HttpGet (url : string) (params : list (string * Z)) : call response
| HttpPost (url : string) (payload : json) : call response
| ReplyText (text : string) (reply_markup : option Bot.markup)
            (html : bool) : call unit
| ReplyPhoto (photo caption : string)
             (reply_markup : option Bot.markup) : call unit
| Answer : call unit
| EditReplyMarkup (reply_markup : option Bot.markup) : call unit.

(** A coroutine of the program: it returns, raises, writes to the log, or
    awaits a call and goes on with its outcome. *)
Inductive io (A : Type) : Type :=
| Ret (a : A)
| Raise (e : exn)
| Log (msg : string) (k : io A)
| Vis {X : Type} (c : call X) (k : result X -> io A).
Arguments Ret {A} a.
Arguments Raise {A} e.
Arguments Log {A} msg k.
Arguments Vis {A X} c k.

Fixpoint bind {A B} (p : io A) (k : A -> io B) : io B :=
  match p with
  | Ret a => k a
  | Raise e => Raise e
  | Log m p' => Log m (bind p' k)
  | Vis c f => Vis c (fun r => bind (f r) k)
  end.

(** [try: p  except Exception as e: h e] *)
Fixpoint try_catch {A} (p : io A) (h : exn -> io A) : io A :=
  match p with
  | Ret a => Ret a
  | Raise e => h e
  | Log m p' => Log m (try_catch p' h)
  | Vis c f => Vis c (fun r => try_catch (f r) h)
  end.

(** A pure computation inside a coroutine. *)
Definition lift {A} (r : result A) : io A :=
  match r with Ok a => Ret a | Err e => Raise e end.

(** [await c] *)
Definition await {X} (c : call X) : io X := Vis c lift.

Definition log (msg : string) : io unit := Log msg (Ret tt).

(** What an observer of a run sees. *)
Inductive event : Type :=
| Called {X : Type} (c : call X) (r : result X)
| Logged (msg : string).

(** The outside world: [w n c] is its answer to the call [c] made when
    [n] events of the run have been observed. *)
Definition world : Type := nat -> forall X, call X -> result X.

(** Runs [p] against [w], [n] events having been observed before. *)
Fixpoint run {A} (p : io A) (w : world) (n : nat) : list event * result A :=
  match p with
  | Ret a => ([], Ok a)
  | Raise e => ([], Err e)
  | Log m p' => let (t, r) := run p' w (S n) in (Logged m :: t, r)
  | Vis c f =>
      let o := w n _ c in
      let (t, r) := run (f o) w (S n) in
      (Called c o :: t, r)
  end.

Definition trace {A} (p : io A) (w : world) : list event := fst (run p w 0).

(** A request to the upstream service. *)
Definition is_upstream (e : event) : bool :=
  match e with
  | Called (HttpGet _ _) _ | Called (HttpPost _ _) _ => true
  | _ => false
  end.

(** A message sent to the chat: its text (the caption, for a photo). *)
Definition message_of (e : event) : option string :=
  match e with
  | Called (ReplyText t _ _) _ => Some t
  | Called (ReplyPhoto _ c _) _ => Some c
  | _ => None
  end.

(** The messages of a trace, in order. *)
Fixpoint messages (t : list event) : list string :=
  match t with
  | [] => []
  | e :: t' =>
      match message_of e with
      | Some m => m :: messages t'
      | None => messages t'
      end
  end.

Definition upstream_calls (t : list event) : nat :=
  List.length (filter is_upstream t).

Definition is_edit (e : event) : bool :=
  match e with Called (EditReplyMarkup _) _ => true | _ => false end.

End IO.

Declare Scope io_scope.
Delimit Scope io_scope with io.
Notation "x <- c ;; k" := (IO.bind c (fun x => k))
  (at level 61, c at next level, right associativity) : io_scope.
Notation "c ;; k" := (IO.bind c (fun _ => k))
  (at level 61, right associativity) : io_scope.

(* ------------------------------------------------------------------ *)
(** * overseerr_client.py *)
(* ------------------------------------------------------------------ *)

Module Client.
Import PyStr Py IO.
Local Open Scope io_scope.

(** [OverseerrClient]: the session it creates lazily only adds the fixed
    headers to each request and belongs to the transport, so a request is
    one [HttpGet] or [HttpPost]. *)
Record client : Type := {
  base_url : string;
  api_key : string
}.

Definition upper_hex_digit (n : nat) : string :=
  String (ascii_of_nat (if (n <? 10)%nat then 48 + n else 55 + n)) "".

Definition quote_char (c : ascii) : string :=
  if is_lower c || is_upper c || is_digit c
     || Ascii.eqb c "_" || Ascii.eqb c "." || Ascii.eqb c "-" || Ascii.eqb c "~"
  then String c ""
  else fmt ["%"; upper_hex_digit (code c / 16); upper_hex_digit (code c mod 16)].

(** [urllib.parse.quote(s, safe="")] *)
Fixpoint quote (s : string) : string :=
  match s with
  | EmptyString => EmptyString
  | String c s' => (quote_char c ++ quote s')%string
  end.

(** The address a request is sent to, query parameters appended. *)
Definition real_url (url : string) (params : list (string * Z)) : string :=
  match params with
  | [] => url
  | _ =>
      fmt [url; "?";
           String.concat "&"
             (map (fun kv : string * Z => fmt [fst kv; "="; str_of_Z (snd kv)])
                params)]
  end.

(** [resp.raise_for_status()]: [aiohttp] raises from status 400 on. *)
Definition raise_for_status (url : string) (resp : response) : io unit :=
  if (400 <=? status resp)%Z
  then Raise (ClientResponseError (status resp) (reason resp) url)
  else Ret tt.

(** [await resp.json()] *)
Definition resp_json (resp : response) : io json := lift (body resp).

(** [search(query)] *)
Definition search (self : client) (query : string) : io json :=
  let encoded := quote (strip query) in
  let url := fmt [base_url self; "/api/v1/search?query="; encoded] in
  resp <- await (HttpGet url []) ;;
  raise_for_status url resp ;;
  resp_json resp.

(** [create_request(media_id, media_type, seasons, is_4k)] *)
Definition create_request (self : client) (media_id : Z) (media_type : string)
    (seasons : option (list Z)) (is_4k : bool) : io json :=
  let url := fmt [base_url self; "/api/v1/request"] in
  let payload := [("mediaId", JInt media_id); ("mediaType", JStr media_type)] in
  let payload :=
    match seasons with
    | Some (s :: ss) => dset "seasons" (JList (map JInt (s :: ss))) payload
    | _ => payload
    end in
  let payload := if is_4k then dset "is4k" (JBool true) payload else payload in
  resp <- await (HttpPost url (JDict payload)) ;;
  raise_for_status url resp ;;
  resp_json resp.

(** [approve_request(request_id, is_4k)] *)
Definition approve_request (self : client) (request_id : json) (is_4k : bool)
  : io json :=
  let url := fmt [base_url self; "/api/v1/request/"; py_str request_id; "/approve"] in
  let payload := [("is4k", JBool is_4k)] in
  resp <- await (HttpPost url (JDict payload)) ;;
  raise_for_status url resp ;;
  resp_json resp.

(** [get_movie_details(tmdb_id)] *)
Definition get_movie_details (self : client) (tmdb_id : Z) : io json :=
  let url := fmt [base_url self; "/api/v1/movie/"; str_of_Z tmdb_id] in
  resp <- await (HttpGet url []) ;;
  raise_for_status url resp ;;
  resp_json resp.

(** [get_tv_details(tmdb_id)] *)
Definition get_tv_details (self : client) (tmdb_id : Z) : io json :=
  let url := fmt [base_url self; "/api/v1/tv/"; str_of_Z tmdb_id] in
  resp <- await (HttpGet url []) ;;
  raise_for_status url resp ;;
  resp_json resp.

(** [get_details(media_type, tmdb_id)] *)
Definition get_details (self : client) (media_type : json) (tmdb_id : Z)
  : io json :=
  if eq_str media_type "movie" then get_movie_details self tmdb_id
  else if eq_str media_type "tv" then get_tv_details self tmdb_id
  else Ret (JDict []).

(** [get_ratings(media_type, tmdb_id)] *)
Definition get_ratings (self : client) (media_type : json) (tmdb_id : Z)
  : io json :=
  let mt := if eq_str media_type "movie" then "movie" else "tv" in
  let url := fmt [base_url self; "/api/v1/"; mt; "/"; str_of_Z tmdb_id; "/ratings"] in
  resp <- await (HttpGet url []) ;;
  if (status resp =? 404)%Z then Ret (JDict [])
  else
    raise_for_status url resp ;;
    resp_json resp.

(** [get_tv_recommendations(tv_id, page)] *)
Definition get_tv_recommendations (self : client) (tv_id : Z) (page : Z)
  : io json :=
  let url := fmt [base_url self; "/api/v1/tv/"; str_of_Z tv_id; "/recommendations"] in
  let params := [("page", page)] in
  resp <- await (HttpGet url params) ;;
  if (status resp =? 404)%Z then Ret (JDict [("results", JList [])])
  else
    raise_for_status (real_url url params) resp ;;
    resp_json resp.

(** [get_movie_recommendations(movie_id, page)] *)
Definition get_movie_recommendations (self : client) (movie_id : Z) (page : Z)
  : io json :=
  let url := fmt [base_url self; "/api/v1/movie/"; str_of_Z movie_id; "/recommendations"] in
  let params := [("page", page)] in
  resp <- await (HttpGet url params) ;;
  if (status resp =? 404)%Z then Ret (JDict [("results", JList [])])
  else
    raise_for_status (real_url url params) resp ;;
    resp_json resp.

End Client.

(* ------------------------------------------------------------------ *)
(** * bot.py: the handlers *)
(* ------------------------------------------------------------------ *)

Module Handlers.
Import PyStr Py IO Bot.
Local Open Scope io_scope.

(** The module constants read from the environment by [config.py]. *)
Record config : Type := {
  OWNER_TELEGRAM_USER_ID : option string;
  DEFAULT_IS_4K : bool;
  TMDB_IMAGE_BASE : string
}.

(** The parts of a chat [Update] the handlers read:
    [effective_user.id], [effective_message.text], [callback_query.data]. *)
Record update : Type := {
  effective_user_id : option Z;
  message_text : option string;
  query_data : option string
}.

Fixpoint for_each {A} (xs : list A) (body : A -> io unit) : io unit :=
  match xs with
  | [] => Ret tt
  | x :: xs' => body x ;; for_each xs' body
  end.

(** [[r for r in results if (r.get("mediaType") or r.get("media_type"))
      in ("movie", "tv")]] *)
Fixpoint filter_media (results : list json) : result (list json) :=
  match results with
  | [] => Ok []
  | r :: rs =>
      (mt <- py_get r "mediaType" <||> py_get r "media_type" ;;
       rest <- filter_media rs ;;
       Ok (if eq_str mt "movie" || eq_str mt "tv" then r :: rest else rest))%py
  end.

(** [details["ratings"] = ratings] *)
Definition set_ratings (details ratings : json) : result json :=
  match details with
  | JDict d => Ok (JDict (dset "ratings" ratings d))
  | JList _ =>
      Err (TypeError "list indices must be integers or slices, not str")
  | _ =>
      Err (TypeError
             (fmt ["'"; type_name details;
                   "' object does not support item assignment"]))
  end.

(** The merge of the ratings payload into [details] (the body of the inner
    [try] after the call). *)
Definition merge_ratings (details ratings : json) : result json :=
  match ratings with
  | JDict r =>
      if truthy ratings then
        let existing :=
          match details with JDict d => dget "ratings" d | _ => JNull end in
        match existing with
        | JDict ex => set_ratings details (JDict (dupdate ex r))
        | _ => set_ratings details ratings
        end
      else Ok details
  | _ => Ok details
  end.

Section WithConfig.

Variable cfg : config.
Variable client : Client.client.

(** [_is_owner(update)] *)
Definition _is_owner (u : update) : bool :=
  match OWNER_TELEGRAM_USER_ID cfg with
  | None => true
  | Some owner =>
      if is_empty owner then true
      else
        match int_of_str owner with
        | None => false
        | Some owner_id =>
            match effective_user_id u with
            | Some user_id => (user_id =? owner_id)%Z
            | None => false
            end
        end
  end.

(** [reply_text(text)] with no markup and no parse mode. *)
Definition say (text : string) : io unit := await (ReplyText text None false).

(** [start(update, context)] *)
Definition start (u : update) : io unit :=
  if negb (_is_owner u) then say "This bot is restricted to the owner."
  else say "Send a movie or TV title.".

(** The enrichment of one item: details, then ratings merged into them;
    any failure of the outer [try] leaves [{}]. *)
Definition enrich (media_type item : json) : io json :=
  try_catch
    (id <- lift (py_get item "id") ;;
     if negb (is_None id) then
       tmdb_id <- lift (py_int id) ;;
       details <- Client.get_details client media_type tmdb_id ;;
       try_catch
         (tmdb_id <- lift (py_int id) ;;
          ratings <- Client.get_ratings client media_type tmdb_id ;;
          lift (merge_ratings details ratings))
         (fun _ => Ret details)
     else Ret (JDict []))
    (fun _ => Ret (JDict [])).

(** [_append_enrichment_to_caption(base_caption, details) if details
     else base_caption] *)
Definition caption_of (base_caption : string) (details : json) : result string :=
  if truthy details then _append_enrichment_to_caption base_caption details
  else Ok base_caption.

(** The final [try] of a card: photo with caption when there is a poster,
    text otherwise, and text again when that send fails. *)
Definition send_card (poster_path : json) (caption : string)
    (keyboard : option markup) : io unit :=
  try_catch
    (if truthy poster_path then
       let url := fmt [TMDB_IMAGE_BASE cfg; py_str poster_path] in
       await (ReplyPhoto url caption keyboard)
     else await (ReplyText caption keyboard true))
    (fun _ => await (ReplyText caption keyboard true)).

(** Body of the loop over the search results. *)
Definition present_result (item : json) : io unit :=
  poster_path <- lift (py_get item "posterPath" <||> py_get item "poster_path")%py ;;
  base_caption <- lift (_build_caption item) ;;
  media_type <- lift (py_get item "mediaType" <||> py_get item "media_type"
                      <||> Ok (JStr "movie"))%py ;;
  details <- enrich media_type item ;;
  caption <- lift (caption_of base_caption details) ;;
  keyboard <- lift (_build_keyboard item) ;;
  send_card poster_path caption keyboard.

(** [on_query(update, context)] *)
Definition on_query (u : update) : io unit :=
  if negb (_is_owner u) then Ret tt
  else
    let query := strip (match message_text u with Some t => t | None => "" end) in
    if is_empty query then say "Empty query. Please enter a title."
    else
      found <- try_catch
                 (data <- Client.search client query ;; Ret (Some data))
                 (fun e =>
                    log "Search failed" ;;
                    say (fmt ["Overseerr search error: "; exn_str e]) ;;
                    Ret None) ;;
      match found with
      | None => Ret tt
      | Some data =>
          results <- lift (v <- py_get data "results" ;;
                           py_list (py_or v (JList [])))%py ;;
          match results with
          | [] => say "No results found."
          | _ =>
              filtered <- lift (filter_media results) ;;
              let filtered :=
                match filtered with [] => results | _ => filtered end in
              for_each (firstn 10 filtered) present_result
          end
      end.

(** [{**rec_item, "mediaType": media_type}] *)
Definition with_media_type (rec_item : json) (media_type : string) : result json :=
  match rec_item with
  | JDict d => Ok (JDict (dset "mediaType" (JStr media_type) d))
  | _ =>
      Err (TypeError
             (fmt ["'"; type_name rec_item; "' object is not a mapping"]))
  end.

(** Body of the loop over the recommendations. *)
Definition present_recommendation (media_type : string) (rec_item : json)
  : io unit :=
  poster_path <- lift (py_get rec_item "posterPath"
                       <||> py_get rec_item "poster_path")%py ;;
  base_caption <- lift (_build_caption rec_item) ;;
  details <- enrich (JStr media_type) rec_item ;;
  caption <- lift (caption_of base_caption details) ;;
  kb <- lift (tagged <- with_media_type rec_item media_type ;;
              _build_keyboard tagged)%py ;;
  send_card poster_path caption kb.

(** [_, media_type, media_id_str = data.split("|", 2)] *)
Definition unpack_token (data : string) : result (string * string) :=
  match splitn 2 "|" "" data with
  | [_; media_type; media_id_str] => Ok (media_type, media_id_str)
  | parts =>
      Err (ValueError
             (fmt ["not enough values to unpack (expected 3, got ";
                   str_of_Z (Z.of_nat (List.length parts)); ")"]))
  end.

(** [int(media_id_str)] under [except ValueError]. *)
Definition parse_id (media_id_str : string) : option Z := int_of_str media_id_str.

(** The [rec|] branch of [on_callback]. *)
Definition recommend (media_type media_id_str : string) : io unit :=
  match parse_id media_id_str with
  | None => say "Invalid identifier."
  | Some rec_id =>
      try_catch
        (rec <- (if String.eqb media_type "tv"
                 then Client.get_tv_recommendations client rec_id 1
                 else Client.get_movie_recommendations client rec_id 1) ;;
         rec_results <- lift (v <- py_get rec "results" ;;
                              py_list (py_or v (JList [])))%py ;;
         match rec_results with
         | [] => say "No recommendations found."
         | _ =>
             for_each (firstn 10 rec_results)
               (present_recommendation media_type)
         end)
        (fun e =>
           log "Recommendations failed" ;;
           say (fmt ["Recommendations error: "; exn_str e]))
  end.

(** [created.get("request", {}).get("id")] *)
Definition nested_request_id (created : dict) : result json :=
  py_get (if dmem "request" created then dget "request" created else JDict [])
         "id".

(** The request id read from the answer of [create_request]. *)
Definition request_id_of (created : json) : result json :=
  match created with
  | JDict d =>
      if truthy (dget "id" d) then Ok (dget "id" d) else nested_request_id d
  | _ => Ok JNull
  end.

(** The [req|] branch of [on_callback]. *)
Definition request (media_type media_id_str : string) : io unit :=
  match parse_id media_id_str with
  | None =>
      await (EditReplyMarkup None) ;;
      say "Invalid identifier."
  | Some media_id =>
      try_catch
        (created <- Client.create_request client media_id media_type None
                      (DEFAULT_IS_4K cfg) ;;
         request_id <- lift (request_id_of created) ;;
         (if negb (is_None request_id) then
            try_catch
              (_ <- Client.approve_request client request_id (DEFAULT_IS_4K cfg) ;;
               Ret tt)
              (fun _ => log "Approve failed")
          else Ret tt) ;;
         await (EditReplyMarkup None) ;;
         say "Request submitted and approved ✅")
        (fun e =>
           log "Request failed" ;;
           say (fmt ["Request error: "; exn_str e]))
  end.

(** [on_callback(update, context)] *)
Definition on_callback (u : update) : io unit :=
  if negb (_is_owner u) then await Answer
  else
    await Answer ;;
    let data := match query_data u with Some d => d | None => "" end in
    if startswith "req|" data then
      parts <- lift (unpack_token data) ;;
      request (fst parts) (snd parts)
    else if startswith "rec|" data then
      parts <- lift (unpack_token data) ;;
      recommend (fst parts) (snd parts)
    else Ret tt.

End WithConfig.

End Handlers.

(* ------------------------------------------------------------------ *)
(** * config.py *)
(* ------------------------------------------------------------------ *)

Module Config.
Import PyStr Py.

(** The process environment, as [os.getenv] reads it after [load_dotenv]. *)
Definition environ : Type := string -> option string.

(** [os.getenv(name, default)] *)
Definition getenv_default (env : environ) (name default : string) : string :=
  match env name with Some v => v | None => default end.

(** The module constants of [config.py]. *)
Record settings : Type := {
  TELEGRAM_BOT_TOKEN : option string;
  OVERSEERR_URL : string;
  OVERSEERR_API_KEY : option string;
  TMDB_IMAGE_BASE : string;
  DEFAULT_IS_4K : bool;
  OWNER_TELEGRAM_USER_ID : option string
}.

(** [x in ("1", "true", "yes", "y")] *)
Definition is_yes (x : string) : bool :=
  String.eqb x "1" || String.eqb x "true" || String.eqb x "yes"
  || String.eqb x "y".

(** The assignments at import time. *)
Definition load (env : environ) : settings :=
  {| TELEGRAM_BOT_TOKEN := env "TELEGRAM_BOT_TOKEN";
     OVERSEERR_URL :=
       rstrip_slash
         (match env "OVERSEERR_URL" with
          | Some v => if is_empty v then "" else v
          | None => ""
          end);
     OVERSEERR_API_KEY := env "OVERSEERR_API_KEY";
     TMDB_IMAGE_BASE :=
       rstrip_slash
         (getenv_default env "TMDB_IMAGE_BASE" "https://image.tmdb.org/t/p/w500");
     DEFAULT_IS_4K := is_yes (lower (strip (getenv_default env "REQUEST_4K" "false")));
     OWNER_TELEGRAM_USER_ID := env "OWNER_TELEGRAM_USER_ID" |}.

Inductive error : Type :=
| RuntimeError (msg : string).

(** The list [missing] of [validate_config]. *)
Definition missing_vars (s : settings) : list string :=
  (if negb (otruthy (TELEGRAM_BOT_TOKEN s)) then ["TELEGRAM_BOT_TOKEN"] else [])
  ++ (if is_empty (OVERSEERR_URL s) then ["OVERSEERR_URL"] else [])
  ++ (if negb (otruthy (OVERSEERR_API_KEY s)) then ["OVERSEERR_API_KEY"] else []).

(** [validate_config()] *)
Definition validate_config (s : settings) : error + unit :=
  match missing_vars s with
  | [] => inr tt
  | missing =>
      inl (RuntimeError
             (fmt ["Missing required env vars: "; String.concat ", " missing]))
  end.

(** The start of [main()]: the configuration is validated, then the client
    is built from it ([app.bot_data["overseerr_client"]]). *)
Definition startup (env : environ) : error + Client.client :=
  let s := load env in
  match validate_config s with
  | inl e => inl e
  | inr _ =>
      inr {| Client.base_url := OVERSEERR_URL s;
             Client.api_key :=
               match OVERSEERR_API_KEY s with Some k => k | None => "" end |}
  end.

(** The constants [bot.py] imports for its handlers. *)
Definition handler_config (s : settings) : Handlers.config :=
  {| Handlers.OWNER_TELEGRAM_USER_ID := OWNER_TELEGRAM_USER_ID s;
     Handlers.DEFAULT_IS_4K := DEFAULT_IS_4K s;
     Handlers.TMDB_IMAGE_BASE := TMDB_IMAGE_BASE s |}.

End Config.

(* ------------------------------------------------------------------ *)
(** * overseerr_client.py: the session of the client *)
(* ------------------------------------------------------------------ *)

Module Session.
Import PyStr Py.

(** An [aiohttp.ClientSession] object: sessions are told apart by the
    order of their creation; a session keeps the headers it was created
    with. *)
Record session : Type := {
  ident : nat;
  headers : list (string * string)
}.

(** The sessions of the process and the field [self._session]: [fresh] is
    the number of sessions created so far, [closed] names the sessions
    whose [closed] flag is set. *)
Record state : Type := {
  fresh : nat;
  closed : list nat;
  _session : option session
}.

(** [session.closed] *)
Definition is_closed (s : session) (st : state) : bool :=
  existsb (Nat.eqb (ident s)) (closed st).

(** [OverseerrClient(base_url, api_key)] with no session passed in. *)
Definition init : state := {| fresh := 0; closed := []; _session := None |}.

(** [aiohttp.ClientSession(headers={...})] stored in [self._session]. *)
Definition create (self : Client.client) (st : state) : state * session :=
  let s := {| ident := fresh st;
              headers := [("X-Api-Key", Client.api_key self);
                          ("Accept", "application/json")] |} in
  ({| fresh := S (fresh st); closed := closed st; _session := Some s |}, s).

(** [_get_session()] *)
Definition _get_session (self : Client.client) (st : state) : state * session :=
  match _session st with
  | Some s => if negb (is_closed s st) then (st, s) else create self st
  | None => create self st
  end.

(** [close()] *)
Definition close (st : state) : state :=
  match _session st with
  | Some s =>
      if negb (is_closed s st)
      then {| fresh := fresh st; closed := ident s :: closed st;
              _session := _session st |}
      else st
  | None => st
  end.

End Session.

(* ================================================================== *)
(** * Vocabulary of the properties

    The notions the theorems are stated with, and the concrete updates,
    payloads and worlds they are tried on. *)
(* ================================================================== *)

(* ------------------------------------------------------------------ *)
(** * Texts and their characters: terms *)
(* ------------------------------------------------------------------ *)

Section TextTerms.
Import PyStr.

(** All 256 bytes. *)
Definition all_ascii : list ascii := map ascii_of_nat (seq 0 256).

(** Every byte of [s] satisfies [p]. *)
Fixpoint all_chars (p : ascii -> bool) (s : string) : bool :=
  match s with
  | EmptyString => true
  | String c s' => p c && all_chars p s'
  end.

(** Some byte of [s] satisfies [p]. *)
Fixpoint some_char (p : ascii -> bool) (s : string) : bool :=
  match s with
  | EmptyString => false
  | String b s' => p b || some_char p s'
  end.

(** [f] applied to every byte. *)
Fixpoint map_bytes (f : ascii -> ascii) (s : string) : string :=
  match s with
  | EmptyString => EmptyString
  | String b s' => String (f b) (map_bytes f s')
  end.

(** A byte outside ASCII. *)
Definition high (b : ascii) : bool := (128 <=? code b)%nat.

(** A byte that the word [w] does not hold. *)
Definition not_in (w : string) (b : ascii) : bool := negb (contains_char b w).

(** One byte followed by continuation bytes. *)
Definition tail_cont (ch : string) : bool :=
  match ch with
  | String _ cs => all_chars is_cont cs
  | EmptyString => false
  end.

(** The same, the first byte being no continuation byte. *)
Definition starts_char (ch : string) : bool :=
  tail_cont ch && negb (starts_cont ch).

(** The shape of the characters of a text: only the first may begin with
    a continuation byte (in a text that is no UTF-8). *)
Definition chunks_ok (l : list string) : bool :=
  match l with
  | [] => true
  | ch :: rest => tail_cont ch && forallb starts_char rest
  end.

(** The character is one ASCII byte. *)
Definition one_ascii (ch : string) : bool :=
  match ch with
  | String b EmptyString => (code b <? 128)%nat
  | _ => false
  end.

(** The dotless i of Turkish (code point 305), which [upper] writes as
    the letter I. *)
Definition is_dotless (ch : string) : bool := char_is (N.eqb 305) ch.

Definition undot (ch : string) : string := if is_dotless ch then "i" else ch.

(** The text with every dotless i written as the letter i. *)
Definition dotted (s : string) : string := join (map undot (chars s)).

End TextTerms.

(* ------------------------------------------------------------------ *)
(** * Availability and action buttons: terms *)
(* ------------------------------------------------------------------ *)

Section AvailabilityTerms.
Import PyStr Py Bot.

(** The availability rule on a status value: text equal to AVAILABLE up
    to the case of the letters (where, as [upper] has it, the dotless i
    is a small letter I), or an integer of 4 or more. *)
Definition status_available (status : json) : bool :=
  match status with
  | JStr s => eq_nocase (dotted s) "AVAILABLE"
  | JInt n => (4 <=? n)%Z
  | _ => false
  end.

(** [mediaInfo.status] of an item: [None] (the Python value) when
    [mediaInfo] is missing or empty; undefined when [mediaInfo] is not an
    object. *)
Definition media_status (item : dict) : option json :=
  match py_or (dget "mediaInfo" item) (JDict []) with
  | JDict m => Some (dget "status" m)
  | _ => None
  end.

(** The media type of an item, [movie] when the item names none. *)
Definition media_type_of (item : dict) : json :=
  py_or (py_or (dget "mediaType" item) (dget "media_type" item)) (JStr "movie").

Definition movie_or_tv (media_type : json) : bool :=
  eq_str media_type "movie" || eq_str media_type "tv".

(** The button texts of a keyboard, row by row. *)
Definition button_labels (kb : option markup) : list string :=
  match kb with
  | None => []
  | Some rows => map text (List.concat rows)
  end.

(** The buttons the rule asks for. *)
Definition expected_labels (available : bool) (media_type : json) : list string :=
  (if available then [] else ["⏬ Download"])
  ++ (if movie_or_tv media_type then ["👀 Recommendations"] else []).

(** The keyboard of [item] carries exactly the buttons of the rule. *)
Definition buttons_as_ruled (item : dict) : Prop :=
  exists available kb,
    _is_available (JDict item) = Ok available
    /\ _build_keyboard (JDict item) = Ok kb
    /\ button_labels kb = expected_labels available (media_type_of item).

End AvailabilityTerms.

(* ------------------------------------------------------------------ *)
(** * Ratings extraction: terms *)
(* ------------------------------------------------------------------ *)

Section RatingsTerms.
Import PyStr Py Bot.

(** The external ids block of a details record, [{}] when it has none. *)
Definition external_ids (d : dict) : json :=
  py_or (py_or (dget "externalIds" d) (dget "external_ids" d)) (JDict []).

(** The ratings block of a details record, [{}] when it has none. *)
Definition ratings_block (d : dict) : json :=
  py_or (dget "ratings" d) (JDict []).

Definition flat_example : json :=
  JDict [("criticsScore", JInt 85); ("audienceScore", JInt 70)].

Definition nested_example : json :=
  JDict [("imdb", JDict [("value", JStr "7.5")]);
         ("rottenTomatoes", JDict [("critics", JDict [("score", JInt 90)])])].

(** The keys of a ratings block that the extraction looks at. *)
Definition recognized_keys : list string :=
  ["imdb"; "IMDb"; "imdbRating"; "rottenTomatoes"; "rotten_tomatoes";
   "rotten"; "criticsScore"; "audienceScore"].

(** No recognized shape: the block is not an object, or it has none of the
    recognized keys (or has them set to null). *)
Definition no_recognized_shape (ratings : json) : bool :=
  match ratings with
  | JDict r => forallb (fun k => is_None (dget k r)) recognized_keys
  | _ => true
  end.

Definition all_ratings_null (r : rates) : Prop :=
  imdb_rating r = None /\ rt_tomato r = None /\ rt_popcorn r = None.

Definition imdb_only (key : string) (v : json) : json :=
  JDict [("ratings", JDict [("imdb", JDict [(key, v)])])].

Definition rt_only (side key : string) (v : json) : json :=
  JDict [("ratings", JDict [("rottenTomatoes", JDict [(side, JDict [(key, v)])])])].

End RatingsTerms.

(* ------------------------------------------------------------------ *)
(** * Caption composition: terms *)
(* ------------------------------------------------------------------ *)

Section CaptionTerms.
Import PyStr Py Bot Handlers.

Definition is_dict (v : json) : bool :=
  match v with JDict _ => true | _ => false end.

(** A list of videos whose entries are objects (or no list at all). *)
Definition list_of_dicts (v : json) : bool :=
  match v with JList vs => forallb is_dict vs | _ => true end.

(** The two video lists of a details record. *)
Definition videos_ok (d : dict) : bool :=
  list_of_dicts (dget "relatedVideos" d)
  && list_of_dicts
       (match py_or (dget "videos" d) (JDict []) with
        | JDict m => dget "results" m
        | _ => JNull
        end).

(** A well-formed enrichment payload: none ([{}] or any falsy value), or a
    details object whose external ids are absent or an object and whose
    video lists hold objects. *)
Definition details_wf (details : json) : Prop :=
  truthy details = false
  \/ exists d e, details = JDict d /\ external_ids d = JDict e
                 /\ videos_ok d = true.

(** A line that is a link: it opens with an anchor tag. *)
Definition is_link (l : string) : bool := startswith ("<a href=" ++ dq) l.

Definition status_line_of (available : bool) : string :=
  if available then "✅ Status: in library" else "❌ Status: not in library".

(** The date the year is read from. *)
Definition date_of (item : dict) : json :=
  py_or (py_or (py_or (dget "releaseDate" item) (dget "firstAirDate" item))
           (dget "release_date" item))
    (dget "first_air_date" item).

Definition has_year (item : dict) : bool :=
  match date_of item with
  | JStr s => (4 <=? len s)%nat
  | _ => false
  end.

(** The title shown for an item. *)
Definition title_of (item : dict) : json :=
  py_or (py_or (dget "title" item) (dget "name" item)) (JStr "(untitled)").

Definition type_label (item : dict) : string :=
  if eq_str (media_type_of item) "movie" then "movie" else "tv series".

(** The lines of the first block of a caption: the title line, the year
    line when the item has a year, a blank line, the availability line. *)
Definition title_line (item : dict) : string :=
  fmt ["<b>"; py_str (title_of item); "</b> - ("; type_label item; ")"].

Definition year_block (item : dict) : list string :=
  match date_of item with
  | JStr s => if (4 <=? len s)%nat then [fmt ["Year - "; take 4 s]] else []
  | _ => []
  end.

Definition first_block (item : dict) (available : bool) : list string :=
  title_line item :: year_block item ++ [""; status_line_of available].

End CaptionTerms.

(* ------------------------------------------------------------------ *)
(** * The upstream client and not found: terms *)
(* ------------------------------------------------------------------ *)

Section NotFoundTerms.
Import PyStr Py IO Client.

Variable self : client.

Definition ratings_url (media_type : json) (id : Z) : string :=
  fmt [base_url self; "/api/v1/";
       if eq_str media_type "movie" then "movie" else "tv";
       "/"; str_of_Z id; "/ratings"].

Definition recommendations_url (kind : string) (id : Z) : string :=
  fmt [base_url self; "/api/v1/"; kind; "/"; str_of_Z id; "/recommendations"].

Definition details_url (kind : string) (id : Z) : string :=
  fmt [base_url self; "/api/v1/"; kind; "/"; str_of_Z id].

(** [getRecommendations(mediaType, id, page)] of the contract: the two
    methods of the client, chosen as [on_callback] chooses. *)
Definition get_recommendations (kind : string) (id page : Z) : io json :=
  if String.eqb kind "tv" then get_tv_recommendations self id page
  else get_movie_recommendations self id page.

Definition kind_of (kind : string) : string :=
  if String.eqb kind "tv" then "tv" else "movie".

(** The upstream error of a response: status, reason phrase, address. *)
Definition upstream_error (url : string) (resp : response) : exn :=
  ClientResponseError (status resp) (reason resp) url.

Definition empty_results : json := JDict [("results", JList [])].

End NotFoundTerms.

(** An upstream that answers every request with 404 Not Found, and a chat
    transport that delivers everything. *)
Definition not_found : IO.response :=
  {| IO.status := 404; IO.reason := "Not Found";
     IO.body := Py.Err (Py.Exception "Attempt to decode JSON with unexpected mimetype") |}.

Definition world_404 : IO.world :=
  fun _ X c =>
    match c in IO.call X return Py.result X with
    | IO.HttpGet _ _ | IO.HttpPost _ _ => Py.Ok not_found
    | _ => Py.Ok tt
    end.

Definition a_client : Client.client :=
  {| Client.base_url := "http://overseerr:5055"; Client.api_key := "key" |}.

(* ------------------------------------------------------------------ *)
(** * The access guard: terms *)
(* ------------------------------------------------------------------ *)

Section AccessGuardTerms.
Import PyStr Py IO Handlers.

(** The caller is the configured owner. *)
Definition matches_owner (owner : string) (u : update) : Prop :=
  exists id, int_of_str owner = Some id /\ effective_user_id u = Some id.

End AccessGuardTerms.

Definition owner_42 : Handlers.config :=
  {| Handlers.OWNER_TELEGRAM_USER_ID := Some "42";
     Handlers.DEFAULT_IS_4K := false;
     Handlers.TMDB_IMAGE_BASE := "https://image.tmdb.org/t/p/w500" |}.

Definition open_mode : Handlers.config :=
  {| Handlers.OWNER_TELEGRAM_USER_ID := None;
     Handlers.DEFAULT_IS_4K := false;
     Handlers.TMDB_IMAGE_BASE := "https://image.tmdb.org/t/p/w500" |}.

(** User 7 writes "dune". *)
Definition stranger_text : Handlers.update :=
  {| Handlers.effective_user_id := Some 7%Z;
     Handlers.message_text := Some "dune";
     Handlers.query_data := None |}.

(* ------------------------------------------------------------------ *)
(** * Local validation: terms *)
(* ------------------------------------------------------------------ *)

Section ValidationTerms.
Import PyStr Py IO Handlers.

(** The chat transport delivers every call. *)
Record chat_delivers (w : world) : Prop := {
  delivers_text :
    forall n text kb html, w n unit (ReplyText text kb html) = Ok tt;
  delivers_photo :
    forall n photo caption kb, w n unit (ReplyPhoto photo caption kb) = Ok tt;
  delivers_answer : forall n, w n unit Answer = Ok tt;
  delivers_edit : forall n kb, w n unit (EditReplyMarkup kb) = Ok tt
}.

Definition text_of_update (u : update) : string :=
  match message_text u with Some t => t | None => "" end.

Definition notice (text : string) (o : result unit) : event :=
  Called (ReplyText text None false) o.

End ValidationTerms.

(** An authorized tap on a button carrying [req|movie|notanumber]. *)
Definition bad_token_tap : Handlers.update :=
  {| Handlers.effective_user_id := Some 42%Z;
     Handlers.message_text := None;
     Handlers.query_data := Some "req|movie|notanumber" |}.

(* ------------------------------------------------------------------ *)
(** * Coroutines that only talk to the upstream service: terms *)
(* ------------------------------------------------------------------ *)

Module Quiet.
Import Py IO.

Definition is_http {X} (c : call X) : bool :=
  match c with HttpGet _ _ | HttpPost _ _ => true | _ => false end.

(** [quiet p]: whatever the answers, [p] makes HTTP requests only (no chat
    call, no log entry). *)
Inductive quiet {A} : io A -> Prop :=
| quiet_ret (a : A) : quiet (Ret a)
| quiet_raise (e : exn) : quiet (Raise e)
| quiet_vis {X} (c : call X) (k : result X -> io A) :
    is_http c = true -> (forall r, quiet (k r)) -> quiet (Vis c k).

End Quiet.

(* ------------------------------------------------------------------ *)
(** * The Download tap: terms *)
(* ------------------------------------------------------------------ *)

Section DownloadTapTerms.
Import PyStr Py IO Handlers Quiet.

(** The answer of [create_request] carries a request id: at top level, or
    nested under [request] when the top-level one is missing. *)
Inductive carries_id : json -> json -> Prop :=
| id_top_level (d : dict) :
    truthy (dget "id" d) = true ->
    carries_id (JDict d) (dget "id" d)
| id_nested (d q : dict) :
    truthy (dget "id" d) = false ->
    dget "request" d = JDict q ->
    is_None (dget "id" q) = false ->
    carries_id (JDict d) (dget "id" q).

Definition success_text : string := "Request submitted and approved ✅".

End DownloadTapTerms.

(** An authorized tap on the Download button of movie 603. *)
Definition download_tap : Handlers.update :=
  {| Handlers.effective_user_id := Some 42%Z;
     Handlers.message_text := None;
     Handlers.query_data := Some "req|movie|603" |}.

Definition created_17 : Py.json :=
  Py.JDict [("request", Py.JDict [("id", Py.JInt 17)])].

Definition server_error : IO.response :=
  {| IO.status := 500; IO.reason := "Internal Server Error";
     IO.body := Py.Err (Py.Exception "Attempt to decode JSON with unexpected mimetype") |}.

(** An upstream that creates request 17 and then fails to approve it. *)
Definition world_approve_fails : IO.world :=
  fun _ X c =>
    match c in IO.call X return Py.result X with
    | IO.HttpPost url _ =>
        if String.eqb url "http://overseerr:5055/api/v1/request"
        then Py.Ok {| IO.status := 201; IO.reason := "Created";
                      IO.body := Py.Ok created_17 |}
        else Py.Ok server_error
    | IO.HttpGet _ _ => Py.Ok not_found
    | _ => Py.Ok tt
    end.

(* ------------------------------------------------------------------ *)
(** * Presenting search results: terms *)
(* ------------------------------------------------------------------ *)

Section CardsTerms.
Import PyStr Py IO Handlers Quiet.

(** A card: a delivered photo with caption, or a delivered rich-text
    message (the notices of the handlers are sent as plain text). *)
Definition is_card (e : event) : bool :=
  match e with
  | Called (ReplyPhoto _ _ _) (Ok _) => true
  | Called (ReplyText _ _ true) (Ok _) => true
  | _ => false
  end.

Definition cards (t : list event) : nat := List.length (filter is_card t).

(** Whatever the world, [p] delivers at most [m] cards. *)
Definition at_most {A} (m : nat) (p : io A) : Prop :=
  forall w n, (cards (fst (run p w n)) <= m)%nat.

(** The media type a result names ([None] when it names none). *)
Definition named_media_type (r : json) : json :=
  match r with
  | JDict d => py_or (dget "mediaType" d) (dget "media_type" d)
  | _ => JNull
  end.

Definition names_movie_or_tv (r : json) : bool :=
  movie_or_tv (named_media_type r).

(** The results to present: the first ten of the movie and tv results, or
    of all results when none is a movie or a tv series. *)
Definition shown_results (results : list json) : list json :=
  firstn 10
    (match filter names_movie_or_tv results with
     | [] => results
     | kept => kept
     end).

End CardsTerms.

(** An authorized caller writes "dune". *)
Definition dune_query : Handlers.update :=
  {| Handlers.effective_user_id := Some 42%Z;
     Handlers.message_text := Some "dune";
     Handlers.query_data := None |}.

Definition result_item (kind : string) (id : Z) : Py.json :=
  Py.JDict [("id", Py.JInt id); ("mediaType", Py.JStr kind);
            ("title", Py.JStr "Dune")].

(** One person and twelve movie and tv results. *)
Definition thirteen_results : list Py.json :=
  result_item "person" 100
  :: map (fun id => result_item (if Z.even id then "movie" else "tv") id)
       [1; 2; 3; 4; 5; 6; 7; 8; 9; 10; 11; 12]%Z.

(** An upstream whose search finds the thirteen results and which knows
    nothing else. *)
Definition world_dozen : IO.world :=
  fun _ X c =>
    match c in IO.call X return Py.result X with
    | IO.HttpGet url _ =>
        if PyStr.startswith "http://overseerr:5055/api/v1/search" url
        then Py.Ok {| IO.status := 200; IO.reason := "OK";
                      IO.body := Py.Ok (Py.JDict [("results", Py.JList thirteen_results)]) |}
        else Py.Ok not_found
    | IO.HttpPost _ _ => Py.Ok not_found
    | _ => Py.Ok tt
    end.

(* ------------------------------------------------------------------ *)
(** * Further properties: terms *)
(* ------------------------------------------------------------------ *)

Section TokenTerms.
Import PyStr Py Bot.

(** The number a digit sequence denotes, read after the prefix [acc]. *)
Fixpoint uint_value (d : Decimal.uint) (acc : Z) : Z :=
  match d with
  | Decimal.Nil => acc
  | Decimal.D0 l => uint_value l (10 * acc + 0)
  | Decimal.D1 l => uint_value l (10 * acc + 1)
  | Decimal.D2 l => uint_value l (10 * acc + 2)
  | Decimal.D3 l => uint_value l (10 * acc + 3)
  | Decimal.D4 l => uint_value l (10 * acc + 4)
  | Decimal.D5 l => uint_value l (10 * acc + 5)
  | Decimal.D6 l => uint_value l (10 * acc + 6)
  | Decimal.D7 l => uint_value l (10 * acc + 7)
  | Decimal.D8 l => uint_value l (10 * acc + 8)
  | Decimal.D9 l => uint_value l (10 * acc + 9)
  end%Z.

(** The buttons of a keyboard. *)
Definition buttons_of (kb : option markup) : list button :=
  match kb with
  | None => []
  | Some rows => List.concat rows
  end.

End TokenTerms.

Section NormalizerTerms.
Import PyStr Py Bot.

(** The address of a video when it is a YouTube video of the wanted type
    ([None]: of any type) whose [url] is text. *)
Definition video_url (wanted : option string) (v : json) : option string :=
  match v with
  | JDict m =>
      match dget "url" m with
      | JStr u =>
          if eq_str (dget "site" m) "YouTube"
             && match wanted with
                | Some ty => eq_str (dget "type" m) ty
                | None => true
                end
          then Some u else None
      | _ => None
      end
  | _ => None
  end.

(** The first video of a list that has such an address. *)
Fixpoint first_video (wanted : option string) (vs : list json) : option string :=
  match vs with
  | [] => None
  | v :: vs' =>
      match video_url wanted v with
      | Some u => Some u
      | None => first_video wanted vs'
      end
  end.

(** Letters, digits and the four marks that [quote] leaves as they are. *)
Definition unreserved (c : ascii) : bool :=
  is_lower c || is_upper c || is_digit c
  || Ascii.eqb c "_" || Ascii.eqb c "." || Ascii.eqb c "-" || Ascii.eqb c "~".

(** What a percent-encoded text is made of. *)
Definition url_safe (c : ascii) : bool := unreserved c || Ascii.eqb c "%".

(** [s.endswith("/")] *)
Fixpoint ends_with_slash (s : string) : bool :=
  match s with
  | EmptyString => false
  | String c EmptyString => Ascii.eqb c "/"
  | String _ s' => ends_with_slash s'
  end.

End NormalizerTerms.

Section SessionTerms.
Import Session.

(** The sessions named by a state exist: their names are below [fresh]. *)
Definition session_wf (st : state) : Prop :=
  (forall s, _session st = Some s -> ident s < fresh st)%nat
  /\ Forall (fun i => i < fresh st)%nat (closed st).

End SessionTerms.

(** An environment: the token, the key, and an upstream address with
    trailing slashes. *)
Definition env_ok : Config.environ :=
  fun name =>
    if String.eqb name "TELEGRAM_BOT_TOKEN" then Some "123:abc"
    else if String.eqb name "OVERSEERR_URL" then Some "http://overseerr:5055//"
    else if String.eqb name "OVERSEERR_API_KEY" then Some "key"
    else if String.eqb name "REQUEST_4K" then Some " Yes "
    else None.

(** The same, with an upstream address made of slashes. *)
Definition env_slashes : Config.environ :=
  fun name =>
    if String.eqb name "OVERSEERR_URL" then Some "//" else env_ok name.

Section BoundTerms.
Import PyStr Py IO Handlers.

(** Whatever the world, a run of [p] holds at most [m] events that
    satisfy [f]. *)
Definition count_at_most {A} (f : event -> bool) (m : nat) (p : io A) : Prop :=
  forall w n, (List.length (filter f (fst (run p w n))) <= m)%nat.

(** The number of [sep] in [s]. *)
Fixpoint count_char (sep : ascii) (s : string) : nat :=
  match s with
  | EmptyString => 0
  | String c s' => (if Ascii.eqb c sep then 1 else 0) + count_char sep s'
  end.

End BoundTerms.

Section TapTerms.
Import PyStr Py IO Handlers.

(** [query.data or ""] *)
Definition tap_data (u : update) : string :=
  match query_data u with Some d => d | None => "" end.

(** The token names one of the two actions of [on_callback]. *)
Definition known_action (data : string) : bool :=
  startswith "req|" data || startswith "rec|" data.

(** The body [create_request] posts. *)
Definition request_body (media_id : Z) (media_type : string) (is_4k : bool) : json :=
  JDict ([("mediaId", JInt media_id); ("mediaType", JStr media_type)]
         ++ (if is_4k then [("is4k", JBool true)] else [])).

(** The answer of [create_request] names no request: it is no object, or
    its [id] is missing (or falsy) and so is the one under [request]. *)
Definition without_id (created : json) : Prop :=
  match created with
  | JDict d =>
      truthy (dget "id" d) = false
      /\ (dmem "request" d = false
          \/ exists q, dget "request" d = JDict q /\ dget "id" q = JNull)
  | _ => True
  end.

(** The answer of [create_request] has no [id] of its own and holds under
    [request] the value [v], which is no object. *)
Definition request_not_object (created v : json) : Prop :=
  exists d,
    created = JDict d /\ truthy (dget "id" d) = false
    /\ dmem "request" d = true /\ dget "request" d = v /\ is_dict v = false.

End TapTerms.

(** An authorized tap on a button whose data is cut after the action. *)
Definition short_token_tap : Handlers.update :=
  {| Handlers.effective_user_id := Some 42%Z;
     Handlers.message_text := None;
     Handlers.query_data := Some "rec|movie" |}.

(** An authorized tap on the Recommendations button of tv series 1399. *)
Definition recommendations_tap : Handlers.update :=
  {| Handlers.effective_user_id := Some 42%Z;
     Handlers.message_text := None;
     Handlers.query_data := Some "rec|tv|1399" |}.

(** An upstream that answers every request with 201 and the body
    [{"request": null}]. *)
Definition world_null_request : IO.world :=
  fun _ X c =>
    match c in IO.call X return Py.result X with
    | IO.HttpGet _ _ | IO.HttpPost _ _ =>
        Py.Ok {| IO.status := 201; IO.reason := "Created";
                 IO.body := Py.Ok (Py.JDict [("request", Py.JNull)]) |}
    | _ => Py.Ok tt
    end.

(** The owner id is set to text that is no integer. *)
Definition owner_garbled : Handlers.config :=
  {| Handlers.OWNER_TELEGRAM_USER_ID := Some "me";
     Handlers.DEFAULT_IS_4K := false;
     Handlers.TMDB_IMAGE_BASE := "https://image.tmdb.org/t/p/w500" |}.

(** A chat transport that refuses photos and delivers the rest; the
    upstream answers 404. *)
Definition world_no_photo : IO.world :=
  fun _ X c =>
    match c in IO.call X return Py.result X with
    | IO.HttpGet _ _ | IO.HttpPost _ _ => Py.Ok not_found
    | IO.ReplyPhoto _ _ _ => Py.Err (Py.Exception "Wrong type of the web page content")
    | _ => Py.Ok tt
    end.

(** An upstream whose search answer holds a non-object among its
    results. *)
Definition world_odd_results : IO.world :=
  fun _ X c =>
    match c in IO.call X return Py.result X with
    | IO.HttpGet _ _ | IO.HttpPost _ _ =>
        Py.Ok {| IO.status := 200; IO.reason := "OK";
                 IO.body :=
                   Py.Ok (Py.JDict
                            [("results",
                              Py.JList [Py.JDict [("id", Py.JInt 1)];
                                        Py.JStr "oops"])]) |}
    | _ => Py.Ok tt
    end.

Section EnrichmentLinesTerms.
Import PyStr Py Bot.

(** The keys of the combined ratings shapes. *)
Definition combined_keys : list string :=
  ["imdb"; "IMDb"; "imdbRating"; "rottenTomatoes"; "rotten_tomatoes"; "rotten"].

(** A ratings block with none of the combined shapes. *)
Definition no_combined_shape (r : dict) : bool :=
  forallb (fun k => is_None (dget k r)) combined_keys.

(** The address of a video of [videos.results] when it is a YouTube video
    of the wanted type ([None]: of any type) with a key. *)
Definition keyed_video_url (wanted : option string) (v : json) : option string :=
  match v with
  | JDict m =>
      if eq_str (dget "site" m) "YouTube"
         && match wanted with
            | Some ty => eq_str (dget "type" m) ty
            | None => true
            end
         && truthy (dget "key" m)
      then Some (fmt ["https://youtu.be/"; py_str (dget "key" m)])
      else None
  | _ => None
  end.

Fixpoint first_keyed_video (wanted : option string) (vs : list json)
  : option string :=
  match vs with
  | [] => None
  | v :: vs' =>
      match keyed_video_url wanted v with
      | Some u => Some u
      | None => first_keyed_video wanted vs'
      end
  end.

(** The related videos give no address: they are no list, or a list of
    objects none of which is a YouTube video with a text url. *)
Definition related_gives_none (d : dict) : Prop :=
  match dget "relatedVideos" d with
  | JList vs => forallb is_dict vs = true /\ first_video None vs = None
  | _ => True
  end.

End EnrichmentLinesTerms.

(* ================================================================== *)
(** * Lemmas and theorems *)
(* ================================================================== *)

(* ------------------------------------------------------------------ *)
(** * The string model on examples *)
(* ------------------------------------------------------------------ *)

Example split_token : PyStr.splitn 2 "|" "" "req|movie|1|2" = ["req"; "movie"; "1|2"].
Proof. reflexivity. Qed.

Example split_short : PyStr.splitn 2 "|" "" "req|" = ["req"; ""].
Proof. reflexivity. Qed.

Example int_examples :
  PyStr.int_of_str " 1_000 " = Some 1000%Z /\ PyStr.int_of_str "-42" = Some (-42)%Z
  /\ PyStr.int_of_str "notanumber" = None /\ PyStr.int_of_str "1__0" = None
  /\ PyStr.int_of_str "" = None /\ PyStr.int_of_str "- 5" = None.
Proof. repeat split; reflexivity. Qed.

Example repr_examples :
  PyStr.repr "it's" = PyStr.fmt [PyStr.dq; "it's"; PyStr.dq]
  /\ PyStr.repr "Not Found" = "'Not Found'"
  /\ PyStr.str_of_Z (-85) = "-85".
Proof. repeat split; reflexivity. Qed.

Example strip_examples :
  PyStr.strip "  dune  " = "dune" /\ PyStr.strip "   " = ""
  /\ PyStr.rstrip_slash "http://x/tt1//" = "http://x/tt1"
  /\ last (PyStr.split "/" "http://x/tt1") "" = "tt1"
  /\ PyStr.upper "Available" = "AVAILABLE".
Proof. repeat split; reflexivity. Qed.

(* ------------------------------------------------------------------ *)
(** * Running coroutines: the equations of [run] *)
(* ------------------------------------------------------------------ *)

Module RunFacts.
Import Py IO.

Lemma run_bind {A B} (p : io A) (k : A -> io B) (w : world) (n : nat) :
  run (bind p k) w n =
  match run p w n with
  | (t, Ok a) =>
      let (t', r) := run (k a) w (n + List.length t) in (t ++ t', r)
  | (t, Err e) => (t, Err e)
  end.
Proof.
  revert n. induction p as [a | e | m p IH | X c f IH]; intros n; simpl.
  - rewrite Nat.add_0_r. destruct (run (k a) w n); reflexivity.
  - reflexivity.
  - rewrite IH. destruct (run p w (S n)) as [t [a | e]]; cbn [List.length].
    + rewrite Nat.add_succ_r; cbn [Nat.add].
      destruct (run (k a) w (S (n + List.length t))); reflexivity.
    + reflexivity.
  - rewrite IH. destruct (run (f (w n X c)) w (S n)) as [t [a | e]]; cbn [List.length].
    + rewrite Nat.add_succ_r; cbn [Nat.add].
      destruct (run (k a) w (S (n + List.length t))); reflexivity.
    + reflexivity.
Qed.

Lemma run_try_catch {A} (p : io A) (h : exn -> io A) (w : world) (n : nat) :
  run (try_catch p h) w n =
  match run p w n with
  | (t, Ok a) => (t, Ok a)
  | (t, Err e) =>
      let (t', r) := run (h e) w (n + List.length t) in (t ++ t', r)
  end.
Proof.
  revert n. induction p as [a | e | m p IH | X c f IH]; intros n; simpl.
  - reflexivity.
  - rewrite Nat.add_0_r. destruct (run (h e) w n); reflexivity.
  - rewrite IH. destruct (run p w (S n)) as [t [a | e]]; cbn [List.length].
    + reflexivity.
    + rewrite Nat.add_succ_r; cbn [Nat.add].
      destruct (run (h e) w (S (n + List.length t))); reflexivity.
  - rewrite IH. destruct (run (f (w n X c)) w (S n)) as [t [a | e]]; cbn [List.length].
    + reflexivity.
    + rewrite Nat.add_succ_r; cbn [Nat.add].
      destruct (run (h e) w (S (n + List.length t))); reflexivity.
Qed.

Lemma run_lift {A} (r : result A) (w : world) (n : nat) :
  run (lift r) w n = ([], r).
Proof. destruct r; reflexivity. Qed.

Lemma run_await {X} (c : call X) (w : world) (n : nat) :
  run (await c) w n = ([Called c (w n X c)], w n X c).
Proof. unfold await; simpl. rewrite run_lift. reflexivity. Qed.

End RunFacts.

(* ------------------------------------------------------------------ *)
(** * Texts and their characters *)
(* ------------------------------------------------------------------ *)

Section StringFacts.
Import PyStr Unicode.

Lemma in_all_ascii (c : ascii) : In c all_ascii.
Proof.
  unfold all_ascii. rewrite <- (ascii_nat_embedding c).
  apply in_map, in_seq. pose proof (nat_ascii_bounded c). lia.
Qed.

Lemma all_chars_app (p : ascii -> bool) (s t : string) :
  all_chars p (s ++ t) = all_chars p s && all_chars p t.
Proof.
  induction s as [| c s IH]; cbn; [reflexivity|]. rewrite IH, andb_assoc. reflexivity.
Qed.

Lemma all_chars_impl (p q : ascii -> bool) (s : string) :
  (forall c, p c = true -> q c = true) ->
  all_chars p s = true -> all_chars q s = true.
Proof.
  intros Hpq. induction s as [| c s IH]; cbn; [reflexivity|]. intros H.
  apply andb_prop in H as [Hc Hs]. rewrite (Hpq c Hc), (IH Hs). reflexivity.
Qed.

Lemma append_nil_r (s : string) : (s ++ "")%string = s.
Proof. induction s as [| c s IH]; cbn; [reflexivity | rewrite IH; reflexivity]. Qed.

Lemma append_assoc (a b c : string) : ((a ++ b) ++ c = a ++ (b ++ c))%string.
Proof. induction a as [| x a IH]; cbn; [reflexivity | rewrite IH; reflexivity]. Qed.

Lemma join_cons (ch : string) (l : list string) :
  join (ch :: l) = (ch ++ join l)%string.
Proof. reflexivity. Qed.

Lemma join_app (l1 l2 : list string) :
  join (l1 ++ l2) = (join l1 ++ join l2)%string.
Proof.
  induction l1 as [| x l1 IH]; [reflexivity|].
  cbn [app]. rewrite !join_cons, IH, append_assoc. reflexivity.
Qed.

(** The characters of a text, put together again, are the text. *)
Lemma join_chars (s : string) : join (chars s) = s.
Proof.
  induction s as [| b s IH]; [reflexivity|]. cbn [chars].
  destruct (chars s) as [| ch rest].
  - cbn in IH. subst s. reflexivity.
  - rewrite join_cons in IH.
    destruct (starts_cont s); rewrite !join_cons; cbn [String.append];
      rewrite ?join_cons, IH; reflexivity.
Qed.

Lemma chars_ok (s : string) : chunks_ok (chars s) = true.
Proof.
  induction s as [| b s IH]; [reflexivity|]. cbn [chars].
  pose proof (join_chars s) as Hj.
  destruct (chars s) as [| ch rest]; [reflexivity|].
  cbn [chunks_ok] in IH. apply andb_prop in IH as [Hch Hrest].
  rewrite join_cons in Hj.
  destruct ch as [| c cs]; [discriminate Hch|].
  assert (Hs : starts_cont s = is_cont c) by (rewrite <- Hj; reflexivity).
  rewrite Hs. destruct (is_cont c) eqn:Ec; cbn [chunks_ok tail_cont forallb all_chars].
  - cbn [tail_cont] in Hch. rewrite Ec, Hch, Hrest. reflexivity.
  - rewrite Hrest. unfold starts_char. cbn [starts_cont]. rewrite Ec, Hch.
    reflexivity.
Qed.

Lemma starts_cont_app (cs t : string) :
  starts_cont (cs ++ t) = match cs with EmptyString => starts_cont t | _ => starts_cont cs end.
Proof. destruct cs; reflexivity. Qed.

Lemma chars_cont_run (cs t : string) :
  all_chars is_cont cs = true -> starts_cont t = false ->
  chars (cs ++ t)
  = match cs with EmptyString => chars t | _ => cs :: chars t end.
Proof.
  intros Hcs Ht. induction cs as [| c cs IH]; [reflexivity|].
  cbn [all_chars] in Hcs. apply andb_prop in Hcs as [Hc Hcs].
  specialize (IH Hcs). cbn [String.append chars]. rewrite IH.
  destruct cs as [| c' cs'].
  - cbn [String.append]. rewrite Ht.
    destruct (chars t) eqn:E; [| reflexivity].
    reflexivity.
  - cbn [String.append starts_cont]. cbn [all_chars] in Hcs.
    apply andb_prop in Hcs as [Hc' _]. rewrite Hc'. reflexivity.
Qed.

Lemma join_starts (l : list string) :
  forallb starts_char l = true -> starts_cont (join l) = false.
Proof.
  destruct l as [| ch l]; [reflexivity|]. cbn [forallb]. intros H.
  apply andb_prop in H as [H _]. unfold starts_char in H.
  apply andb_prop in H as [Ht Hs]. destruct ch as [| c cs]; [discriminate Ht|].
  rewrite join_cons. cbn [String.append starts_cont] in *.
  destruct (is_cont c); [discriminate Hs | reflexivity].
Qed.

Lemma chars_chunk (b : ascii) (cs t : string) :
  all_chars is_cont cs = true -> starts_cont t = false ->
  chars (String b (cs ++ t)) = String b cs :: chars t.
Proof.
  intros Hcs Ht. cbn [chars]. rewrite (chars_cont_run cs t Hcs Ht).
  destruct cs as [| c cs'].
  - cbn [String.append]. rewrite Ht. destruct (chars t); reflexivity.
  - cbn [String.append starts_cont]. cbn [all_chars] in Hcs.
    apply andb_prop in Hcs as [Hc _]. rewrite Hc. reflexivity.
Qed.

Lemma chars_join_chars (l : list string) :
  forallb starts_char l = true -> chars (join l) = l.
Proof.
  induction l as [| ch l IH]; [reflexivity|]. cbn [forallb]. intros H.
  apply andb_prop in H as [Hch Hl]. unfold starts_char in Hch.
  apply andb_prop in Hch as [Ht _]. destruct ch as [| b cs]; [discriminate Ht|].
  rewrite join_cons. cbn [String.append tail_cont] in *.
  rewrite (chars_chunk b cs (join l) Ht (join_starts l Hl)), (IH Hl). reflexivity.
Qed.

(** A list of well-shaped characters is the list of characters of its
    text. *)
Lemma chars_join (l : list string) : chunks_ok l = true -> chars (join l) = l.
Proof.
  destruct l as [| ch l]; [reflexivity|]. cbn [chunks_ok]. intros H.
  apply andb_prop in H as [Ht Hl]. destruct ch as [| b cs]; [discriminate Ht|].
  rewrite join_cons. cbn [String.append tail_cont] in *.
  rewrite (chars_chunk b cs (join l) Ht (join_starts l Hl)),
    (chars_join_chars l Hl). reflexivity.
Qed.

Lemma chunks_ok_firstn (n : nat) (l : list string) :
  chunks_ok l = true -> chunks_ok (firstn n l) = true.
Proof.
  destruct l as [| ch l]; [destruct n; reflexivity|].
  destruct n as [| n]; [reflexivity|]. cbn [firstn chunks_ok]. intros H.
  apply andb_prop in H as [Ht Hl]. rewrite Ht. cbn [andb].
  revert n. induction l as [| x l IH]; intros n; [destruct n; reflexivity|].
  cbn [forallb] in Hl. apply andb_prop in Hl as [Hx Hl].
  destruct n as [| n]; [reflexivity|]. cbn [firstn forallb].
  rewrite Hx, (IH Hl). reflexivity.
Qed.

(** [s[:n]] has [n] characters when [s] has as many. *)
Lemma take_len (n : nat) (s : string) :
  (n <= len s)%nat -> len (take n s) = n.
Proof.
  unfold len, take. intros H.
  rewrite chars_join by apply chunks_ok_firstn, chars_ok.
  apply firstn_length_le, H.
Qed.

Lemma prefix_refl_app (a b c : string) :
  prefix (a ++ b) (a ++ c) = prefix b c.
Proof.
  induction a as [| x a IH]; [reflexivity|]. cbn [String.append prefix].
  destruct (ascii_dec x x); [exact IH | congruence].
Qed.

Lemma prefix_empty (s : string) : prefix "" s = true.
Proof. destruct s; reflexivity. Qed.

(** [s[:n]] is the start of [s]. *)
Lemma take_prefix (n : nat) (s : string) : prefix (take n s) s = true.
Proof.
  unfold take. rewrite <- (join_chars s) at 2.
  generalize (chars s). intros l. revert n.
  induction l as [| ch l IH]; intros [| n]; cbn [firstn]; try apply prefix_empty.
  rewrite !join_cons, prefix_refl_app. apply IH.
Qed.

(** The characters of an ASCII text are its bytes. *)
Lemma chars_ascii (s : string) :
  is_ascii s = true ->
  chars s = map (fun b => String b "") (list_ascii_of_string s).
Proof.
  induction s as [| b s IH]; [reflexivity|]. cbn [is_ascii]. intros H.
  apply andb_prop in H as [Hb Hs]. specialize (IH Hs). cbn [chars]. rewrite IH.
  destruct s as [| b' s']; [reflexivity|].
  cbn [list_ascii_of_string map starts_cont]. cbn [is_ascii] in Hs.
  apply andb_prop in Hs as [Hb' _]. unfold is_cont.
  apply Nat.ltb_lt in Hb'. destruct (Nat.leb_spec 128 (code b')); [lia|].
  reflexivity.
Qed.

Lemma join_singletons (f : ascii -> ascii) (l : list ascii) :
  join (map (fun b => String (f b) "") l)
  = map_bytes f (string_of_list_ascii l).
Proof.
  induction l as [| b l IH]; [reflexivity|]. cbn [map]. rewrite join_cons, IH.
  reflexivity.
Qed.

Lemma upper_ascii_byte (b : ascii) :
  (code b <? 128)%nat = true ->
  map_case upper_table (String b "") = String (upper_char b) "".
Proof.
  assert (H : forallb (fun b => implb (code b <? 128)%nat
                (String.eqb (map_case upper_table (String b ""))
                   (String (upper_char b) ""))) all_ascii = true)
    by (vm_compute; reflexivity).
  rewrite forallb_forall in H. specialize (H b (in_all_ascii b)).
  intros Hb. rewrite Hb in H. cbn [implb] in H. apply String.eqb_eq, H.
Qed.

(** On an ASCII text [upper] changes the lower-case ASCII letters, byte
    by byte. *)
Lemma upper_ascii (s : string) :
  is_ascii s = true -> upper s = map_bytes upper_char s.
Proof.
  intros H. unfold upper. rewrite (chars_ascii s H), map_map.
  rewrite <- (string_of_list_ascii_of_string s) at 2.
  rewrite <- join_singletons. f_equal.
  assert (Hall : forall l, forallb (fun b => (code b <? 128)%nat) l = true ->
            map (fun b => map_case upper_table (String b "")) l
            = map (fun b => String (upper_char b) "") l).
  { induction l as [| b l IH]; [reflexivity|]. cbn [forallb map]. intros Hl.
    apply andb_prop in Hl as [Hb Hl]. rewrite (upper_ascii_byte b Hb), (IH Hl).
    reflexivity. }
  apply Hall. clear Hall. induction s as [| b s IH]; [reflexivity|].
  cbn [is_ascii] in H. apply andb_prop in H as [Hb Hs].
  cbn [list_ascii_of_string forallb]. rewrite Hb, (IH Hs). reflexivity.
Qed.

Lemma lower_ascii_byte (b : ascii) :
  (code b <? 128)%nat = true ->
  is_capital_sigma (String b "") = false
  /\ map_case lower_table (String b "") = String (lower_char b) "".
Proof.
  assert (H : forallb (fun b => implb (code b <? 128)%nat
                (negb (is_capital_sigma (String b ""))
                 && String.eqb (map_case lower_table (String b ""))
                      (String (lower_char b) ""))) all_ascii = true)
    by (vm_compute; reflexivity).
  rewrite forallb_forall in H. specialize (H b (in_all_ascii b)).
  intros Hb. rewrite Hb in H. cbn [implb] in H. apply andb_prop in H as [H1 H2].
  split; [destruct (is_capital_sigma _); [discriminate | reflexivity]
         | apply String.eqb_eq, H2].
Qed.

Lemma ascii_bytes (s : string) :
  is_ascii s = true ->
  forallb (fun b => (code b <? 128)%nat) (list_ascii_of_string s) = true.
Proof.
  induction s as [| b s IH]; [reflexivity|]. cbn [is_ascii]. intros H.
  apply andb_prop in H as [Hb Hs]. cbn [list_ascii_of_string forallb].
  rewrite Hb, (IH Hs). reflexivity.
Qed.

(** On an ASCII text [lower] changes the upper-case ASCII letters, byte
    by byte. *)
Lemma lower_ascii (s : string) :
  is_ascii s = true -> lower s = map_bytes lower_char s.
Proof.
  intros H. unfold lower. rewrite (chars_ascii s H).
  rewrite <- (string_of_list_ascii_of_string s) at 2.
  rewrite <- join_singletons. f_equal.
  pose proof (ascii_bytes s H) as Hall. generalize (@nil string).
  induction (list_ascii_of_string s) as [| b l IH]; intros before; [reflexivity|].
  cbn [forallb] in Hall. apply andb_prop in Hall as [Hb Hl].
  cbn [map lower_chars]. destruct (lower_ascii_byte b Hb) as [-> ->].
  rewrite (IH Hl). reflexivity.
Qed.

Lemma some_char_app (p : ascii -> bool) (s t : string) :
  some_char p (s ++ t) = some_char p s || some_char p t.
Proof.
  induction s as [| c s IH]; cbn; [reflexivity|]. rewrite IH, orb_assoc. reflexivity.
Qed.

Lemma some_all (p : ascii -> bool) (s : string) :
  some_char p s = negb (all_chars (fun b => negb (p b)) s).
Proof.
  induction s as [| c s IH]; cbn; [reflexivity|]. rewrite IH.
  destruct (p c); reflexivity.
Qed.

(** A character that is not one ASCII byte holds a byte outside ASCII. *)
Lemma chunk_high (ch : string) :
  tail_cont ch = true -> one_ascii ch = false -> some_char high ch = true.
Proof.
  destruct ch as [| b [| c cs]]; cbn [tail_cont one_ascii some_char all_chars];
    [discriminate | |].
  - intros _ Hb. unfold high. rewrite orb_false_r.
    apply Nat.ltb_ge in Hb. apply Nat.leb_le, Hb.
  - intros H _. apply andb_prop in H as [Hc _]. unfold is_cont in Hc.
    apply andb_prop in Hc as [Hc _]. unfold high. rewrite Hc, orb_true_r.
    reflexivity.
Qed.

Lemma byte_code (b : ascii) : (byte b <? 128)%N = (code b <? 128)%nat.
Proof.
  unfold byte. destruct (Nat.ltb_spec (code b) 128);
    [apply N.ltb_lt | apply N.ltb_ge]; lia.
Qed.

(** Its code point, when it has one, is outside ASCII too. *)
Lemma codepoint_high (ch : string) (n : N) :
  one_ascii ch = false -> codepoint ch = Some n -> (128 <= n)%N.
Proof.
  destruct ch as [| b0 [| b1 [| b2 [| b3 [| b4 r]]]]]; cbn [codepoint one_ascii];
    try discriminate.
  - rewrite byte_code. intros ->. discriminate.
  - intros _. destruct (_ && _ && (128 <=? _)%N) eqn:E; [| discriminate].
    intros [= <-]. apply andb_prop in E as [_ E]. apply N.leb_le, E.
  - intros _. destruct (_ && _ && (2048 <=? _)%N) eqn:E; [| discriminate].
    intros [= <-]. apply andb_prop in E as [_ E]. apply N.leb_le in E. lia.
  - intros _. destruct (_ && _ && (65536 <=? _)%N && _) eqn:E; [| discriminate].
    intros [= <-]. apply andb_prop in E as [E _]. apply andb_prop in E as [_ E].
    apply N.leb_le in E. lia.
Qed.

Lemma assoc_in (n : N) (table : list (N * list N)) (l : list N) :
  assoc n table = Some l -> In (n, l) table.
Proof.
  unfold assoc. destruct (find _ table) as [[m l'] |] eqn:E; [| discriminate].
  intros [= <-]. apply find_some in E as [Hin Hn]. cbn in Hn.
  apply N.eqb_eq in Hn. subst m. exact Hin.
Qed.

(** What a case table writes for a character that is not one ASCII byte
    holds a byte that [bad] marks, when [bad] marks the bytes outside
    ASCII and the table has been checked, the characters that [but]
    accepts set aside. *)
Lemma map_case_bad (table : list (N * list N)) (bad : ascii -> bool)
    (but : N -> bool) (ch : string) :
  forallb (fun e => (fst e <? 128)%N || but (fst e)
                    || some_char bad (join (map encode (snd e)))) table = true ->
  (forall b, high b = true -> bad b = true) ->
  tail_cont ch = true -> one_ascii ch = false -> char_is but ch = false ->
  some_char bad (map_case table ch) = true.
Proof.
  intros Htab Hbad Ht Ho Hbut.
  assert (Hch : some_char bad ch = true).
  { pose proof (chunk_high ch Ht Ho) as Hh. clear - Hh Hbad.
    induction ch as [| b cs IH]; [discriminate|]. cbn [some_char] in Hh |- *.
    destruct (high b) eqn:Eb; [rewrite (Hbad b Eb); reflexivity|].
    rewrite (IH Hh), orb_true_r. reflexivity. }
  unfold map_case, char_is in *.
  destruct (codepoint ch) as [n |] eqn:En; [| exact Hch].
  destruct (assoc n table) as [l |] eqn:El; [| exact Hch].
  rewrite forallb_forall in Htab. specialize (Htab _ (assoc_in n table l El)).
  cbn [fst snd] in Htab. rewrite Hbut in Htab.
  pose proof (codepoint_high ch n Ho En) as Hn.
  destruct (N.ltb_spec n 128); [lia|]. exact Htab.
Qed.

Lemma lower_table_checked :
  forallb (fun e => (fst e <? 128)%N || false
                    || some_char (fun b => high b || Ascii.eqb b "k")
                         (join (map encode (snd e)))) lower_table = true.
Proof. vm_compute. reflexivity. Qed.

(** A text that [lower] writes with ASCII characters only, the letter k
    not among them, is an ASCII text. *)
Lemma lower_ascii_only (s : string) :
  some_char (fun b => high b || Ascii.eqb b "k") (lower s) = false ->
  is_ascii s = true.
Proof.
  unfold lower. rewrite <- (join_chars s) at 2.
  assert (Hok : forallb tail_cont (chars s) = true).
  { pose proof (chars_ok s) as H. destruct (chars s) as [| ch l]; [reflexivity|].
    cbn [chunks_ok forallb] in H |- *. apply andb_prop in H as [-> H]. cbn [andb].
    rewrite forallb_forall in H |- *. intros x Hx. specialize (H x Hx).
    unfold starts_char in H. apply andb_prop in H as [H _]. exact H. }
  generalize (@nil string). induction (chars s) as [| ch l IH]; intros before;
    [reflexivity|].
  cbn [forallb] in Hok. apply andb_prop in Hok as [Hch Hl].
  cbn [lower_chars]. rewrite !join_cons, some_char_app. intros H.
  apply orb_false_elim in H as [H1 H2]. specialize (IH Hl _ H2).
  destruct (one_ascii ch) eqn:Eo.
  - destruct ch as [| b [| c cs]]; try discriminate Eo. cbn [one_ascii] in Eo.
    cbn [String.append is_ascii]. rewrite Eo, IH. reflexivity.
  - exfalso. destruct (is_capital_sigma ch) eqn:Es.
    + destruct (final_sigma before l); vm_compute in H1; discriminate H1.
    + rewrite (map_case_bad lower_table _ (fun _ => false) ch
                 lower_table_checked) in H1; [discriminate | | exact Hch | exact Eo |].
      * intros b Hb. rewrite Hb. reflexivity.
      * unfold char_is. destruct (codepoint ch); reflexivity.
Qed.

Lemma lower_char_ascii (a b : ascii) :
  (code b <? 128)%nat = true -> lower_char a = lower_char b ->
  (code a <? 128)%nat = true.
Proof.
  assert (H : forallb (fun a => forallb (fun b =>
                implb ((code b <? 128)%nat
                       && Ascii.eqb (lower_char a) (lower_char b))
                  (code a <? 128)%nat) all_ascii) all_ascii = true)
    by (vm_compute; reflexivity).
  rewrite forallb_forall in H. specialize (H a (in_all_ascii a)).
  rewrite forallb_forall in H. specialize (H b (in_all_ascii b)).
  intros Hb Hab. rewrite Hb, Hab, Ascii.eqb_refl in H. exact H.
Qed.

(** A text equal to an ASCII text up to the case of ASCII letters is an
    ASCII text. *)
Lemma eq_nocase_ascii (s t : string) :
  is_ascii t = true -> eq_nocase s t = true -> is_ascii s = true.
Proof.
  revert t. induction s as [| a s IH]; intros [| b t]; cbn [is_ascii eq_nocase];
    try discriminate; [reflexivity|].
  intros Ht H. apply andb_prop in Ht as [Hb Ht]. apply andb_prop in H as [Hab H].
  apply Ascii.eqb_eq in Hab. rewrite (lower_char_ascii a b Hb Hab), (IH t Ht H).
  reflexivity.
Qed.

Lemma lower_lower_char (c : ascii) : lower_char (lower_char c) = lower_char c.
Proof.
  assert (H : forallb (fun c => Ascii.eqb (lower_char (lower_char c)) (lower_char c))
                all_ascii = true) by (vm_compute; reflexivity).
  rewrite forallb_forall in H. apply Ascii.eqb_eq, H, in_all_ascii.
Qed.

Lemma lower_bytes_eq_nocase (s t : string) :
  String.eqb (map_bytes lower_char s) (map_bytes lower_char t) = eq_nocase s t.
Proof.
  revert t. induction s as [| a s IH]; intros [| b t]; simpl; try reflexivity.
  rewrite IH. reflexivity.
Qed.

(** [s.lower() == w] for a lower-case ASCII word [w] without the letter
    k: [s] is [w] up to the case of ASCII letters. *)
Lemma lower_is (s w : string) :
  is_ascii w = true ->
  map_bytes lower_char w = w ->
  all_chars (fun b => negb (Ascii.eqb b "k")) w = true ->
  String.eqb (lower s) w = eq_nocase s w.
Proof.
  intros Hw Hlow Hk.
  destruct (is_ascii s) eqn:Es.
  - rewrite (lower_ascii s Es). rewrite <- Hlow at 1.
    apply lower_bytes_eq_nocase.
  - destruct (eq_nocase s w) eqn:E.
    + rewrite (eq_nocase_ascii s w Hw E) in Es. discriminate.
    + apply String.eqb_neq. intros Heq.
      assert (Hbad : some_char (fun b => high b || Ascii.eqb b "k") (lower s) = false).
      { rewrite Heq, some_all. apply negb_false_iff.
        clear - Hw Hk. induction w as [| b w IH]; [reflexivity|].
        cbn [is_ascii all_chars] in Hw, Hk |- *. apply andb_prop in Hw as [Hb Hw].
        apply andb_prop in Hk as [Hkb Hk]. rewrite (IH Hw Hk), andb_true_r.
        unfold high. apply Nat.ltb_lt in Hb.
        destruct (Nat.leb_spec 128 (code b)); [lia|]. exact Hkb. }
      rewrite (lower_ascii_only s Hbad) in Es. discriminate.
Qed.

Lemma strip_by_none (p : ascii -> bool) (s : string) :
  all_chars (fun c => negb (p c)) s = true ->
  rstrip_by p (lstrip_by p s) = s.
Proof.
  intros H.
  assert (Hl : lstrip_by p s = s).
  { destruct s as [| c s]; [reflexivity|]. cbn in H |- *.
    destruct (p c); [discriminate | reflexivity]. }
  rewrite Hl. clear Hl.
  induction s as [| c s IH]; cbn [all_chars rstrip_by] in *; [reflexivity|].
  apply andb_prop in H as [Hc Hs]. rewrite (IH Hs).
  destruct (p c); [discriminate|]. rewrite andb_false_r. reflexivity.
Qed.

Lemma case_folds_agree (c d : ascii) :
  Ascii.eqb (upper_char c) (upper_char d)
  = Ascii.eqb (lower_char c) (lower_char d).
Proof.
  assert (H : forallb (fun c => forallb (fun d =>
            Bool.eqb (Ascii.eqb (upper_char c) (upper_char d))
                     (Ascii.eqb (lower_char c) (lower_char d)))
            all_ascii) all_ascii = true) by (vm_compute; reflexivity).
  rewrite forallb_forall in H. specialize (H c (in_all_ascii c)).
  rewrite forallb_forall in H. specialize (H d (in_all_ascii d)).
  apply Bool.eqb_prop in H. exact H.
Qed.

Lemma upper_bytes_eq_nocase (s t : string) :
  String.eqb (map_bytes upper_char s) (map_bytes upper_char t) = eq_nocase s t.
Proof.
  revert t. induction s as [| a s IH]; intros [| b t]; simpl; try reflexivity.
  rewrite case_folds_agree, IH. reflexivity.
Qed.

Lemma upper_table_checked :
  forallb (fun e => (fst e <? 128)%N || N.eqb 305 (fst e)
                    || some_char (not_in "AVAILABLE")
                         (join (map encode (snd e)))) upper_table = true.
Proof. vm_compute. reflexivity. Qed.

Lemma high_not_in_word (b : ascii) :
  high b = true -> not_in "AVAILABLE" b = true.
Proof.
  assert (H : forallb (fun b => implb (high b) (not_in "AVAILABLE" b)) all_ascii
              = true) by (vm_compute; reflexivity).
  rewrite forallb_forall in H. specialize (H b (in_all_ascii b)).
  intros Hb. rewrite Hb in H. exact H.
Qed.

Lemma upper_dotless (ch : string) :
  is_dotless ch = true -> map_case upper_table ch = "I".
Proof.
  unfold is_dotless, char_is, map_case.
  destruct (codepoint ch) as [n |]; [| discriminate].
  intros H. apply N.eqb_eq in H. subst n. vm_compute. reflexivity.
Qed.

Lemma upper_undot (ch : string) :
  map_case upper_table (undot ch) = map_case upper_table ch.
Proof.
  unfold undot. destruct (is_dotless ch) eqn:E; [| reflexivity].
  rewrite (upper_dotless ch E). reflexivity.
Qed.

Lemma undot_not_dotless (ch : string) : is_dotless (undot ch) = false.
Proof. unfold undot. destruct (is_dotless ch) eqn:E; [reflexivity | exact E]. Qed.

Lemma undot_tail (ch : string) : tail_cont ch = true -> tail_cont (undot ch) = true.
Proof. unfold undot. destruct (is_dotless ch); [reflexivity | auto]. Qed.

Lemma undot_starts (ch : string) :
  starts_char ch = true -> starts_char (undot ch) = true.
Proof. unfold undot. destruct (is_dotless ch); [reflexivity | auto]. Qed.

Lemma chars_dotted (s : string) : chars (dotted s) = map undot (chars s).
Proof.
  unfold dotted. apply chars_join. pose proof (chars_ok s) as H.
  destruct (chars s) as [| ch l]; [reflexivity|].
  cbn [chunks_ok map] in H |- *. apply andb_prop in H as [Ht Hl].
  rewrite (undot_tail ch Ht). cbn [andb].
  rewrite forallb_forall in Hl |- *. intros x Hx.
  apply in_map_iff in Hx as (y & <- & Hy). apply undot_starts, Hl, Hy.
Qed.

(** [upper] does not tell the dotless i from the letter i. *)
Lemma upper_dotted (s : string) : upper (dotted s) = upper s.
Proof.
  unfold upper. rewrite chars_dotted, map_map. f_equal.
  apply map_ext. intros ch. apply upper_undot.
Qed.

Lemma tails_of_chars (s : string) : forallb tail_cont (chars s) = true.
Proof.
  pose proof (chars_ok s) as H. destruct (chars s) as [| ch l]; [reflexivity|].
  cbn [chunks_ok forallb] in H |- *. apply andb_prop in H as [-> H]. cbn [andb].
  rewrite forallb_forall in H |- *. intros x Hx. specialize (H x Hx).
  unfold starts_char in H. apply andb_prop in H as [H _]. exact H.
Qed.

(** A text without dotless i that [upper] writes with letters of the word
    AVAILABLE only is an ASCII text. *)
Lemma upper_ascii_only (s : string) :
  forallb (fun ch => negb (is_dotless ch)) (chars s) = true ->
  some_char (not_in "AVAILABLE") (upper s) = false ->
  is_ascii s = true.
Proof.
  unfold upper. rewrite <- (join_chars s) at 3.
  pose proof (tails_of_chars s) as Hok.
  induction (chars s) as [| ch l IH]; [reflexivity|].
  cbn [forallb] in Hok |- *. apply andb_prop in Hok as [Hch Hl].
  intros Hd. apply andb_prop in Hd as [Hd Hdl]. apply negb_true_iff in Hd.
  cbn [map]. rewrite !join_cons, some_char_app. intros H.
  apply orb_false_elim in H as [H1 H2]. specialize (IH Hl Hdl H2).
  destruct (one_ascii ch) eqn:Eo.
  - destruct ch as [| b [| c cs]]; try discriminate Eo. cbn [one_ascii] in Eo.
    cbn [String.append is_ascii]. rewrite Eo, IH. reflexivity.
  - exfalso.
    rewrite (map_case_bad upper_table _ (N.eqb 305) ch upper_table_checked
               high_not_in_word Hch Eo Hd) in H1.
    discriminate.
Qed.

(** [s.upper() == "AVAILABLE"]: [s] is the word up to the case of the
    ASCII letters, the dotless i standing for an i. *)
Lemma upper_is_available (s : string) :
  String.eqb (upper s) "AVAILABLE" = eq_nocase (dotted s) "AVAILABLE".
Proof.
  rewrite <- (upper_dotted s).
  assert (Hnd : forallb (fun ch => negb (is_dotless ch)) (chars (dotted s)) = true).
  { rewrite chars_dotted, forallb_forall. intros x Hx.
    apply in_map_iff in Hx as (y & <- & _). rewrite undot_not_dotless. reflexivity. }
  generalize dependent (dotted s). intros t Hnd.
  destruct (is_ascii t) eqn:Et.
  - rewrite (upper_ascii t Et).
    change "AVAILABLE" with (map_bytes upper_char "AVAILABLE") at 1.
    apply upper_bytes_eq_nocase.
  - destruct (eq_nocase t "AVAILABLE") eqn:E.
    + rewrite (eq_nocase_ascii t "AVAILABLE" eq_refl E) in Et. discriminate.
    + apply String.eqb_neq. intros Heq.
      rewrite (upper_ascii_only t Hnd) in Et; [discriminate|].
      rewrite Heq. reflexivity.
Qed.

Lemma dotted_ascii (s : string) : is_ascii s = true -> dotted s = s.
Proof.
  intros H. unfold dotted. rewrite <- (join_chars s) at 2. f_equal.
  rewrite (chars_ascii s H), map_map. pose proof (ascii_bytes s H) as Hall.
  induction (list_ascii_of_string s) as [| b l IH]; [reflexivity|].
  cbn [forallb] in Hall. apply andb_prop in Hall as [Hb Hl].
  cbn [map]. rewrite (IH Hl). f_equal.
  unfold undot, is_dotless, char_is. cbn [codepoint]. rewrite byte_code, Hb.
  destruct (N.eqb_spec 305 (byte b)) as [E |]; [| reflexivity].
  unfold byte in E. apply Nat.ltb_lt in Hb. lia.
Qed.

End StringFacts.

(* ------------------------------------------------------------------ *)
(** * Availability and action buttons *)
(* ------------------------------------------------------------------ *)

Section Availability.
Import PyStr Py Bot.

Lemma lazy_or_get (d : dict) (k : string) (b : result json) :
  lazy_or (py_get (JDict d) k) b
  = if truthy (dget k d) then Ok (dget k d) else b.
Proof. reflexivity. Qed.

Lemma media_type_lookup (item : dict) :
  lazy_or (py_get (JDict item) "mediaType")
    (lazy_or (py_get (JDict item) "media_type") (Ok (JStr "movie")))
  = Ok (media_type_of item).
Proof.
  rewrite !lazy_or_get. unfold media_type_of, py_or.
  destruct (truthy (dget "mediaType" item)) eqn:E1; rewrite ?E1.
  - reflexivity.
  - destruct (truthy (dget "media_type" item)) eqn:E2; rewrite ?E2; reflexivity.
Qed.

Lemma is_available_status (item : dict) (status : json) :
  media_status item = Some status ->
  _is_available (JDict item) = Ok (status_available status).
Proof.
  unfold media_status, _is_available. rewrite lazy_or_get. unfold py_or.
  destruct (truthy (dget "mediaInfo" item)); cbn [bind].
  - destruct (dget "mediaInfo" item); try discriminate.
    intros [= <-]. cbn [py_get bind].
    destruct (dget "status" d) as [| [] | n | f | s | l | m]; try reflexivity.
    cbn [status_available]. rewrite upper_is_available. reflexivity.
  - intros [= <-]. reflexivity.
Qed.

(** Outside the data model: a [mediaInfo] that is neither empty nor an
    object makes the lookup of its status raise. *)
Lemma is_available_raises (item : dict) :
  media_status item = None ->
  _is_available (JDict item)
  = Err (no_get (py_or (dget "mediaInfo" item) (JDict []))).
Proof.
  unfold media_status, _is_available. rewrite lazy_or_get. unfold py_or.
  destruct (truthy (dget "mediaInfo" item)); cbn [bind]; [| discriminate].
  destruct (dget "mediaInfo" item); try discriminate; reflexivity.
Qed.

(** C10.  An item whose [id] is absent (null) gets no keyboard at all,
    whatever its availability and media type: no Download button and no
    Recommendations button. *)
Theorem no_id_no_keyboard (item : dict) :
  is_None (dget "id" item) = true ->
  _build_keyboard (JDict item) = Ok None
  /\ button_labels None = [].
Proof.
  intros H. split; [| reflexivity].
  unfold _build_keyboard. rewrite media_type_lookup. cbn [bind py_get].
  rewrite H. reflexivity.
Qed.

Lemma no_id_no_keyboard_witness :
  let item := [("title", JStr "Dune"); ("mediaType", JStr "movie")] in
  is_None (dget "id" item) = true
  /\ _is_available (JDict item) = Ok false
  /\ movie_or_tv (media_type_of item) = true
  /\ _build_keyboard (JDict item) = Ok None.
Proof.
  intros item.
  split; [reflexivity|]. split; [reflexivity|]. split; [reflexivity|].
  exact (proj1 (no_id_no_keyboard item eq_refl)).
Defined.

(** C1, as stated, fails: this movie is not available and has no [id], and
    its keyboard has no Download (and no Recommendations) button. *)
Lemma keyboard_rule_fails_without_id :
  ~ buttons_as_ruled [("title", JStr "Dune"); ("mediaType", JStr "movie")].
Proof.
  intros (available & kb & Ha & Hk & Hl).
  vm_compute in Ha. vm_compute in Hk.
  injection Ha as <-. injection Hk as <-.
  vm_compute in Hl. discriminate Hl.
Qed.

(** C1, amended.  For an item whose [mediaInfo] is missing, empty or an
    object, availability is the rule applied to [mediaInfo.status]; and
    when the item has an [id], its keyboard holds a Download button iff
    the item is not available and a Recommendations button iff its media
    type is movie or tv, in one row, with no keyboard when neither
    applies. *)
Theorem availability_and_buttons (item : dict) (status : json) :
  media_status item = Some status ->
  is_None (dget "id" item) = false ->
  _is_available (JDict item) = Ok (status_available status)
  /\ exists kb,
       _build_keyboard (JDict item) = Ok kb
       /\ button_labels kb
          = expected_labels (status_available status) (media_type_of item)
       /\ (kb = None <->
           status_available status = true
           /\ movie_or_tv (media_type_of item) = false)
       /\ (forall rows, kb = Some rows -> exists b bs, rows = [b :: bs]).
Proof.
  intros Hst Hid. pose proof (is_available_status item status Hst) as Hav.
  split; [exact Hav|].
  unfold _build_keyboard. rewrite media_type_lookup. cbn [bind py_get].
  rewrite Hid, Hav. cbn [negb bind].
  unfold expected_labels, movie_or_tv.
  rewrite (orb_comm (eq_str (media_type_of item) "movie")).
  destruct (status_available status), (eq_str (media_type_of item) "tv"),
    (eq_str (media_type_of item) "movie"); cbn;
    (eexists; split; [reflexivity|]; split; [reflexivity|]; split;
     [split; [discriminate || tauto | intros [? ?]; discriminate || reflexivity]
     | intros rows [= <-] || (intros rows ?; discriminate); eauto]).
Qed.

Lemma availability_and_buttons_witness :
  let item := [("id", JInt 603); ("mediaType", JStr "movie");
               ("mediaInfo", JDict [("status", JStr "Available")])] in
  _is_available (JDict item) = Ok true
  /\ exists kb, _build_keyboard (JDict item) = Ok kb
                /\ button_labels kb = ["👀 Recommendations"].
Proof.
  pose proof (availability_and_buttons
                [("id", JInt 603); ("mediaType", JStr "movie");
                 ("mediaInfo", JDict [("status", JStr "Available")])]
                (JStr "Available") eq_refl eq_refl) as [Ha (kb & Hk & Hl & _)].
  split; [exact Ha|]. exists kb. split; [exact Hk | exact Hl].
Defined.

End Availability.

(* ------------------------------------------------------------------ *)
(** * Ratings extraction *)
(* ------------------------------------------------------------------ *)

Section Ratings.
Import PyStr Py Bot.

Lemma lazy_or_get2 (d : dict) (k1 k2 : string) :
  lazy_or (py_get (JDict d) k1) (py_get (JDict d) k2)
  = Ok (py_or (dget k1 d) (dget k2 d)).
Proof.
  rewrite lazy_or_get. unfold py_or. destruct (truthy (dget k1 d)); reflexivity.
Qed.

Lemma lazy_or_get_default (d : dict) (k : string) (v : json) :
  lazy_or (py_get (JDict d) k) (Ok v) = Ok (py_or (dget k d) v).
Proof.
  rewrite lazy_or_get. unfold py_or. destruct (truthy (dget k d)); reflexivity.
Qed.

Lemma lazy_or_get2_default (d : dict) (k1 k2 : string) (v : json) :
  lazy_or (py_get (JDict d) k1) (lazy_or (py_get (JDict d) k2) (Ok v))
  = Ok (py_or (py_or (dget k1 d) (dget k2 d)) v).
Proof.
  rewrite lazy_or_get_default, lazy_or_get. unfold py_or.
  destruct (truthy (dget k1 d)) eqn:E; rewrite ?E; reflexivity.
Qed.

Lemma is_None_eq (v : json) : is_None v = true -> v = JNull.
Proof. destruct v; try discriminate; reflexivity. Qed.

Lemma from_ratings_unrecognized (imdb_id : json) (r : dict) :
  no_recognized_shape (JDict r) = true ->
  exists u, from_ratings imdb_id r = (imdb_id, None, None, None, u).
Proof.
  cbn [no_recognized_shape recognized_keys forallb]. intros H.
  repeat (apply andb_prop in H; destruct H as [?%is_None_eq H]).
  unfold from_ratings.
  repeat match goal with E : dget _ r = JNull |- _ => rewrite E; clear E end.
  cbn. destruct (dmem "criticsScore" r || dmem "audienceScore" r);
    eexists; reflexivity.
Qed.

Lemma extract_unfold (d e : dict) :
  external_ids d = JDict e ->
  _extract_imdb_and_rt (JDict d) =
  (let '(imdb_id, imdb_rating, rt_tomato, rt_popcorn, rt_url) :=
     match ratings_block d with
     | JDict r => from_ratings (py_or (dget "imdbId" e) (dget "imdb_id" e)) r
     | _ => (py_or (dget "imdbId" e) (dget "imdb_id" e), None, None, None, JNull)
     end in
   Ok {| imdb_id := imdb_id; imdb_rating := imdb_rating;
         imdb_url :=
           if truthy imdb_id
           then Some (fmt ["https://www.imdb.com/title/"; py_str imdb_id])
           else None;
         rt_tomato := rt_tomato; rt_popcorn := rt_popcorn; rt_url := rt_url |}).
Proof.
  intros He. unfold _extract_imdb_and_rt.
  rewrite lazy_or_get2_default. fold (external_ids d). rewrite He.
  cbn [bind]. rewrite lazy_or_get2. cbn [bind].
  rewrite lazy_or_get_default. fold (ratings_block d). cbn [bind].
  reflexivity.
Qed.

Lemma extraction_returns (d e : dict) :
  external_ids d = JDict e -> exists r, _extract_imdb_and_rt (JDict d) = Ok r.
Proof.
  intros He. rewrite (extract_unfold d e He).
  destruct (match ratings_block d with
            | JDict r => from_ratings (py_or (dget "imdbId" e) (dget "imdb_id" e)) r
            | _ => (py_or (dget "imdbId" e) (dget "imdb_id" e), None, None, None, JNull)
            end) as [[[[i ir] t] p] u].
  eexists. reflexivity.
Qed.

(** Outside the data model: external ids that are neither empty nor an
    object make the extraction raise, whatever the ratings block. *)
Lemma extraction_raises (d : dict) :
  (forall e, external_ids d <> JDict e) ->
  _extract_imdb_and_rt (JDict d) = Err (no_get (external_ids d)).
Proof.
  intros He. unfold _extract_imdb_and_rt.
  rewrite lazy_or_get2_default. fold (external_ids d). cbn [bind].
  destruct (external_ids d) eqn:E; try reflexivity.
  exfalso. apply (He d0). reflexivity.
Qed.

(** C3.  On a details record whose external ids are absent or an object,
    ratings extraction returns a record (it never raises); an empty
    ratings block gives all rating fields null, the flat block gives
    rt_tomato "85" and rt_popcorn "70", the nested block gives imdb_rating
    "7.5" and rt_tomato "90", and a block of no recognized shape gives all
    rating fields null. *)
Theorem ratings_extraction_total (d e : dict) :
  external_ids d = JDict e ->
  exists r,
    _extract_imdb_and_rt (JDict d) = Ok r
    /\ (dget "ratings" d = JDict [] -> all_ratings_null r)
    /\ (dget "ratings" d = flat_example ->
        rt_tomato r = Some "85" /\ rt_popcorn r = Some "70")
    /\ (dget "ratings" d = nested_example ->
        imdb_rating r = Some "7.5" /\ rt_tomato r = Some "90")
    /\ (no_recognized_shape (ratings_block d) = true -> all_ratings_null r).
Proof.
  intros He. rewrite (extract_unfold d e He). unfold ratings_block.
  set (id0 := py_or (dget "imdbId" e) (dget "imdb_id" e)).
  destruct (match py_or (dget "ratings" d) (JDict []) with
            | JDict r => from_ratings id0 r
            | _ => (id0, None, None, None, JNull)
            end) as [[[[i ir] t] p] u] eqn:E.
  eexists. split; [reflexivity|]. cbn [imdb_rating rt_tomato rt_popcorn rt_url].
  unfold all_ratings_null. cbn [imdb_rating rt_tomato rt_popcorn rt_url].
  split; [| split; [| split]]; intros H.
  1-3: rewrite H in E; cbn in E; injection E as <- <- <- <- <-;
    repeat split; reflexivity.
  destruct (py_or (dget "ratings" d) (JDict [])) eqn:Er;
    try (destruct (from_ratings_unrecognized id0 _ H) as [u' Hu];
         rewrite Hu in E);
    injection E as <- <- <- <- <-; repeat split; reflexivity.
Qed.

Lemma ratings_extraction_total_witness :
  let d := [("ratings", nested_example)] in
  external_ids d = JDict []
  /\ exists r, _extract_imdb_and_rt (JDict d) = Ok r
               /\ imdb_rating r = Some "7.5" /\ rt_tomato r = Some "90".
Proof.
  intros d. split; [reflexivity|].
  destruct (ratings_extraction_total d [] eq_refl) as (r & Hr & _ & _ & Hn & _).
  exists r. split; [exact Hr | exact (Hn eq_refl)].
Defined.

(** Whatever else an imdb block holds, its rating is read from [value]
    alone: without that key the result is the text "None". *)
Lemma imdb_rating_reads_value_only (b : dict) :
  dget "value" b = JNull ->
  exists r,
    _extract_imdb_and_rt (JDict [("ratings", JDict [("imdb", JDict b)])]) = Ok r
    /\ (b <> [] -> imdb_rating r = Some "None").
Proof.
  intros Hv. destruct b as [| [k x] b]; [eexists; split; [reflexivity | congruence]|].
  eexists. split; [reflexivity|]. intros _. cbn in Hv |- *. rewrite Hv. reflexivity.
Qed.

(** C4, at the failing inputs.  An imdb block holding only [rating] (or
    only [score]) yields the text "None" as imdb_rating, not the value:
    [str] of the missing [value] is the non-empty text "None", so the
    alternatives behind [or] are never read.  The Rotten Tomatoes blocks,
    which apply [or] before [str], do fall back. *)
Theorem imdb_alternative_keys_unread :
  (exists r, _extract_imdb_and_rt (imdb_only "rating" (JStr "8.1")) = Ok r
             /\ imdb_rating r = Some "None")
  /\ (exists r, _extract_imdb_and_rt (imdb_only "score" (JStr "8.1")) = Ok r
                /\ imdb_rating r = Some "None")
  /\ (exists r, _extract_imdb_and_rt (imdb_only "value" (JStr "8.1")) = Ok r
                /\ imdb_rating r = Some "8.1")
  /\ (exists r, _extract_imdb_and_rt (rt_only "critics" "rating" (JInt 85)) = Ok r
                /\ rt_tomato r = Some "85")
  /\ (exists r, _extract_imdb_and_rt (rt_only "audience" "value" (JInt 77)) = Ok r
                /\ rt_popcorn r = Some "77").
Proof. repeat split; eexists; (split; [reflexivity | reflexivity]). Qed.

End Ratings.

(* ------------------------------------------------------------------ *)
(** * Caption composition *)
(* ------------------------------------------------------------------ *)

Section Caption.
Import PyStr Py Bot Handlers.

Lemma find_video_total (pick : json -> result (option string)) (vs : list json) :
  (forall v, is_dict v = true -> exists o, pick v = Ok o) ->
  forallb is_dict vs = true ->
  exists o, find_video pick vs = Ok o.
Proof.
  intros Hp. induction vs as [| v vs IH]; simpl; intros H.
  - eexists; reflexivity.
  - apply andb_prop in H as [Hv Hvs]. destruct (Hp v Hv) as [o Ho].
    rewrite Ho. cbn [bind]. destruct o; [eexists; reflexivity | auto].
Qed.

Lemma pick_related_total (p : option string) (v : json) :
  is_dict v = true -> exists o, pick_related p v = Ok o.
Proof.
  destruct v; try discriminate. intros _. unfold pick_related. cbn [py_get bind].
  destruct (dget "url" d); try (eexists; reflexivity).
  destruct (_ && _); eexists; reflexivity.
Qed.

Lemma pick_tmdb_total (p : option string) (v : json) :
  is_dict v = true -> exists o, pick_tmdb p v = Ok o.
Proof.
  destruct v; try discriminate. intros _. unfold pick_tmdb. cbn [py_get bind].
  destruct (_ && _); eexists; reflexivity.
Qed.

Lemma preferred_total (pick : option string -> json -> result (option string))
    (vs : list json) :
  (forall p v, is_dict v = true -> exists o, pick p v = Ok o) ->
  forallb is_dict vs = true ->
  exists o, preferred pick vs = Ok o.
Proof.
  intros Hp Hvs. unfold preferred, or_else.
  destruct (find_video_total (pick (Some "Trailer")) vs (Hp _) Hvs) as [o1 ->].
  destruct (find_video_total (pick (Some "Teaser")) vs (Hp _) Hvs) as [o2 ->].
  destruct (find_video_total (pick None) vs (Hp _) Hvs) as [o3 ->].
  cbn [bind]. destruct o1; [eexists; reflexivity|].
  cbn [bind]. destruct o2; [eexists; reflexivity|].
  eexists; reflexivity.
Qed.

Lemma trailer_total (d : dict) :
  videos_ok d = true -> exists o, _extract_trailer_url (JDict d) = Ok o.
Proof.
  unfold videos_ok. intros H. apply andb_prop in H as [H1 H2].
  unfold _extract_trailer_url. cbn [py_get bind].
  change (lazy_or (Ok (dget "videos" d)) (Ok (JDict [])))
    with (lazy_or (py_get (JDict d) "videos") (Ok (JDict []))).
  rewrite lazy_or_get_default. cbn [bind]. unfold or_else.
  assert (exists o1, match dget "relatedVideos" d with
                     | JList vs => preferred pick_related vs
                     | _ => Ok None
                     end = Ok o1) as [o1 ->].
  { destruct (dget "relatedVideos" d); try (eexists; reflexivity).
    apply preferred_total; [apply pick_related_total | exact H1]. }
  cbn [bind]. destruct o1; [eexists; reflexivity|].
  destruct (match py_or (dget "videos" d) (JDict []) with
            | JDict m => dget "results" m
            | _ => JNull
            end); try (eexists; reflexivity).
  apply preferred_total; [apply pick_tmdb_total | exact H2].
Qed.

Lemma link_is_link (href text : string) : is_link (link href text) = true.
Proof.
  unfold is_link, link, startswith, fmt. cbn. apply prefix_empty.
Qed.

Lemma rating_lines_links (r : rates) :
  Forall (fun l => is_link l = true) (rating_lines r)
  /\ (List.length (rating_lines r) <= 3)%nat.
Proof.
  unfold rating_lines.
  destruct (otruthy (imdb_url r)), (shown (rt_tomato r)), (shown (rt_popcorn r));
    cbn [app List.length]; split; try lia;
    repeat (constructor; try apply link_is_link).
Qed.

(** The rating block is left out exactly when there is nothing to show. *)
Lemma rating_lines_empty (r : rates) :
  rating_lines r = [] <->
  otruthy (imdb_url r) = false /\ shown (rt_tomato r) = false
  /\ shown (rt_popcorn r) = false.
Proof.
  unfold rating_lines.
  destruct (otruthy (imdb_url r)), (shown (rt_tomato r)), (shown (rt_popcorn r));
    cbn [app]; split; try discriminate; try tauto;
    intros (? & ? & ?); discriminate.
Qed.

Lemma date_lookup (item : dict) :
  lazy_or (py_get (JDict item) "releaseDate")
    (lazy_or (py_get (JDict item) "firstAirDate")
       (lazy_or (py_get (JDict item) "release_date")
          (py_get (JDict item) "first_air_date")))
  = Ok (date_of item).
Proof.
  rewrite lazy_or_get2, !lazy_or_get. unfold date_of, py_or.
  destruct (truthy (dget "releaseDate" item)) eqn:E1; rewrite ?E1; [reflexivity|].
  destruct (truthy (dget "firstAirDate" item)) eqn:E2; rewrite ?E2; [reflexivity|].
  destruct (truthy (dget "release_date" item)) eqn:E3; rewrite ?E3; reflexivity.
Qed.

Lemma take_nonempty (n : nat) (s : string) :
  (S n <= len s)%nat -> is_empty (take (S n) s) = false.
Proof.
  intros H. pose proof (take_len (S n) s H) as Hl.
  destruct (take (S n) s); [discriminate Hl | reflexivity].
Qed.

Lemma caption_lines_shape (item : dict) (status : json) :
  media_status item = Some status ->
  _build_caption_lines (JDict item)
  = Ok (first_block item (status_available status)).
Proof.
  intros Hst. unfold _build_caption_lines, _extract_title_year_type.
  rewrite media_type_lookup. cbn [bind].
  rewrite lazy_or_get2_default. cbn [bind].
  rewrite date_lookup. cbn [bind].
  rewrite (is_available_status item status Hst). cbn [bind].
  unfold first_block, title_line, year_block, title_of, type_label.
  cbn [app]. f_equal. f_equal. f_equal.
  - destruct (date_of item) as [| | | | s | |]; try reflexivity.
    destruct (4 <=? len s)%nat eqn:E; [| reflexivity].
    apply Nat.leb_le in E. cbn [otruthy]. rewrite (take_nonempty 3 s E).
    reflexivity.
  - destruct (status_available status); reflexivity.
Qed.

Lemma concat_cons (sep x : string) (y : string) (l : list string) :
  String.concat sep (x :: y :: l) = (x ++ sep ++ String.concat sep (y :: l))%string.
Proof. reflexivity. Qed.

(** Joining a joined block with further lines is joining all the lines. *)
Lemma join_lines_flat (block rest : list string) :
  block <> [] -> rest <> [] ->
  join_lines (join_lines block :: rest) = join_lines (block ++ rest).
Proof.
  unfold join_lines. intros Hb Hr.
  destruct rest as [| r rest]; [congruence|]. clear Hr.
  induction block as [| x block IH]; [congruence|]. clear Hb.
  destruct block as [| y block].
  - reflexivity.
  - specialize (IH ltac:(discriminate)). cbn [app] in IH |- *.
    rewrite (concat_cons nl x y (block ++ r :: rest)), <- IH.
    rewrite (concat_cons nl (String.concat nl (x :: y :: block)) r rest).
    rewrite (concat_cons nl (String.concat nl (y :: block)) r rest).
    rewrite (concat_cons nl x y block), !append_assoc. reflexivity.
Qed.

(** C5.  The caption of an item is the title line, the year line when the
    item has a year, a blank line and the availability line, joined by
    line feeds; with an enrichment payload the caption is those lines
    first, then the blank separator, the rating links (at most three,
    none when there is nothing to show), and last, when a trailer is
    found, a blank separator and the trailer link; with no payload it is
    the first block alone.  Every line other than the separators is
    non-empty: a title, year or status line, or a link. *)
Theorem caption_block_order (item : dict) (status details : json) :
  media_status item = Some status ->
  details_wf details ->
  let block := first_block item (status_available status) in
  _build_caption (JDict item) = Ok (join_lines block)
  /\ startswith "<b>" (title_line item) = true
  /\ (if has_year item
      then exists y, y <> "" /\ year_block item = [("Year - " ++ y)%string]
      else year_block item = [])
  /\ (truthy details = false ->
      caption_of (join_lines block) details = Ok (join_lines block))
  /\ (truthy details = true ->
      exists r trailer,
        _extract_imdb_and_rt details = Ok r
        /\ _extract_trailer_url details = Ok trailer
        /\ caption_of (join_lines block) details
           = Ok (join_lines
                   (block ++ [""] ++ rating_lines r ++ trailer_lines trailer))
        /\ Forall (fun l => is_link l = true) (rating_lines r)
        /\ (List.length (rating_lines r) <= 3)%nat
        /\ (rating_lines r = [] <->
            otruthy (imdb_url r) = false /\ shown (rt_tomato r) = false
            /\ shown (rt_popcorn r) = false)
        /\ (if otruthy trailer
            then exists url, trailer = Some url
                   /\ trailer_lines trailer = [""; link url "🎬 Trailer"]
            else trailer_lines trailer = [])).
Proof.
  intros Hst Hwf block.
  pose proof (caption_lines_shape item status Hst) as Hl. fold block in Hl.
  split; [unfold _build_caption; rewrite Hl; reflexivity|].
  split; [unfold startswith, title_line, fmt; cbn; apply prefix_empty|].
  split.
  { unfold has_year, year_block.
    destruct (date_of item) as [| | | | s | |]; try reflexivity.
    destruct (4 <=? len s)%nat eqn:E; [| reflexivity].
    apply Nat.leb_le in E. exists (take 4 s). split; [| reflexivity].
    pose proof (take_nonempty 3 s E) as Hn. intros Heq. rewrite Heq in Hn.
    discriminate Hn. }
  split.
  - intros Hf. unfold caption_of. rewrite Hf. reflexivity.
  - intros Htr. destruct Hwf as [Hf | (d & e & -> & He & Hv)]; [congruence|].
    destruct (extraction_returns d e He) as (r & Hr).
    destruct (trailer_total d Hv) as (tr & Htrl).
    exists r, tr. split; [exact Hr|]. split; [exact Htrl|].
    split.
    { unfold caption_of. rewrite Htr.
      unfold _append_enrichment_to_caption, _append_enrichment_parts.
      rewrite Hr, Htrl. cbn [bind app].
      rewrite (join_lines_flat block ("" :: rating_lines r ++ trailer_lines tr))
        by (unfold block, first_block; discriminate).
      reflexivity. }
    split; [apply rating_lines_links|]. split; [apply rating_lines_links|].
    split; [apply rating_lines_empty|].
    unfold trailer_lines. destruct tr as [url|]; cbn [otruthy].
    + destruct (negb (is_empty url)); [eexists; split; reflexivity | reflexivity].
    + reflexivity.
Qed.

Lemma caption_block_order_witness :
  let item := [("id", JInt 438631); ("mediaType", JStr "movie");
               ("title", JStr "Dune"); ("releaseDate", JStr "2021-09-15");
               ("mediaInfo", JDict [("status", JInt 5)])] in
  let details :=
    JDict [("externalIds", JDict [("imdbId", JStr "tt1160419")]);
           ("ratings", JDict [("criticsScore", JInt 83)]);
           ("relatedVideos",
            JList [JDict [("site", JStr "YouTube"); ("type", JStr "Trailer");
                          ("url", JStr "https://youtu.be/n9xhJrPXop4")]])] in
  media_status item = Some (JInt 5)
  /\ details_wf details
  /\ _build_caption (JDict item)
     = Ok (join_lines ["<b>Dune</b> - (movie)"; "Year - 2021"; "";
                       "✅ Status: in library"])
  /\ exists r trailer,
       caption_of
         (join_lines ["<b>Dune</b> - (movie)"; "Year - 2021"; "";
                      "✅ Status: in library"]) details
       = Ok (join_lines
               (["<b>Dune</b> - (movie)"; "Year - 2021"; "";
                 "✅ Status: in library"; ""]
                ++ rating_lines r ++ trailer_lines trailer)).
Proof.
  intros item details.
  assert (Hwf : details_wf details).
  { right. eexists. eexists. split; [reflexivity|]. split; reflexivity. }
  split; [reflexivity|]. split; [exact Hwf|].
  destruct (caption_block_order item (JInt 5) details eq_refl Hwf)
    as (Hb & _ & _ & _ & He).
  split; [exact Hb|].
  destruct (He eq_refl) as (r & tr & _ & _ & Hc & _).
  exists r, tr. exact Hc.
Defined.

Example caption_example :
  (b <- _build_caption
          (JDict [("title", JStr "Dune"); ("releaseDate", JStr "2021-09-15");
                  ("mediaInfo", JDict [("status", JInt 5)])]) ;;
   _append_enrichment_to_caption b
     (JDict [("externalIds", JDict [("imdbId", JStr "tt1160419")]);
             ("ratings", JDict [("criticsScore", JInt 83)])]))%py
  = Ok (join_lines
          ["<b>Dune</b> - (movie)"; "Year - 2021"; ""; "✅ Status: in library";
           "";
           link "https://www.imdb.com/title/tt1160419" "IMDb";
           link "https://www.rottentomatoes.com/" "🍅 Tomatometer : 83%"]).
Proof. reflexivity. Qed.

End Caption.

(* ------------------------------------------------------------------ *)
(** * The upstream client and not found *)
(* ------------------------------------------------------------------ *)

Section NotFound.
Import PyStr Py IO Client RunFacts.

Variable self : client.

Lemma get_ratings_run (mt : json) (id : Z) (w : world) (n : nat) (resp : response) :
  w n _ (HttpGet (ratings_url self mt id) []) = Ok resp ->
  snd (run (get_ratings self mt id) w n) =
  if (status resp =? 404)%Z then Ok (JDict [])
  else if (400 <=? status resp)%Z
       then Err (upstream_error (ratings_url self mt id) resp)
       else body resp.
Proof.
  intros H. unfold get_ratings. fold (ratings_url self mt id).
  rewrite run_bind, run_await, H. cbn [List.length].
  destruct (status resp =? 404)%Z; [reflexivity|].
  rewrite run_bind. unfold raise_for_status.
  destruct (400 <=? status resp)%Z; [reflexivity|].
  cbn [run List.length]. unfold resp_json. rewrite run_lift. reflexivity.
Qed.

Lemma recommendations_url_eq (kind : string) (id : Z) :
  kind = "tv" \/ kind = "movie" ->
  recommendations_url self kind id
  = fmt [base_url self; ("/api/v1/" ++ kind ++ "/")%string; str_of_Z id;
         "/recommendations"].
Proof. intros [-> | ->]; reflexivity. Qed.

Lemma details_url_eq (kind : string) (id : Z) :
  kind = "tv" \/ kind = "movie" ->
  details_url self kind id
  = fmt [base_url self; ("/api/v1/" ++ kind ++ "/")%string; str_of_Z id].
Proof. intros [-> | ->]; reflexivity. Qed.

Lemma get_recommendations_run (kind : string) (id page : Z) (w : world) (n : nat)
    (resp : response) :
  w n _ (HttpGet (recommendations_url self (kind_of kind) id) [("page", page)]) = Ok resp ->
  snd (run (get_recommendations self kind id page) w n) =
  if (status resp =? 404)%Z then Ok empty_results
  else if (400 <=? status resp)%Z
       then Err (upstream_error
                   (real_url (recommendations_url self (kind_of kind) id) [("page", page)])
                   resp)
       else body resp.
Proof.
  unfold get_recommendations, kind_of.
  destruct (String.eqb kind "tv"); intros H;
    rewrite recommendations_url_eq in H |- * by auto; cbn [String.append] in H |- *;
    [unfold get_tv_recommendations | unfold get_movie_recommendations];
    rewrite run_bind, run_await, H; cbn [List.length];
    (destruct (status resp =? 404)%Z; [reflexivity|]);
    rewrite run_bind; unfold raise_for_status;
    (destruct (400 <=? status resp)%Z; [reflexivity|]);
    cbn [run List.length]; unfold resp_json; rewrite run_lift; reflexivity.
Qed.

Lemma get_details_run (mt : json) (id : Z) (w : world) (n : nat) (resp : response) :
  movie_or_tv mt = true ->
  w n _ (HttpGet (details_url self (py_str mt) id) []) = Ok resp ->
  snd (run (get_details self mt id) w n) =
  if (400 <=? status resp)%Z
  then Err (upstream_error (details_url self (py_str mt) id) resp)
  else body resp.
Proof.
  unfold movie_or_tv, get_details. intros Hmt H.
  destruct mt as [| | | | s | |]; try discriminate Hmt. cbn [eq_str py_str] in *.
  destruct (String.eqb_spec s "movie") as [-> | _];
    [| destruct (String.eqb_spec s "tv") as [-> | _]; [| discriminate Hmt]];
    rewrite details_url_eq in H |- * by auto; cbn [String.append] in H |- *;
    [unfold get_movie_details | unfold get_tv_details];
    rewrite run_bind, run_await, H; cbn [List.length];
    rewrite run_bind; unfold raise_for_status;
    (destruct (400 <=? status resp)%Z; [reflexivity|]);
    cbn [run List.length]; unfold resp_json; rewrite run_lift; reflexivity.
Qed.

(** C2, amended.  A 404 answer to the ratings request or to a
    recommendations request is returned as the empty result ([{}], resp.
    an empty results list); any other answer of status 400 or more to
    them is raised as an error carrying the status; and the details
    request of a movie or tv raises on every status of 400 or more, 404
    included (for any other media type it returns [{}] without a
    request). *)
Theorem not_found_is_empty_for_ratings_and_recommendations
    (mt : json) (kind : string) (id page : Z) (w : world) (n : nat)
    (resp : response) :
  (w n _ (HttpGet (ratings_url self mt id) []) = Ok resp ->
     (status resp = 404%Z ->
        snd (run (get_ratings self mt id) w n) = Ok (JDict []))
     /\ ((400 <= status resp)%Z -> status resp <> 404%Z ->
         snd (run (get_ratings self mt id) w n)
         = Err (upstream_error (ratings_url self mt id) resp)))
  /\ (w n _ (HttpGet (recommendations_url self (kind_of kind) id) [("page", page)])
      = Ok resp ->
     (status resp = 404%Z ->
        snd (run (get_recommendations self kind id page) w n) = Ok empty_results)
     /\ ((400 <= status resp)%Z -> status resp <> 404%Z ->
         exists url,
           snd (run (get_recommendations self kind id page) w n)
           = Err (upstream_error url resp)))
  /\ (movie_or_tv mt = true ->
      w n _ (HttpGet (details_url self (py_str mt) id) []) = Ok resp ->
      (400 <= status resp)%Z ->
      snd (run (get_details self mt id) w n)
      = Err (upstream_error (details_url self (py_str mt) id) resp))
  /\ (movie_or_tv mt = false ->
      run (get_details self mt id) w n = ([], Ok (JDict []))).
Proof.
  split; [| split; [| split]].
  - intros H. rewrite (get_ratings_run mt id w n resp H). split.
    + intros ->. reflexivity.
    + intros Hge Hne. destruct (Z.eqb_spec (status resp) 404); [contradiction|].
      destruct (Z.leb_spec 400 (status resp)); [reflexivity | lia].
  - intros H. rewrite (get_recommendations_run kind id page w n resp H). split.
    + intros ->. reflexivity.
    + intros Hge Hne. destruct (Z.eqb_spec (status resp) 404); [contradiction|].
      destruct (Z.leb_spec 400 (status resp)); [eexists; reflexivity | lia].
  - intros Hmt H Hge. rewrite (get_details_run mt id w n resp Hmt H).
    destruct (Z.leb_spec 400 (status resp)); [reflexivity | lia].
  - unfold movie_or_tv, get_details. intros Hmt.
    apply orb_false_elim in Hmt as [-> ->]. reflexivity.
Qed.

End NotFound.

Lemma not_found_witness :
  IO.status not_found = 404%Z
  /\ snd (IO.run (Client.get_ratings a_client (Py.JStr "movie") 603) world_404 0)
     = Py.Ok (Py.JDict [])
  /\ snd (IO.run (get_recommendations a_client "tv" 1399 1) world_404 0)
     = Py.Ok empty_results
  /\ snd (IO.run (Client.get_details a_client (Py.JStr "movie") 603) world_404 0)
     = Py.Err (upstream_error "http://overseerr:5055/api/v1/movie/603" not_found).
Proof.
  pose proof (not_found_is_empty_for_ratings_and_recommendations
                a_client (Py.JStr "movie") "tv" 603 1 world_404 0 not_found)
    as (Hr & _ & Hd & _).
  pose proof (not_found_is_empty_for_ratings_and_recommendations
                a_client (Py.JStr "tv") "tv" 1399 1 world_404 0 not_found)
    as (_ & Hc & _ & _).
  split; [reflexivity|].
  split; [exact (proj1 (Hr eq_refl) eq_refl)|].
  split; [exact (proj1 (Hc eq_refl) eq_refl)|].
  apply (Hd eq_refl eq_refl). cbn. lia.
Defined.

(** C2, as stated, fails for the details request: a 404 answer to it is
    raised, not returned as the empty dict. *)
Lemma details_not_found_is_raised :
  snd (IO.run (Client.get_details a_client (Py.JStr "movie") 603) world_404 0)
  = Py.Err (Py.ClientResponseError 404 "Not Found"
              "http://overseerr:5055/api/v1/movie/603")
  /\ snd (IO.run (Client.get_details a_client (Py.JStr "movie") 603) world_404 0)
     <> Py.Ok (Py.JDict []).
Proof. split; [reflexivity | discriminate]. Qed.

(* ------------------------------------------------------------------ *)
(** * The access guard *)
(* ------------------------------------------------------------------ *)

Section AccessGuard.
Import PyStr Py IO Handlers RunFacts.

Variable cfg : config.
Variable client : Client.client.

Lemma not_owner (owner : string) (u : update) :
  OWNER_TELEGRAM_USER_ID cfg = Some owner ->
  owner <> "" ->
  ~ matches_owner owner u ->
  _is_owner cfg u = false.
Proof.
  intros Ho Hne Hm. unfold _is_owner. rewrite Ho.
  destruct owner as [| c s]; [congruence|]. cbn [is_empty].
  destruct (int_of_str (String c s)) as [oid|] eqn:Ei; [| reflexivity].
  destruct (effective_user_id u) as [uid|] eqn:Eu; [| reflexivity].
  destruct (Z.eqb_spec uid oid) as [-> | _]; [| reflexivity].
  exfalso. apply Hm. exists oid. auto.
Qed.

(** C8, amended.  With an owner configured and a caller who is not the
    owner: the start command is answered with the refusal message, a text
    query is dropped with no message and no upstream call, and a button
    tap is acknowledged with no message.  With no owner configured every
    caller is authorized. *)
Theorem guard_refuses_start_only (u : update) (w : world) :
  (forall owner,
     OWNER_TELEGRAM_USER_ID cfg = Some owner ->
     owner <> "" ->
     ~ matches_owner owner u ->
     _is_owner cfg u = false
     /\ messages (trace (start cfg u) w) = ["This bot is restricted to the owner."]
     /\ run (on_query cfg client u) w 0 = ([], Ok tt)
     /\ trace (on_callback cfg client u) w = [Called Answer (w 0%nat _ Answer)]
     /\ messages (trace (on_callback cfg client u) w) = [])
  /\ (OWNER_TELEGRAM_USER_ID cfg = None \/ OWNER_TELEGRAM_USER_ID cfg = Some "" ->
      _is_owner cfg u = true).
Proof.
  split.
  - intros owner Ho Hne Hm. pose proof (not_owner owner u Ho Hne Hm) as Hn.
    split; [exact Hn|].
    unfold start, on_query, on_callback, trace. rewrite Hn. cbn [negb].
    unfold say. rewrite !run_await. repeat split; reflexivity.
  - intros [Ho | Ho]; unfold _is_owner; rewrite Ho; reflexivity.
Qed.

End AccessGuard.

Lemma guard_refuses_start_only_witness :
  Handlers.OWNER_TELEGRAM_USER_ID owner_42 = Some "42"
  /\ IO.messages (IO.trace (Handlers.start owner_42 stranger_text) world_404)
     = ["This bot is restricted to the owner."]
  /\ IO.run (Handlers.on_query owner_42 a_client stranger_text) world_404 0
     = ([], Py.Ok tt)
  /\ Handlers.OWNER_TELEGRAM_USER_ID open_mode = None
  /\ Handlers._is_owner open_mode stranger_text = true.
Proof.
  assert (Hm : ~ matches_owner "42" stranger_text).
  { intros (id & Hi & Hu). vm_compute in Hi. vm_compute in Hu. congruence. }
  assert (Hne : "42" <> "") by discriminate.
  destruct (guard_refuses_start_only owner_42 a_client stranger_text world_404)
    as [H _].
  destruct (H "42" eq_refl Hne Hm) as (_ & Hs & Hq & _).
  destruct (guard_refuses_start_only open_mode a_client stranger_text world_404)
    as [_ Ho].
  split; [reflexivity|]. split; [exact Hs|]. split; [exact Hq|].
  split; [reflexivity | exact (Ho (or_introl eq_refl))].
Defined.

(** C8, as stated, fails: a text message of a caller who is not the owner
    gets no answer at all. *)
Lemma stranger_text_gets_no_refusal :
  Handlers._is_owner owner_42 stranger_text = false
  /\ IO.messages (IO.trace (Handlers.on_query owner_42 a_client stranger_text)
                    world_404) = [].
Proof. split; reflexivity. Qed.

(* ------------------------------------------------------------------ *)
(** * Local validation *)
(* ------------------------------------------------------------------ *)

Section Validation.
Import PyStr Py IO Handlers RunFacts.

Variable cfg : config.
Variable client : Client.client.

Lemma run_say (text : string) (w : world) (n : nat) :
  run (say text) w n
  = ([notice text (w n unit (ReplyText text None false))],
     w n unit (ReplyText text None false)).
Proof. unfold say. apply run_await. Qed.

(** C7.  An empty or whitespace-only text query makes no upstream call
    and, from an authorized caller, is answered with the empty-query
    message alone; an action token whose id part is not an integer makes
    no upstream call either and, from an authorized caller over a
    delivering chat transport, is answered with the invalid-identifier
    message alone. *)
Theorem malformed_input_rejected_locally (u : update) (w : world) :
  (strip (text_of_update u) = "" ->
     upstream_calls (trace (on_query cfg client u) w) = 0%nat
     /\ (_is_owner cfg u = true ->
         messages (trace (on_query cfg client u) w)
         = ["Empty query. Please enter a title."]))
  /\ (forall data media_type media_id_str,
        query_data u = Some data ->
        startswith "req|" data = true \/ startswith "rec|" data = true ->
        unpack_token data = Ok (media_type, media_id_str) ->
        int_of_str media_id_str = None ->
        upstream_calls (trace (on_callback cfg client u) w) = 0%nat
        /\ (_is_owner cfg u = true -> chat_delivers w ->
            messages (trace (on_callback cfg client u) w)
            = ["Invalid identifier."])).
Proof.
  split.
  - intros He. unfold on_query, trace. fold (text_of_update u). rewrite He.
    cbn [is_empty]. destruct (_is_owner cfg u); cbn [negb].
    + rewrite run_say. split; [reflexivity | intros _; reflexivity].
    + split; [reflexivity | discriminate].
  - intros data mt ids Hd Hpre Hun Hint.
    unfold on_callback, trace. rewrite Hd.
    destruct (_is_owner cfg u); cbn [negb].
    + rewrite run_bind, run_await.
      assert (Hbranch :
        forall n,
          (let t := fst (run (request cfg client mt ids) w n) in
           upstream_calls t = 0%nat
           /\ (chat_delivers w -> messages t = ["Invalid identifier."]))
          /\ (let t := fst (run (recommend cfg client mt ids) w n) in
              upstream_calls t = 0%nat
              /\ (chat_delivers w -> messages t = ["Invalid identifier."]))).
      { intros n. unfold request, recommend, parse_id. rewrite Hint. split.
        - rewrite run_bind, run_await.
          destruct (w n unit (EditReplyMarkup None)) as [[] | e] eqn:Ee.
          + cbn [List.length]. rewrite run_say. cbn. split; [reflexivity|].
            intros _. reflexivity.
          + cbn. split; [reflexivity|]. intros Hc.
            rewrite (delivers_edit w Hc) in Ee. discriminate.
        - rewrite run_say. cbn. split; [reflexivity | intros _; reflexivity]. }
      destruct (w 0%nat unit Answer) as [[] | e] eqn:Ea.
      * cbn [List.length Nat.add].
        assert (Hgo :
          fst (run (if startswith "req|" data
                    then bind (lift (unpack_token data))
                           (fun parts => request cfg client (fst parts) (snd parts))
                    else if startswith "rec|" data
                         then bind (lift (unpack_token data))
                                (fun parts => recommend cfg client (fst parts) (snd parts))
                         else Ret tt) w 1)
          = fst (run (request cfg client mt ids) w 1)
          \/ fst (run (if startswith "req|" data
                       then bind (lift (unpack_token data))
                              (fun parts => request cfg client (fst parts) (snd parts))
                       else if startswith "rec|" data
                            then bind (lift (unpack_token data))
                                   (fun parts => recommend cfg client (fst parts) (snd parts))
                            else Ret tt) w 1)
             = fst (run (recommend cfg client mt ids) w 1)).
        { destruct (startswith "req|" data) eqn:E1.
          - left. rewrite run_bind, run_lift, Hun. cbn [List.length Nat.add fst snd].
            destruct (run (request cfg client mt ids) w 1). reflexivity.
          - destruct Hpre as [Hp | Hp]; [discriminate|]. rewrite Hp. right.
            rewrite run_bind, run_lift, Hun. cbn [List.length Nat.add fst snd].
            destruct (run (recommend cfg client mt ids) w 1). reflexivity. }
        destruct (run (if startswith "req|" data then _ else _) w 1) as [t r] eqn:Er.
        cbn [fst] in Hgo |- *. cbn [app].
        destruct (Hbranch 1%nat) as [[H1 H2] [H3 H4]]. cbn zeta in *.
        destruct Hgo as [-> | ->]; (split; [assumption | intros _ Hc; auto]).
      * cbn. split; [reflexivity|]. intros _ Hc.
        rewrite (delivers_answer w Hc) in Ea. discriminate.
    + rewrite run_await. cbn. split; [reflexivity | discriminate].
Qed.

End Validation.

Lemma world_404_delivers : chat_delivers world_404.
Proof. split; reflexivity. Qed.

Lemma malformed_input_rejected_locally_witness :
  PyStr.strip "   " = ""
  /\ IO.messages
       (IO.trace (Handlers.on_query open_mode a_client
                    {| Handlers.effective_user_id := Some 42%Z;
                       Handlers.message_text := Some "   ";
                       Handlers.query_data := None |}) world_404)
     = ["Empty query. Please enter a title."]
  /\ PyStr.int_of_str "notanumber" = None
  /\ IO.upstream_calls
       (IO.trace (Handlers.on_callback open_mode a_client bad_token_tap) world_404)
     = 0%nat
  /\ IO.messages
       (IO.trace (Handlers.on_callback open_mode a_client bad_token_tap) world_404)
     = ["Invalid identifier."].
Proof.
  destruct (malformed_input_rejected_locally open_mode a_client
              {| Handlers.effective_user_id := Some 42%Z;
                 Handlers.message_text := Some "   ";
                 Handlers.query_data := None |} world_404) as [He _].
  destruct (malformed_input_rejected_locally open_mode a_client
              bad_token_tap world_404) as [_ Ht].
  destruct (Ht "req|movie|notanumber" "movie" "notanumber"
              eq_refl (or_introl eq_refl) eq_refl eq_refl) as [Hu Hm].
  split; [reflexivity|]. split; [exact (proj2 (He eq_refl) eq_refl)|].
  split; [reflexivity|]. split; [exact Hu|].
  exact (Hm eq_refl world_404_delivers).
Defined.

(* ------------------------------------------------------------------ *)
(** * Coroutines that only talk to the upstream service *)
(* ------------------------------------------------------------------ *)

Module QuietFacts.
Import Py IO RunFacts Quiet.

Lemma quiet_bind {A B} (p : io A) (k : A -> io B) :
  quiet p -> (forall a, quiet (k a)) -> quiet (bind p k).
Proof.
  intros Hp Hk. induction Hp; cbn; try constructor; auto.
Qed.

Lemma quiet_try_catch {A} (p : io A) (h : exn -> io A) :
  quiet p -> (forall e, quiet (h e)) -> quiet (try_catch p h).
Proof.
  intros Hp Hh. induction Hp; cbn; try constructor; auto.
Qed.

Lemma quiet_lift {A} (r : result A) : quiet (lift r).
Proof. destruct r; constructor. Qed.

Lemma quiet_await {X} (c : call X) : is_http c = true -> quiet (await c).
Proof. intros H. constructor; [exact H | intros r; apply quiet_lift]. Qed.

Lemma quiet_run {A} (p : io A) (w : world) (n : nat) :
  quiet p -> forallb is_upstream (fst (run p w n)) = true.
Proof.
  intros Hp. revert n. induction Hp as [a | e | X c k Hc _ IH]; intros n; cbn.
  - reflexivity.
  - reflexivity.
  - specialize (IH (w n X c) (S n)).
    destruct (run (k (w n X c)) w (S n)) as [t r]. cbn in *.
    rewrite IH. destruct c; try discriminate Hc; reflexivity.
Qed.

Lemma upstream_no_messages (t : list event) :
  forallb is_upstream t = true -> messages t = [].
Proof.
  induction t as [| e t IH]; cbn; [reflexivity|]. intros H.
  apply andb_prop in H as [He Ht].
  destruct e as [X c r | m]; [| discriminate He].
  destruct c; try discriminate He; cbn; auto.
Qed.

Lemma upstream_no_edit (t : list event) :
  forallb is_upstream t = true -> existsb is_edit t = false.
Proof.
  induction t as [| e t IH]; cbn; [reflexivity|]. intros H.
  apply andb_prop in H as [He Ht]. rewrite (IH Ht).
  destruct e as [X c r | m]; [| discriminate He].
  destruct c; try discriminate He; reflexivity.
Qed.

Lemma messages_app (t t' : list event) :
  messages (t ++ t') = messages t ++ messages t'.
Proof.
  induction t as [| e t IH]; cbn; [reflexivity|].
  destruct (message_of e); cbn; rewrite IH; reflexivity.
Qed.

End QuietFacts.

Ltac quiet_step :=
  match goal with
  | |- Quiet.quiet (IO.bind _ _) => apply QuietFacts.quiet_bind; [| intros ?]
  | |- Quiet.quiet (IO.try_catch _ _) => apply QuietFacts.quiet_try_catch; [| intros ?]
  | |- Quiet.quiet (IO.await _) => apply QuietFacts.quiet_await; reflexivity
  | |- Quiet.quiet (IO.lift _) => apply QuietFacts.quiet_lift
  | |- Quiet.quiet (IO.Ret _) => constructor
  | |- Quiet.quiet (IO.Raise _) => constructor
  | |- Quiet.quiet (if ?b then _ else _) => destruct b
  end.

(* ------------------------------------------------------------------ *)
(** * The client is quiet *)
(* ------------------------------------------------------------------ *)

Section QuietClient.
Import Py IO Client Quiet QuietFacts.

Variable self : client.

Lemma quiet_raise_for_status (url : string) (resp : response) :
  quiet (raise_for_status url resp).
Proof. unfold raise_for_status. repeat quiet_step. Qed.

Lemma quiet_search (q : string) : quiet (search self q).
Proof.
  unfold search, resp_json. repeat (quiet_step || apply quiet_raise_for_status).
Qed.

Lemma quiet_create_request mid mt seasons is4k :
  quiet (create_request self mid mt seasons is4k).
Proof.
  unfold create_request, resp_json.
  repeat (quiet_step || apply quiet_raise_for_status).
Qed.

Lemma quiet_approve_request rid is4k : quiet (approve_request self rid is4k).
Proof.
  unfold approve_request, resp_json.
  repeat (quiet_step || apply quiet_raise_for_status).
Qed.

Lemma quiet_get_details mt id : quiet (get_details self mt id).
Proof.
  unfold get_details, get_movie_details, get_tv_details, resp_json.
  repeat (quiet_step || apply quiet_raise_for_status).
Qed.

Lemma quiet_get_ratings mt id : quiet (get_ratings self mt id).
Proof.
  unfold get_ratings, resp_json.
  repeat (quiet_step || apply quiet_raise_for_status).
Qed.

End QuietClient.

(* ------------------------------------------------------------------ *)
(** * The Download tap *)
(* ------------------------------------------------------------------ *)

Section DownloadTap.
Import PyStr Py IO Handlers RunFacts Quiet QuietFacts.

Variable cfg : config.
Variable client : Client.client.

Lemma dget_dmem (k : string) (d : dict) :
  is_None (dget k d) = false -> dmem k d = true.
Proof.
  induction d as [| [k' v] d IH]; cbn; [discriminate|].
  destruct (String.eqb k k'); [reflexivity | exact IH].
Qed.

Lemma truthy_not_None (v : json) : truthy v = true -> is_None v = false.
Proof. destruct v; cbn; congruence. Qed.

Lemma carries_id_read (created request_id : json) :
  carries_id created request_id ->
  request_id_of created = Ok request_id /\ is_None request_id = false.
Proof.
  intros [d Ht | d q Hf Hq Hn]; cbn [request_id_of].
  - rewrite Ht. split; [reflexivity | apply truthy_not_None, Ht].
  - rewrite Hf. unfold nested_request_id.
    rewrite dget_dmem by (rewrite Hq; reflexivity). rewrite Hq.
    split; [reflexivity | exact Hn].
Qed.

(** C6.  An authorized Download tap over a delivering chat transport:
    when the create call returns an answer carrying a request id (top
    level or nested) and the approve call then fails, the failure is
    logged, the buttons of the message are removed and the one message
    sent is the success confirmation; when the create call fails, the one
    message sent reports the error and the buttons are not touched. *)
Theorem download_tap_outcomes (u : update) (w : world)
    (data media_type media_id_str : string) (media_id : Z) :
  _is_owner cfg u = true ->
  chat_delivers w ->
  query_data u = Some data ->
  startswith "req|" data = true ->
  unpack_token data = Ok (media_type, media_id_str) ->
  int_of_str media_id_str = Some media_id ->
  let create :=
    Client.create_request client media_id media_type None (DEFAULT_IS_4K cfg) in
  (forall t1 created request_id t2 e,
     run create w 1 = (t1, Ok created) ->
     carries_id created request_id ->
     run (Client.approve_request client request_id (DEFAULT_IS_4K cfg)) w
       (1 + List.length t1) = (t2, Err e) ->
     run (on_callback cfg client u) w 0
     = ([Called Answer (Ok tt)] ++ t1 ++ t2
        ++ [Logged "Approve failed"; Called (EditReplyMarkup None) (Ok tt);
            notice success_text (Ok tt)],
        Ok tt)
     /\ messages (trace (on_callback cfg client u) w) = [success_text]
     /\ existsb is_edit (trace (on_callback cfg client u) w) = true)
  /\ (forall t1 e,
        run create w 1 = (t1, Err e) ->
        run (on_callback cfg client u) w 0
        = ([Called Answer (Ok tt)] ++ t1
           ++ [Logged "Request failed";
               notice (fmt ["Request error: "; exn_str e]) (Ok tt)],
           Ok tt)
        /\ messages (trace (on_callback cfg client u) w)
           = [fmt ["Request error: "; exn_str e]]
        /\ existsb is_edit (trace (on_callback cfg client u) w) = false).
Proof.
  intros Ho Hc Hd Hpre Hun Hint create.
  assert (Hhead : forall t r,
            run (request cfg client media_type media_id_str) w 1 = (t, r) ->
            run (on_callback cfg client u) w 0 = (Called Answer (Ok tt) :: t, r)).
  { intros t r Hr. unfold on_callback. rewrite Ho, Hd, Hpre. cbn [negb].
    rewrite run_bind, run_await, (delivers_answer w Hc). cbn [List.length Nat.add].
    rewrite run_bind, run_lift, Hun. cbn [List.length Nat.add fst snd app].
    rewrite Hr. reflexivity. }
  split.
  - intros t1 created rid t2 e H1 Hid H2.
    destruct (carries_id_read created rid Hid) as [Hrid Hnn].
    assert (Hq1 : forallb is_upstream t1 = true).
    { pose proof (quiet_run create w 1 (quiet_create_request _ _ _ _ _)) as Hq.
      fold create in Hq. rewrite H1 in Hq. exact Hq. }
    assert (Hq2 : forallb is_upstream t2 = true).
    { pose proof (quiet_run _ w (1 + List.length t1)
                    (quiet_approve_request client rid (DEFAULT_IS_4K cfg))) as Hq.
      rewrite H2 in Hq. exact Hq. }
    assert (Hrun : run (on_callback cfg client u) w 0
              = ([Called Answer (Ok tt)] ++ t1 ++ t2
                 ++ [Logged "Approve failed"; Called (EditReplyMarkup None) (Ok tt);
                     notice success_text (Ok tt)], Ok tt)).
    { apply Hhead. unfold request, parse_id. rewrite Hint.
      rewrite run_try_catch, run_bind. fold create. rewrite H1.
      rewrite run_bind, run_lift, Hrid. cbn [List.length Nat.add app].
      rewrite Nat.add_0_r, Hnn. cbn [negb].
      cbn [Nat.add] in H2.
      rewrite run_bind, run_try_catch, run_bind, H2.
      unfold log. cbn [run List.length Nat.add app].
      rewrite run_bind, run_await, (delivers_edit w Hc). cbn [List.length Nat.add].
      rewrite run_say, (delivers_text w Hc). cbn [app].
      rewrite <- !app_assoc. reflexivity. }
    split; [exact Hrun|]. unfold trace. rewrite Hrun. cbn [fst]. split.
    + rewrite !messages_app, (upstream_no_messages t1 Hq1),
        (upstream_no_messages t2 Hq2). reflexivity.
    + rewrite !existsb_app. cbn. rewrite !orb_true_r. reflexivity.
  - intros t1 e H1.
    assert (Hq1 : forallb is_upstream t1 = true).
    { pose proof (quiet_run create w 1 (quiet_create_request _ _ _ _ _)) as Hq.
      fold create in Hq. rewrite H1 in Hq. exact Hq. }
    assert (Hrun : run (on_callback cfg client u) w 0
              = ([Called Answer (Ok tt)] ++ t1
                 ++ [Logged "Request failed";
                     notice (fmt ["Request error: "; exn_str e]) (Ok tt)], Ok tt)).
    { apply Hhead. unfold request, parse_id. rewrite Hint.
      rewrite run_try_catch, run_bind. fold create. rewrite H1.
      unfold log. cbn [bind run].
      rewrite run_say, (delivers_text w Hc). reflexivity. }
    split; [exact Hrun|]. unfold trace. rewrite Hrun. cbn [fst]. split.
    + rewrite !messages_app, (upstream_no_messages t1 Hq1). reflexivity.
    + rewrite !existsb_app, (upstream_no_edit t1 Hq1). reflexivity.
Qed.

End DownloadTap.

Lemma world_approve_fails_delivers : chat_delivers world_approve_fails.
Proof. split; reflexivity. Qed.

Lemma download_tap_outcomes_witness :
  carries_id created_17 (Py.JInt 17)
  /\ IO.messages
       (IO.trace (Handlers.on_callback open_mode a_client download_tap)
          world_approve_fails)
     = [success_text]
  /\ existsb IO.is_edit
       (IO.trace (Handlers.on_callback open_mode a_client download_tap)
          world_approve_fails) = true
  /\ IO.messages
       (IO.trace (Handlers.on_callback open_mode a_client download_tap) world_404)
     = ["Request error: 404, message='Not Found', url='http://overseerr:5055/api/v1/request'"]
  /\ existsb IO.is_edit
       (IO.trace (Handlers.on_callback open_mode a_client download_tap) world_404)
     = false.
Proof.
  assert (Hid : carries_id created_17 (Py.JInt 17)).
  { apply (id_nested [("request", Py.JDict [("id", Py.JInt 17)])]
             [("id", Py.JInt 17)]); reflexivity. }
  destruct (download_tap_outcomes open_mode a_client download_tap
              world_approve_fails "req|movie|603" "movie" "603" 603
              eq_refl world_approve_fails_delivers eq_refl eq_refl eq_refl eq_refl)
    as [Hok _].
  destruct (Hok _ created_17 (Py.JInt 17) _ _ eq_refl Hid eq_refl) as (_ & Hm & He).
  destruct (download_tap_outcomes open_mode a_client download_tap
              world_404 "req|movie|603" "movie" "603" 603
              eq_refl world_404_delivers eq_refl eq_refl eq_refl eq_refl)
    as [_ Hfail].
  destruct (Hfail _ _ eq_refl) as (_ & Hm' & He').
  split; [exact Hid|]. split; [exact Hm|]. split; [exact He|].
  split; [exact Hm' | exact He'].
Defined.

(* ------------------------------------------------------------------ *)
(** * Presenting search results *)
(* ------------------------------------------------------------------ *)

Section Cards.
Import PyStr Py IO Handlers RunFacts Quiet QuietFacts.

Variable cfg : config.
Variable client : Client.client.

Lemma cards_app (t t' : list event) : cards (t ++ t') = (cards t + cards t')%nat.
Proof. unfold cards. rewrite filter_app, length_app. reflexivity. Qed.

Lemma at_most_weaken {A} (m m' : nat) (p : io A) :
  (m <= m')%nat -> at_most m p -> at_most m' p.
Proof. intros Hle H w n. specialize (H w n). lia. Qed.

Lemma at_most_bind {A B} (m1 m2 : nat) (p : io A) (k : A -> io B) :
  at_most m1 p -> (forall a, at_most m2 (k a)) -> at_most (m1 + m2) (bind p k).
Proof.
  intros Hp Hk w n. rewrite run_bind. specialize (Hp w n).
  destruct (run p w n) as [t [a | e]]; cbn [fst] in *; [| lia].
  specialize (Hk a w (n + List.length t)%nat).
  destruct (run (k a) w (n + List.length t)) as [t' r]. cbn [fst] in *.
  rewrite cards_app. lia.
Qed.

Lemma at_most_try_catch {A} (m1 m2 : nat) (p : io A) (h : exn -> io A) :
  at_most m1 p -> (forall e, at_most m2 (h e)) ->
  at_most (m1 + m2) (try_catch p h).
Proof.
  intros Hp Hh w n. rewrite run_try_catch. specialize (Hp w n).
  destruct (run p w n) as [t [a | e]]; cbn [fst] in *; [lia|].
  specialize (Hh e w (n + List.length t)%nat).
  destruct (run (h e) w (n + List.length t)) as [t' r]. cbn [fst] in *.
  rewrite cards_app. lia.
Qed.

Lemma upstream_no_cards (t : list event) :
  forallb is_upstream t = true -> cards t = 0%nat.
Proof.
  induction t as [| e t IH]; cbn; [reflexivity|]. intros H.
  apply andb_prop in H as [He Ht]. specialize (IH Ht). unfold cards in *.
  destruct e as [X c r | m]; [| discriminate He].
  destruct c; try discriminate He; cbn; exact IH.
Qed.

Lemma at_most_quiet {A} (p : io A) : quiet p -> at_most 0 p.
Proof.
  intros Hq w n. rewrite (upstream_no_cards _ (quiet_run p w n Hq)). lia.
Qed.

Lemma at_most_lift {A} (r : result A) : at_most 0 (lift r).
Proof. apply at_most_quiet, quiet_lift. Qed.

Lemma at_most_ret {A} (a : A) : at_most 0 (Ret a).
Proof. intros w n. cbn. lia. Qed.

Lemma at_most_say (text : string) : at_most 0 (say text).
Proof. intros w n. rewrite run_say. cbn. lia. Qed.

Lemma at_most_log (m : string) : at_most 0 (log m).
Proof. intros w n. cbn. lia. Qed.

Lemma send_card_at_most_one (poster : json) (caption : string)
    (kb : option Bot.markup) :
  at_most 1 (send_card cfg poster caption kb).
Proof.
  intros w n. unfold send_card. rewrite run_try_catch.
  destruct (truthy poster); rewrite !run_await;
    match goal with
    | |- context [w n unit ?c] => destruct (w n unit c) as [[] | e] eqn:E1
    end; cbn [fst List.length app]; unfold cards; cbn; try lia;
    match goal with
    | |- context [w ?m unit ?c] => destruct (w m unit c) as [[] | e']
    end; cbn; lia.
Qed.

Lemma quiet_enrich (mt item : json) : quiet (enrich client mt item).
Proof.
  unfold enrich.
  repeat (quiet_step || apply quiet_get_details || apply quiet_get_ratings).
Qed.

Lemma present_result_at_most_one (item : json) :
  at_most 1 (present_result cfg client item).
Proof.
  unfold present_result.
  apply (at_most_bind 0 1); [apply at_most_lift | intros poster].
  apply (at_most_bind 0 1); [apply at_most_lift | intros base].
  apply (at_most_bind 0 1); [apply at_most_lift | intros mt].
  apply (at_most_bind 0 1); [apply at_most_quiet, quiet_enrich | intros details].
  apply (at_most_bind 0 1); [apply at_most_lift | intros caption].
  apply (at_most_bind 0 1); [apply at_most_lift | intros kb].
  apply send_card_at_most_one.
Qed.

Lemma for_each_at_most {A} (xs : list A) (body : A -> io unit) :
  (forall x, at_most 1 (body x)) ->
  at_most (List.length xs) (for_each xs body).
Proof.
  intros Hb. induction xs as [| x xs IH]; cbn [for_each List.length].
  - apply at_most_ret.
  - apply (at_most_bind 1 (List.length xs)); [apply Hb | intros _; exact IH].
Qed.

Lemma on_query_at_most_ten (u : update) : at_most 10 (on_query cfg client u).
Proof.
  unfold on_query.
  destruct (negb (_is_owner cfg u));
    [apply (at_most_weaken 0); [lia | apply at_most_ret]|].
  destruct (is_empty _);
    [apply (at_most_weaken 0); [lia | apply at_most_say]|].
  apply (at_most_bind 0 10).
  - apply (at_most_try_catch 0 0).
    + apply at_most_quiet. repeat (quiet_step || apply quiet_search).
    + intros e. apply (at_most_bind 0 0); [apply at_most_log | intros _].
      apply (at_most_bind 0 0); [apply at_most_say | intros _; apply at_most_ret].
  - intros [data |]; [| apply (at_most_weaken 0); [lia | apply at_most_ret]].
    apply (at_most_bind 0 10); [apply at_most_lift | intros results].
    destruct results as [| r rs];
      [apply (at_most_weaken 0); [lia | apply at_most_say]|].
    apply (at_most_bind 0 10); [apply at_most_lift | intros filtered].
    eapply at_most_weaken; [| apply for_each_at_most, present_result_at_most_one].
    rewrite length_firstn. lia.
Qed.

Lemma filter_media_filter (rs : list json) :
  forallb is_dict rs = true ->
  filter_media rs = Ok (filter names_movie_or_tv rs).
Proof.
  induction rs as [| r rs IH]; cbn [forallb filter_media filter]; [reflexivity|].
  intros H. apply andb_prop in H as [Hr Hrs]. destruct r; try discriminate Hr.
  rewrite lazy_or_get2. cbn [Py.bind]. rewrite (IH Hrs). cbn [Py.bind].
  unfold names_movie_or_tv, named_media_type, movie_or_tv. reflexivity.
Qed.

Lemma in_firstn {A} (n : nat) (x : A) (l : list A) :
  In x (firstn n l) -> In x l.
Proof.
  intros H. rewrite <- (firstn_skipn n l). apply in_or_app. left. exact H.
Qed.

(** C9.  Whatever the upstream and the chat transport answer, a text
    query delivers at most ten cards; and when the search returns a
    non-empty list of result objects, the handler goes on by presenting,
    in order, the first ten of the results naming movie or tv as their
    media type, or the first ten of all results when no result does. *)
Theorem at_most_ten_cards_filtered (u : update) (w : world) :
  (cards (trace (on_query cfg client u) w) <= 10)%nat
  /\ (forall t d rs,
        _is_owner cfg u = true ->
        strip (text_of_update u) <> "" ->
        run (Client.search client (strip (text_of_update u))) w 0
        = (t, Ok (JDict d)) ->
        dget "results" d = JList rs ->
        rs <> [] ->
        forallb is_dict rs = true ->
        run (on_query cfg client u) w 0
        = (let (t', r) :=
             run (for_each (shown_results rs) (present_result cfg client)) w
               (List.length t) in
           (t ++ t', r))
        /\ (List.length (shown_results rs) <= 10)%nat
        /\ (filter names_movie_or_tv rs <> [] ->
            shown_results rs = firstn 10 (filter names_movie_or_tv rs)
            /\ Forall (fun r => names_movie_or_tv r = true) (shown_results rs))
        /\ (filter names_movie_or_tv rs = [] ->
            shown_results rs = firstn 10 rs)).
Proof.
  split; [apply on_query_at_most_ten|].
  intros t d rs Ho Hq Hs Hr Hne Hd.
  split; [| split; [| split]].
  - unfold on_query. rewrite Ho. cbn [negb]. fold (text_of_update u).
    destruct (strip (text_of_update u)) as [| c q] eqn:Eq; [congruence|].
    cbn [is_empty]. rewrite run_bind, run_try_catch, run_bind, Hs.
    cbn [run List.length Nat.add app].
    rewrite run_bind, run_lift. cbn [py_get Py.bind]. rewrite Hr.
    destruct rs as [| r rs]; [congruence|].
    cbn [py_or truthy py_list List.length Nat.add app].
    rewrite run_bind, run_lift, (filter_media_filter _ Hd).
    cbn [List.length Nat.add app]. rewrite ?app_nil_r, ?Nat.add_0_r.
    unfold shown_results.
    destruct (filter names_movie_or_tv (r :: rs));
      destruct (run (for_each _ _) w (List.length t)) as [t' r']; reflexivity.
  - unfold shown_results. rewrite length_firstn. lia.
  - intros Hf. unfold shown_results.
    destruct (filter names_movie_or_tv rs) as [| k ks] eqn:Ef; [congruence|].
    split; [reflexivity|]. apply Forall_forall. intros x Hx.
    apply in_firstn in Hx. rewrite <- Ef in Hx.
    apply filter_In in Hx. tauto.
  - intros Hf. unfold shown_results. rewrite Hf. reflexivity.
Qed.

End Cards.

Lemma at_most_ten_cards_filtered_witness :
  PyStr.strip (text_of_update dune_query) <> ""
  /\ (cards (IO.trace (Handlers.on_query open_mode a_client dune_query) world_dozen)
      <= 10)%nat
  /\ shown_results thirteen_results
     = firstn 10 (filter names_movie_or_tv thirteen_results)
  /\ Forall (fun r => names_movie_or_tv r = true) (shown_results thirteen_results).
Proof.
  assert (Hq : PyStr.strip (text_of_update dune_query) <> "") by discriminate.
  assert (Hf : filter names_movie_or_tv thirteen_results <> []) by discriminate.
  destruct (at_most_ten_cards_filtered open_mode a_client dune_query world_dozen)
    as [Hle Hsel].
  destruct (Hsel _ _ thirteen_results eq_refl Hq eq_refl eq_refl
              ltac:(discriminate) eq_refl)
    as (_ & _ & Hmt & _).
  split; [exact Hq|]. split; [exact Hle|]. exact (Hmt Hf).
Defined.

(** The same run, computed: ten cards, and the person is not among them. *)
Example dozen_results_ten_cards :
  cards (IO.trace (Handlers.on_query open_mode a_client dune_query) world_dozen)
  = 10%nat
  /\ List.length (IO.messages
                    (IO.trace (Handlers.on_query open_mode a_client dune_query)
                       world_dozen)) = 10%nat
  /\ hd "" (IO.messages
              (IO.trace (Handlers.on_query open_mode a_client dune_query)
                 world_dozen))
     = PyStr.join_lines ["<b>Dune</b> - (tv series)"; ""; "❌ Status: not in library"].
Proof. vm_compute. repeat split. Qed.

(* ------------------------------------------------------------------ *)
(** * Action tokens: from the button back to the handler *)
(* ------------------------------------------------------------------ *)

Section Tokens.
Import PyStr Py Bot Handlers.

Lemma digits_val_uint (d : Decimal.uint) (acc : Z) (after_digit : bool) :
  digits_val acc after_digit (NilEmpty.string_of_uint d)
  = match d with
    | Decimal.Nil => if after_digit then Some acc else None
    | _ => Some (uint_value d acc)
    end.
Proof.
  revert acc after_digit.
  induction d; intros acc af; cbn [NilEmpty.string_of_uint]; [reflexivity | ..];
    cbn [digits_val];
    match goal with
    | |- context [is_digit ?c] => change (is_digit c) with true
    end; cbn match;
    match goal with
    | |- context [digit_val ?c] =>
        let v := eval vm_compute in (digit_val c) in
        change (digit_val c) with v
    end;
    rewrite IHd; destruct d; reflexivity.
Qed.

Lemma uint_value_acc (d : Decimal.uint) (p : positive) :
  uint_value d (Z.pos p) = Z.pos (Pos.of_uint_acc d p).
Proof.
  revert p. induction d; intros p; cbn [uint_value Pos.of_uint_acc];
    [reflexivity | ..];
    match goal with
    | |- uint_value _ ?a = Z.pos (Pos.of_uint_acc _ ?q) =>
        replace a with (Z.pos q) by lia
    end; apply IHd.
Qed.

Lemma uint_value_of_uint (d : Decimal.uint) :
  uint_value d 0 = Z.of_N (Pos.of_uint d).
Proof.
  induction d; cbn [uint_value Pos.of_uint]; [reflexivity | exact IHd | ..];
    cbn [Z.mul Z.add]; rewrite uint_value_acc; reflexivity.
Qed.

Lemma uint_value_to_uint (p : positive) :
  uint_value (Pos.to_uint p) 0 = Z.pos p.
Proof.
  rewrite uint_value_of_uint, DecimalPos.Unsigned.of_to. reflexivity.
Qed.

Lemma digit_plain (c : ascii) :
  is_digit c = true ->
  (code c <? 128)%nat = true /\ is_c_space c = false
  /\ Ascii.eqb c "-" = false /\ Ascii.eqb c "+" = false.
Proof.
  assert (H : forallb (fun c => implb (is_digit c)
                ((code c <? 128)%nat && negb (is_c_space c)
                 && negb (Ascii.eqb c "-") && negb (Ascii.eqb c "+"))) all_ascii
              = true) by (vm_compute; reflexivity).
  rewrite forallb_forall in H. specialize (H c (in_all_ascii c)).
  intros Hd. rewrite Hd in H. cbn [implb] in H.
  destruct (code c <? 128)%nat, (is_c_space c), (Ascii.eqb c "-"),
    (Ascii.eqb c "+"); try discriminate; auto.
Qed.

Lemma uint_digits (d : Decimal.uint) :
  all_chars is_digit (NilEmpty.string_of_uint d) = true.
Proof. induction d; cbn [NilEmpty.string_of_uint all_chars]; auto. Qed.

Lemma digits_ascii (s : string) :
  all_chars is_digit s = true -> is_ascii s = true.
Proof.
  induction s as [| c s IH]; [reflexivity|]. cbn [all_chars is_ascii]. intros H.
  apply andb_prop in H as [Hc Hs]. destruct (digit_plain c Hc) as (-> & _).
  rewrite (IH Hs). reflexivity.
Qed.

Lemma digits_no_space (s : string) :
  all_chars is_digit s = true ->
  all_chars (fun c => negb (is_c_space c)) s = true.
Proof.
  apply all_chars_impl. intros c Hc. destruct (digit_plain c Hc) as (_ & -> & _).
  reflexivity.
Qed.

Lemma int_of_digits (s : string) :
  all_chars is_digit s = true -> int_of_str s = digits_val 0 false s.
Proof.
  intros H. unfold int_of_str, to_ascii. rewrite (digits_ascii s H).
  rewrite (strip_by_none is_c_space s (digits_no_space s H)).
  destruct s as [| c s]; [reflexivity|].
  cbn [all_chars] in H. apply andb_prop in H as [Hc _].
  destruct (digit_plain c Hc) as (_ & _ & Hm & Hp).
  destruct c as [[] [] [] [] [] [] [] []]; try discriminate Hm;
    try discriminate Hp; reflexivity.
Qed.

Lemma int_of_minus_digits (s : string) :
  all_chars is_digit s = true ->
  int_of_str (String "-" s) = option_map Z.opp (digits_val 0 false s).
Proof.
  intros H. unfold int_of_str, to_ascii.
  assert (Ha : is_ascii (String "-" s) = true)
    by (cbn [is_ascii]; rewrite (digits_ascii s H); reflexivity).
  rewrite Ha.
  assert (Hs : rstrip_by is_c_space (lstrip_by is_c_space (String "-" s))
               = String "-" s).
  { apply strip_by_none. cbn [all_chars]. rewrite (digits_no_space s H).
    reflexivity. }
  rewrite Hs. reflexivity.
Qed.

Lemma nilzero_nonnil (d : Decimal.uint) :
  d <> Decimal.Nil -> NilZero.string_of_uint d = NilEmpty.string_of_uint d.
Proof. destruct d; [congruence | reflexivity ..]. Qed.

Lemma digits_val_nonnil (d : Decimal.uint) :
  d <> Decimal.Nil ->
  digits_val 0 false (NilEmpty.string_of_uint d) = Some (uint_value d 0).
Proof. intros H. rewrite digits_val_uint. destruct d; [congruence | reflexivity ..]. Qed.

(** [int] reads back what [str] prints. *)
Lemma int_of_str_of_Z (n : Z) : int_of_str (str_of_Z n) = Some n.
Proof.
  unfold str_of_Z. destruct n as [| p | p]; [reflexivity | |];
    cbn [Z.to_int NilZero.string_of_int];
    pose proof (DecimalPos.Unsigned.to_uint_nonnil p) as Hnil;
    rewrite (nilzero_nonnil _ Hnil).
  - rewrite int_of_digits by apply uint_digits.
    rewrite (digits_val_nonnil _ Hnil), uint_value_to_uint. reflexivity.
  - rewrite int_of_minus_digits by apply uint_digits.
    rewrite (digits_val_nonnil _ Hnil), uint_value_to_uint. reflexivity.
Qed.

Lemma unpack_built_token (action media_type id : string) :
  action = "req" \/ action = "rec" ->
  media_type = "movie" \/ media_type = "tv" ->
  unpack_token (fmt [action; "|"; media_type; "|"; id]) = Ok (media_type, id).
Proof.
  intros [-> | ->] [-> | ->]; unfold unpack_token; cbn; destruct id; reflexivity.
Qed.

Lemma keyboard_of_item (item : dict) (status : json) (n : Z) (mt : string) :
  media_status item = Some status ->
  dget "id" item = JInt n ->
  media_type_of item = JStr mt ->
  mt = "movie" \/ mt = "tv" ->
  _build_keyboard (JDict item)
  = Ok (Some [(if status_available status then []
               else [{| text := "⏬ Download";
                        callback_data := fmt ["req|"; mt; "|"; str_of_Z n] |}])
              ++ [{| text := "👀 Recommendations";
                     callback_data := fmt ["rec|"; mt; "|"; str_of_Z n] |}]]).
Proof.
  intros Hst Hid Hmt Hkind.
  unfold _build_keyboard. rewrite media_type_lookup. cbn [bind py_get].
  rewrite Hid, Hmt, (is_available_status item status Hst). cbn [is_None bind].
  assert (Hrec : eq_str (JStr mt) "tv" || eq_str (JStr mt) "movie" = true)
    by (destruct Hkind as [-> | ->]; reflexivity).
  rewrite Hrec. cbn [py_str].
  destruct (status_available status); reflexivity.
Qed.

(** X1.  The tokens on the buttons of a movie or tv item with an integer
    id are read back by the handler as the same media type and id: each
    button carries [req|type|id] or [rec|type|id], the token splits into
    that type and the decimal text of the id, and [int] of that text is
    the id. *)
Theorem button_tokens_round_trip (item : dict) (status : json) (n : Z)
    (mt : string) :
  media_status item = Some status ->
  dget "id" item = JInt n ->
  media_type_of item = JStr mt ->
  mt = "movie" \/ mt = "tv" ->
  exists kb,
    _build_keyboard (JDict item) = Ok kb
    /\ buttons_of kb <> []
    /\ forall b, In b (buttons_of kb) ->
         (callback_data b = fmt ["req|"; mt; "|"; str_of_Z n]
          \/ callback_data b = fmt ["rec|"; mt; "|"; str_of_Z n])
         /\ unpack_token (callback_data b) = Ok (mt, str_of_Z n)
         /\ int_of_str (str_of_Z n) = Some n.
Proof.
  intros Hst Hid Hmt Hkind.
  rewrite (keyboard_of_item item status n mt Hst Hid Hmt Hkind).
  assert (Hreq : unpack_token (fmt ["req|"; mt; "|"; str_of_Z n])
                 = Ok (mt, str_of_Z n))
    by (apply (unpack_built_token "req"); auto).
  assert (Hrc : unpack_token (fmt ["rec|"; mt; "|"; str_of_Z n])
                = Ok (mt, str_of_Z n))
    by (apply (unpack_built_token "rec"); auto).
  destruct (status_available status); cbn [negb app];
    (eexists; split; [reflexivity|]; split; [discriminate|]);
    cbn [buttons_of List.concat app]; intros b Hb; cbn [In] in Hb;
    repeat match goal with H : _ \/ _ |- _ => destruct H as [<- | H] end;
    try contradiction; cbn [callback_data];
    (split; [auto|]; split; [assumption | apply int_of_str_of_Z]).
Qed.

Lemma button_tokens_round_trip_witness :
  let item := [("id", JInt 603); ("mediaType", JStr "movie")] in
  media_status item = Some JNull
  /\ exists kb, _build_keyboard (JDict item) = Ok kb
       /\ forall b, In b (buttons_of kb) ->
            unpack_token (callback_data b) = Ok ("movie", "603")
            /\ int_of_str "603" = Some 603%Z.
Proof.
  intros item. split; [reflexivity|].
  destruct (button_tokens_round_trip item JNull 603 "movie" eq_refl eq_refl eq_refl
              (or_introl eq_refl)) as (kb & Hk & _ & Hb).
  exists kb. split; [exact Hk|]. intros b Hin.
  destruct (Hb b Hin) as (_ & Hu & Hi). split; [exact Hu | exact Hi].
Defined.

End Tokens.

(* ------------------------------------------------------------------ *)
(** * Title, year and type *)
(* ------------------------------------------------------------------ *)

Section TitleYear.
Import PyStr Py Bot.

Lemma py_or_default_truthy (a b : json) :
  truthy b = true -> truthy (py_or a b) = true.
Proof. unfold py_or. destruct (truthy a) eqn:E; auto. Qed.

(** X2.  On every item object, title, year and type are extracted
    without raising: the title is never empty ([(untitled)] stands in),
    the year, when there is one, has exactly four characters (code
    points, not bytes) and is the start of the item's date, there is none
    exactly when the date is not a text of four characters or more, and the type label is [movie] for
    the media type movie and [tv series] for everything else. *)
Theorem title_year_type_normalized (item : dict) :
  exists title year label,
    _extract_title_year_type (JDict item) = Ok (title, year, label)
    /\ truthy title = true
    /\ label = (if eq_str (media_type_of item) "movie" then "movie" else "tv series")
    /\ match year with
       | Some y =>
           exists date, date_of item = JStr date
                        /\ len y = 4%nat /\ prefix y date = true
       | None => has_year item = false
       end.
Proof.
  unfold _extract_title_year_type.
  rewrite media_type_lookup. cbn [bind].
  rewrite lazy_or_get2_default. cbn [bind].
  rewrite date_lookup. cbn [bind].
  eexists. eexists. eexists. split; [reflexivity|].
  split; [apply py_or_default_truthy; reflexivity|].
  split; [reflexivity|].
  unfold has_year. destruct (date_of item) as [| | | | s | |]; try reflexivity.
  destruct (4 <=? len s)%nat eqn:E; [| reflexivity].
  apply Nat.leb_le in E. exists s. split; [reflexivity|].
  split; [apply take_len, E | apply take_prefix].
Qed.

End TitleYear.

(* ------------------------------------------------------------------ *)
(** * Trailer selection *)
(* ------------------------------------------------------------------ *)

Section Trailer.
Import PyStr Py Bot.

Lemma pick_related_video_url (wanted : option string) (m : dict) :
  pick_related wanted (JDict m) = Ok (video_url wanted (JDict m)).
Proof.
  unfold pick_related, video_url. cbn [py_get bind].
  destruct (dget "url" m); try reflexivity.
  destruct (eq_str (dget "site" m) "YouTube" && _); reflexivity.
Qed.

Lemma find_related (wanted : option string) (vs : list json) :
  forallb is_dict vs = true ->
  find_video (pick_related wanted) vs = Ok (first_video wanted vs).
Proof.
  induction vs as [| v vs IH]; cbn [forallb find_video first_video]; [reflexivity|].
  intros H. apply andb_prop in H as [Hv Hvs]. destruct v; try discriminate Hv.
  rewrite pick_related_video_url. cbn [bind].
  destruct (video_url wanted (JDict d)); [reflexivity | apply IH, Hvs].
Qed.

(** X3.  Among related videos that are objects, the trailer address is
    that of the first YouTube video of type Trailer whose url is text,
    wherever it stands in the list; failing that, of the first such
    Teaser; failing that, of the first such YouTube video of any type. *)
Theorem trailer_priority (d : dict) (vs : list json) (u : string) :
  dget "relatedVideos" d = JList vs ->
  forallb is_dict vs = true ->
  (first_video (Some "Trailer") vs = Some u
   \/ (first_video (Some "Trailer") vs = None
       /\ first_video (Some "Teaser") vs = Some u)
   \/ (first_video (Some "Trailer") vs = None
       /\ first_video (Some "Teaser") vs = None
       /\ first_video None vs = Some u)) ->
  _extract_trailer_url (JDict d) = Ok (Some u).
Proof.
  intros Hr Hd Hu. unfold _extract_trailer_url. cbn [py_get bind]. rewrite Hr.
  unfold preferred, or_else. rewrite !find_related by exact Hd.
  destruct Hu as [H1 | [[H1 H2] | [H1 [H2 H3]]]];
    rewrite ?H1, ?H2, ?H3; reflexivity.
Qed.

Lemma trailer_priority_witness :
  let teaser := JDict [("site", JStr "YouTube"); ("type", JStr "Teaser");
                       ("url", JStr "https://youtu.be/teaser")] in
  let trailer := JDict [("site", JStr "YouTube"); ("type", JStr "Trailer");
                        ("url", JStr "https://youtu.be/trailer")] in
  let d := [("relatedVideos", JList [teaser; trailer])] in
  first_video (Some "Trailer") [teaser; trailer] = Some "https://youtu.be/trailer"
  /\ _extract_trailer_url (JDict d) = Ok (Some "https://youtu.be/trailer").
Proof.
  intros teaser trailer d. split; [reflexivity|].
  exact (trailer_priority d [teaser; trailer] "https://youtu.be/trailer"
           eq_refl eq_refl (or_introl eq_refl)).
Defined.

(** X4.  A details object with no list of related videos and no list of
    video results has no trailer, and extraction does not raise; and a
    related-videos entry that is not an object, met before any match,
    makes extraction raise. *)
Theorem trailer_absent_or_raising (d : dict) :
  ((forall vs, dget "relatedVideos" d <> JList vs) ->
   (forall m vs, py_or (dget "videos" d) (JDict []) = JDict m ->
                 dget "results" m <> JList vs) ->
   _extract_trailer_url (JDict d) = Ok None)
  /\ (forall v vs, dget "relatedVideos" d = JList (v :: vs) ->
        is_dict v = false ->
        _extract_trailer_url (JDict d) = Err (no_get v)).
Proof.
  split.
  - intros Hno Hres. unfold _extract_trailer_url. cbn [py_get bind].
    change (lazy_or (Ok (dget "videos" d)) (Ok (JDict [])))
      with (lazy_or (py_get (JDict d) "videos") (Ok (JDict []))).
    rewrite lazy_or_get_default. unfold or_else.
    destruct (dget "relatedVideos" d) eqn:Er;
      try (exfalso; eapply Hno; reflexivity); cbn [bind];
      (destruct (py_or (dget "videos" d) (JDict [])) as [| | | | | | m] eqn:Ev;
       try reflexivity;
       destruct (dget "results" m) eqn:Eres; try reflexivity;
       exfalso; eapply Hres; eauto).
  - intros v vs Hr Hv. unfold _extract_trailer_url. cbn [py_get bind].
    rewrite Hr. unfold preferred, or_else. cbn [find_video].
    destruct v; try discriminate Hv; reflexivity.
Qed.

Lemma trailer_absent_or_raising_witness :
  _extract_trailer_url (JDict [("title", JStr "Dune")]) = Ok None
  /\ _extract_trailer_url (JDict [("relatedVideos", JList [JStr "x"])])
     = Err (no_get (JStr "x")).
Proof.
  split.
  - apply (proj1 (trailer_absent_or_raising [("title", JStr "Dune")]));
      [discriminate |].
    intros m vs [= <-]. discriminate.
  - apply (proj2 (trailer_absent_or_raising [("relatedVideos", JList [JStr "x"])])
             (JStr "x") []); reflexivity.
Defined.

End Trailer.

(* ------------------------------------------------------------------ *)
(** * The search request *)
(* ------------------------------------------------------------------ *)

Section SearchRequest.
Import PyStr Py IO Client RunFacts.

Variable self : client.

Lemma quote_char_safe (c : ascii) : all_chars url_safe (quote_char c) = true.
Proof.
  assert (H : forallb (fun c => all_chars url_safe (quote_char c)) all_ascii = true)
    by (vm_compute; reflexivity).
  rewrite forallb_forall in H. exact (H c (in_all_ascii c)).
Qed.

Lemma quote_safe (s : string) : all_chars url_safe (quote s) = true.
Proof.
  induction s as [| c s IH]; cbn [quote]; [reflexivity|].
  rewrite all_chars_app, quote_char_safe, IH. reflexivity.
Qed.

Lemma quote_unreserved (s : string) :
  all_chars unreserved s = true -> quote s = s.
Proof.
  induction s as [| c s IH]; cbn [quote all_chars]; [reflexivity|].
  intros H. apply andb_prop in H as [Hc Hs]. rewrite (IH Hs).
  unfold quote_char. unfold unreserved in Hc. rewrite Hc. reflexivity.
Qed.

(** X5.  A search makes exactly one request, a GET of
    [<base>/api/v1/search?query=<q>] where [q] is the stripped query
    percent-encoded: [q] holds only letters, digits, [_.-~] and percent
    escapes, and is the stripped query itself when that holds nothing
    else. *)
Theorem search_request_encoded (query : string) (w : world) (n : nat) :
  let q := quote (strip query) in
  fst (run (search self query) w n)
  = [Called (HttpGet (fmt [base_url self; "/api/v1/search?query="; q]) [])
       (w n _ (HttpGet (fmt [base_url self; "/api/v1/search?query="; q]) []))]
  /\ all_chars url_safe q = true
  /\ (all_chars unreserved (strip query) = true -> q = strip query).
Proof.
  intros q. split; [| split; [apply quote_safe | apply quote_unreserved]].
  unfold search. fold q. rewrite run_bind, run_await.
  destruct (w n response _) as [resp | e]; [| reflexivity].
  cbn [List.length]. rewrite run_bind. unfold raise_for_status.
  destruct (400 <=? status resp)%Z; [reflexivity|].
  cbn [run List.length]. unfold resp_json. rewrite run_lift. reflexivity.
Qed.

Example quote_examples :
  quote "the matrix" = "the%20matrix" /\ quote "a/b?c=d&e" = "a%2Fb%3Fc%3Dd%26e"
  /\ quote "Dune-2.0_~" = "Dune-2.0_~".
Proof. repeat split; reflexivity. Qed.

End SearchRequest.

(* ------------------------------------------------------------------ *)
(** * Configuration *)
(* ------------------------------------------------------------------ *)

Section Configuration.
Import PyStr Py Config.

Lemma rstrip_by_empty_or_last (p : ascii -> bool) (s : string) :
  rstrip_by p s = "" \/ exists t c, rstrip_by p s = (t ++ String c "")%string
                                    /\ p c = false.
Proof.
  induction s as [| c s IH]; cbn [rstrip_by]; [left; reflexivity|].
  destruct IH as [-> | (t & c' & -> & Hc')].
  - cbn [is_empty andb]. destruct (p c) eqn:E; [left; reflexivity|].
    right. exists "", c. split; [reflexivity | exact E].
  - right. replace (is_empty (t ++ String c' "")) with false
      by (destruct t; reflexivity).
    cbn [andb]. exists (String c t), c'. split; [reflexivity | exact Hc'].
Qed.

Lemma ends_with_slash_last (t : string) (c : ascii) :
  ends_with_slash (t ++ String c "") = Ascii.eqb c "/".
Proof.
  induction t as [| a t IH]; [reflexivity|].
  cbn [String.append ends_with_slash]. rewrite IH.
  destruct (t ++ String c "")%string eqn:E; [destruct t; discriminate E | reflexivity].
Qed.

Lemma rstrip_slash_no_trailing (s : string) :
  ends_with_slash (rstrip_slash s) = false.
Proof.
  unfold rstrip_slash.
  destruct (rstrip_by_empty_or_last (fun c => Ascii.eqb c "/") s)
    as [-> | (t & c & -> & Hc)]; [reflexivity|].
  rewrite ends_with_slash_last. exact Hc.
Qed.

Lemma validate_config_passes (s : settings) :
  validate_config s = inr tt ->
  otruthy (TELEGRAM_BOT_TOKEN s) = true
  /\ is_empty (OVERSEERR_URL s) = false
  /\ otruthy (OVERSEERR_API_KEY s) = true.
Proof.
  unfold validate_config, missing_vars.
  destruct (otruthy (TELEGRAM_BOT_TOKEN s)), (is_empty (OVERSEERR_URL s)),
    (otruthy (OVERSEERR_API_KEY s)); cbn [negb app]; intros H;
    try discriminate H; auto.
Qed.

(** X6.  [validate_config] passes exactly when the bot token, the
    upstream address and the API key are all non-empty; otherwise it
    raises an error that names the missing variables. *)
Theorem validate_config_iff (s : settings) :
  (validate_config s = inr tt <->
   otruthy (TELEGRAM_BOT_TOKEN s) = true
   /\ is_empty (OVERSEERR_URL s) = false
   /\ otruthy (OVERSEERR_API_KEY s) = true)
  /\ (validate_config s <> inr tt ->
      exists names,
        names <> []
        /\ validate_config s
           = inl (RuntimeError
                    (fmt ["Missing required env vars: "; String.concat ", " names]))
        /\ (In "TELEGRAM_BOT_TOKEN" names <-> otruthy (TELEGRAM_BOT_TOKEN s) = false)
        /\ (In "OVERSEERR_URL" names <-> is_empty (OVERSEERR_URL s) = true)
        /\ (In "OVERSEERR_API_KEY" names <-> otruthy (OVERSEERR_API_KEY s) = false)).
Proof.
  unfold validate_config, missing_vars.
  destruct (otruthy (TELEGRAM_BOT_TOKEN s)), (is_empty (OVERSEERR_URL s)),
    (otruthy (OVERSEERR_API_KEY s)); cbn [negb app]; split.
  all: try (split; [intros H; discriminate H
                   | intros (H1 & H2 & H3); congruence]).
  all: try (split; [intros _; auto | reflexivity]).
  all: try (intros H; exfalso; apply H; reflexivity).
  all: intros _; eexists; (split; [| split; [reflexivity|]]); [discriminate|].
  all: cbn [In]; repeat split; intros H;
    repeat (destruct H as [H | H]); try discriminate H; try contradiction; auto.
Qed.

(** X7.  When the start-up accepts the environment, the client it builds
    has a non-empty base address that does not end with a slash (so that
    [<base>/api/...] has no doubled slash) and a non-empty API key; an
    address made of slashes only is rejected as missing. *)
Theorem startup_client_well_formed (env : environ) (c : Client.client) :
  startup env = inr c ->
  Client.base_url c <> ""
  /\ ends_with_slash (Client.base_url c) = false
  /\ Client.api_key c <> ""
  /\ Client.base_url c = OVERSEERR_URL (load env).
Proof.
  unfold startup. remember (load env) as s eqn:Es.
  destruct (validate_config s) as [e | []] eqn:Ev; [discriminate|].
  intros [= <-]. cbn [Client.base_url Client.api_key].
  apply validate_config_passes in Ev as (_ & Hu & Hk).
  split; [destruct (OVERSEERR_URL s); [discriminate Hu | discriminate]|].
  split; [subst s; exact (rstrip_slash_no_trailing _)|].
  split; [| reflexivity].
  destruct (OVERSEERR_API_KEY s) as [[| a k] |]; try discriminate Hk.
  discriminate.
Qed.

Lemma validate_config_iff_witness :
  validate_config (load env_slashes) <> inr tt
  /\ validate_config (load env_slashes)
     = inl (RuntimeError "Missing required env vars: OVERSEERR_URL")
  /\ validate_config (load env_ok) = inr tt.
Proof.
  assert (Hbad : validate_config (load env_slashes) <> inr tt) by discriminate.
  destruct (validate_config_iff (load env_slashes)) as [_ H].
  destruct (H Hbad) as (names & _ & Hn & _).
  destruct (validate_config_iff (load env_ok)) as [[_ Hok] _].
  split; [exact Hbad|]. split; [reflexivity|].
  apply Hok. repeat split.
Defined.

Lemma startup_client_well_formed_witness :
  startup env_ok
  = inr {| Client.base_url := "http://overseerr:5055"; Client.api_key := "key" |}
  /\ ends_with_slash "http://overseerr:5055" = false.
Proof.
  split; [reflexivity|].
  exact (proj1 (proj2 (startup_client_well_formed env_ok _ eq_refl))).
Defined.

(** X8.  The 4K default is on exactly when the variable REQUEST_4K is set
    to 1, true, yes or y, in any case of the ASCII letters and with any
    surrounding whitespace, that of Unicode included, which [strip]
    removes; unset, it is off. *)
Theorem default_4k_flag (env : environ) :
  (DEFAULT_IS_4K (load env) = true <->
   exists v, env "REQUEST_4K" = Some v
             /\ (eq_nocase (strip v) "1" = true \/ eq_nocase (strip v) "true" = true
                 \/ eq_nocase (strip v) "yes" = true
                 \/ eq_nocase (strip v) "y" = true))
  /\ (env "REQUEST_4K" = None -> DEFAULT_IS_4K (load env) = false).
Proof.
  assert (Hyes : forall v,
            is_yes (lower (strip v)) = true <->
            (eq_nocase (strip v) "1" = true \/ eq_nocase (strip v) "true" = true
             \/ eq_nocase (strip v) "yes" = true \/ eq_nocase (strip v) "y" = true)).
  { intros v. unfold is_yes.
    rewrite !lower_is by reflexivity. rewrite !orb_true_iff. tauto. }
  cbn [DEFAULT_IS_4K load]. unfold getenv_default. split.
  - destruct (env "REQUEST_4K") as [v |].
    + rewrite Hyes. split; [intros H; exists v; auto | intros (v' & [= <-] & H); exact H].
    + split; [discriminate | intros (v' & H & _); discriminate].
  - intros ->. reflexivity.
Qed.

Lemma default_4k_flag_witness :
  env_ok "REQUEST_4K" = Some " Yes " /\ DEFAULT_IS_4K (load env_ok) = true
  /\ env_slashes "TMDB_IMAGE_BASE" = None.
Proof.
  split; [reflexivity|]. split; [| reflexivity].
  apply (proj1 (default_4k_flag env_ok)).
  exists " Yes ". split; [reflexivity|]. right. right. left. reflexivity.
Defined.

End Configuration.

(* ------------------------------------------------------------------ *)
(** * The session of the client *)
(* ------------------------------------------------------------------ *)

Section SessionLifecycle.
Import Session.

Variable self : Client.client.

Lemma not_closed_fresh (st : state) (s : session) :
  session_wf st -> ident s = fresh st -> is_closed s st = false.
Proof.
  intros [_ Hc] Hi. unfold is_closed. rewrite Hi.
  induction (closed st) as [| i l IH]; [reflexivity|].
  inversion Hc as [| ? ? Hlt Hl]; subst. cbn [existsb].
  rewrite (IH Hl). destruct (Nat.eqb_spec (fresh st) i); [lia | reflexivity].
Qed.

Lemma create_wf (st : state) :
  session_wf st ->
  session_wf (fst (create self st))
  /\ _session (fst (create self st)) = Some (snd (create self st))
  /\ is_closed (snd (create self st)) (fst (create self st)) = false
  /\ ident (snd (create self st)) = fresh st.
Proof.
  intros Hwf. pose proof (not_closed_fresh st (snd (create self st)) Hwf eq_refl) as Hn.
  destruct Hwf as [Hs Hc]. cbn in *. repeat split; auto.
  - intros s [= <-]. cbn. lia.
  - eapply Forall_impl; [| exact Hc]. cbn. intros; lia.
Qed.

(** X9.  On a well-formed state, [_get_session] returns an open session
    that is the one stored in the client and carries the API key header;
    a second call returns that same session and changes nothing, so one
    session serves all requests until it is closed. *)
Theorem session_created_once (st : state) :
  session_wf st ->
  let (st1, s1) := _get_session self st in
  session_wf st1
  /\ _session st1 = Some s1
  /\ is_closed s1 st1 = false
  /\ (_session st = None -> headers s1 = [("X-Api-Key", Client.api_key self);
                                          ("Accept", "application/json")])
  /\ _get_session self st1 = (st1, s1).
Proof.
  intros Hwf. unfold _get_session.
  destruct (_session st) as [s |] eqn:Es.
  - destruct (is_closed s st) eqn:Ec; cbn [negb].
    + destruct (create_wf st Hwf) as (Hw & Hs & Hc & _).
      destruct (create self st) as [st1 s1] eqn:E. cbn [fst snd] in *.
      split; [exact Hw|]. split; [exact Hs|]. split; [exact Hc|].
      split; [discriminate|]. rewrite Hs, Hc. reflexivity.
    + split; [exact Hwf|]. split; [exact Es|]. split; [exact Ec|].
      split; [discriminate|]. rewrite Es, Ec. reflexivity.
  - destruct (create_wf st Hwf) as (Hw & Hs & Hc & _).
    destruct (create self st) as [st1 s1] eqn:E. cbn [fst snd] in *.
    split; [exact Hw|]. split; [exact Hs|]. split; [exact Hc|].
    split; [intros _; injection E as _ <-; reflexivity|].
    rewrite Hs, Hc. reflexivity.
Qed.

(** X10.  Closing releases the session and only that: after [close] the
    stored session is closed, no session is created, and a second
    [close] changes nothing; the next [_get_session] then creates a new
    session, different from the closed one, which stays closed. *)
Theorem session_recreated_after_close (st : state) (s : session) :
  session_wf st ->
  _session st = Some s ->
  is_closed s st = false ->
  let st1 := close st in
  is_closed s st1 = true
  /\ fresh st1 = fresh st
  /\ close st1 = st1
  /\ session_wf st1
  /\ let (st2, s2) := _get_session self st1 in
     ident s2 <> ident s
     /\ is_closed s2 st2 = false
     /\ is_closed s st2 = true
     /\ fresh st2 = S (fresh st).
Proof.
  intros Hwf Hs Hc st1. subst st1.
  assert (E0 : close st = {| fresh := fresh st; closed := ident s :: closed st;
                             _session := Some s |}).
  { unfold close. rewrite Hs, Hc. reflexivity. }
  rewrite E0. clear E0.
  remember {| fresh := fresh st; closed := ident s :: closed st;
              _session := Some s |} as st1 eqn:E1.
  assert (Hs1 : _session st1 = Some s) by (rewrite E1; reflexivity).
  assert (Hf : fresh st1 = fresh st) by (rewrite E1; reflexivity).
  assert (Hc1 : is_closed s st1 = true).
  { rewrite E1. unfold is_closed. cbn. rewrite Nat.eqb_refl. reflexivity. }
  assert (Hwf1 : session_wf st1).
  { rewrite E1. destruct Hwf as [Hlt Hcl]. split; cbn.
    - intros s' [= <-]. apply Hlt, Hs.
    - constructor; [apply Hlt, Hs | exact Hcl]. }
  split; [exact Hc1|]. split; [exact Hf|].
  split; [unfold close; rewrite Hs1, Hc1; reflexivity|].
  split; [exact Hwf1|].
  unfold _get_session. rewrite Hs1, Hc1. cbn [negb].
  destruct (create_wf st1 Hwf1) as (_ & _ & Hn & Hi).
  destruct (create self st1) as [st2 s2] eqn:E2. cbn [fst snd] in *.
  split; [rewrite Hi, Hf; destruct Hwf as [Hlt _]; specialize (Hlt s Hs); lia|].
  split; [exact Hn|].
  injection E2 as <- _. split; [| cbn; rewrite Hf; reflexivity].
  unfold is_closed in *. cbn [closed]. exact Hc1.
Qed.

End SessionLifecycle.

Section SessionExamples.
Import PyStr Py Session.

Lemma session_created_once_witness :
  session_wf init
  /\ fresh (fst (_get_session a_client init)) = 1%nat
  /\ _get_session a_client (fst (_get_session a_client init)) = _get_session a_client init.
Proof.
  assert (Hwf : session_wf init).
  { split; [intros s H; discriminate H | constructor]. }
  pose proof (session_created_once a_client init Hwf) as H.
  destruct (_get_session a_client init) as [st1 s1] eqn:E.
  destruct H as (_ & _ & _ & _ & Hre).
  split; [exact Hwf|]. split; [injection E as <- _; reflexivity|].
  cbn [fst]. exact Hre.
Defined.

Lemma session_recreated_after_close_witness :
  let (st0, s0) := _get_session a_client init in
  let (st2, s2) := _get_session a_client (close st0) in
  ident s0 = 0%nat /\ ident s2 = 1%nat /\ is_closed s0 st2 = true
  /\ is_closed s2 st2 = false.
Proof.
  assert (Hwf : session_wf (fst (_get_session a_client init))).
  { split; cbn; [intros s [= <-]; cbn; lia | constructor]. }
  pose proof (session_recreated_after_close a_client
                (fst (_get_session a_client init))
                (snd (_get_session a_client init)) Hwf eq_refl eq_refl) as H.
  cbn in H |- *. destruct H as (_ & _ & _ & _ & _ & Hopen & Hclosed & _).
  split; [reflexivity|]. split; [reflexivity|].
  split; [exact Hclosed | exact Hopen].
Defined.

End SessionExamples.

(* ------------------------------------------------------------------ *)
(** * Enrichment *)
(* ------------------------------------------------------------------ *)

Section Enrichment.
Import PyStr Py IO Handlers RunFacts.

Lemma dget_dset_same (k : string) (v : json) (d : dict) :
  dget k (dset k v d) = v.
Proof.
  induction d as [| [k' v'] d IH]; cbn; [rewrite String.eqb_refl; reflexivity|].
  destruct (String.eqb k k') eqn:E; cbn; rewrite E; [reflexivity | exact IH].
Qed.

Lemma dget_dset_other (k k' : string) (v : json) (d : dict) :
  k' <> k -> dget k' (dset k v d) = dget k' d.
Proof.
  intros Hne. induction d as [| [k0 v0] d IH]; cbn.
  - destruct (String.eqb_spec k' k); [contradiction | reflexivity].
  - destruct (String.eqb_spec k k0) as [-> | Hk]; cbn.
    + destruct (String.eqb_spec k' k0); [contradiction | reflexivity].
    + destruct (String.eqb k' k0); [reflexivity | exact IH].
Qed.

Lemma dmem_false_dget (k : string) (d : dict) : dmem k d = false -> dget k d = JNull.
Proof.
  induction d as [| [k' v] d IH]; cbn; [reflexivity|].
  destruct (String.eqb k k'); [discriminate | exact IH].
Qed.

Lemma dget_dupdate (k : string) (other d : dict) :
  NoDup (map fst other) ->
  dget k (dupdate d other) = if dmem k other then dget k other else dget k d.
Proof.
  unfold dupdate. revert d.
  induction other as [| [k' v] other IH]; intros d Hnd; cbn [fold_left dmem dget fst snd];
    [reflexivity|].
  inversion Hnd as [| ? ? Hnotin Hnd']; subst.
  rewrite (IH _ Hnd').
  destruct (String.eqb_spec k k') as [-> | Hne]; cbn [orb].
  - assert (Hm : dmem k' other = false).
    { clear -Hnotin. induction other as [| [k0 v0] other IH]; cbn; [reflexivity|].
      cbn in Hnotin. destruct (String.eqb_spec k' k0) as [-> | _]; [tauto|].
      apply IH. tauto. }
    rewrite Hm. apply dget_dset_same.
  - destruct (dmem k other); [reflexivity | apply dget_dset_other, Hne].
Qed.

(** X11.  Merging a non-empty ratings object into a details object
    changes only its [ratings] entry: every other key reads as before;
    when the details had no ratings object the payload becomes the
    entry, and when they had one, each key of the payload overrides the
    old value and every other old key is kept. *)
Theorem merge_ratings_lookup (d r : dict) :
  r <> [] ->
  NoDup (map fst r) ->
  exists d',
    merge_ratings (JDict d) (JDict r) = Ok (JDict d')
    /\ (forall k, k <> "ratings" -> dget k d' = dget k d)
    /\ match dget "ratings" d with
       | JDict old =>
           exists merged,
             dget "ratings" d' = JDict merged
             /\ forall k, dget k merged
                          = if dmem k r then dget k r else dget k old
       | _ => dget "ratings" d' = JDict r
       end.
Proof.
  intros Hne Hnd. unfold merge_ratings.
  assert (Ht : truthy (JDict r) = true) by (destruct r; [congruence | reflexivity]).
  rewrite Ht.
  destruct (dget "ratings" d) eqn:Er; cbn [set_ratings];
    (eexists; split; [reflexivity|]; split;
     [intros k Hk; apply dget_dset_other; exact Hk|]);
    try apply dget_dset_same.
  eexists. split; [apply dget_dset_same|].
  intros k. apply dget_dupdate, Hnd.
Qed.

Lemma merge_ratings_lookup_witness :
  let d := [("title", JStr "Dune");
            ("ratings", JDict [("criticsScore", JInt 1); ("url", JStr "u")])] in
  let r := [("criticsScore", JInt 83); ("audienceScore", JInt 90)] in
  exists d',
    merge_ratings (JDict d) (JDict r) = Ok (JDict d')
    /\ dget "title" d' = JStr "Dune"
    /\ exists merged, dget "ratings" d' = JDict merged
         /\ dget "criticsScore" merged = JInt 83
         /\ dget "url" merged = JStr "u".
Proof.
  intros d r.
  assert (Hnd : NoDup (map fst r)).
  { repeat constructor; cbn; intuition discriminate. }
  destruct (merge_ratings_lookup d r ltac:(discriminate) Hnd) as (d' & Hm & Hk & Hr).
  exists d'. split; [exact Hm|]. split; [apply Hk; discriminate|].
  cbn in Hr. destruct Hr as (merged & Hg & Hl). exists merged.
  split; [exact Hg|]. split; [apply (Hl "criticsScore") | apply (Hl "url")].
Defined.

Lemma try_catch_default_run {A} (p : io A) (x : A) (w : world) (n : nat) :
  run (try_catch p (fun _ => Ret x)) w n
  = let (t, r) := run p w n in
    (t, Ok (match r with Ok a => a | Err _ => x end)).
Proof.
  rewrite run_try_catch. destruct (run p w n) as [t [a | e]]; cbn; [reflexivity|].
  rewrite app_nil_r. reflexivity.
Qed.

Lemma enrich_run (client : Client.client) (mt : json) (it : dict) (id : Z) (w : world) (n : nat) :
  is_None (dget "id" it) = false ->
  py_int (dget "id" it) = Ok id ->
  run (enrich client mt (JDict it)) w n
  = match run (Client.get_details client mt id) w n with
    | (t1, Err _) => (t1, Ok (JDict []))
    | (t1, Ok details) =>
        match run (Client.get_ratings client mt id) w (n + List.length t1) with
        | (t2, Err _) => (t1 ++ t2, Ok details)
        | (t2, Ok ratings) =>
            (t1 ++ t2,
             Ok (match merge_ratings details ratings with
                 | Ok merged => merged
                 | Err _ => details
                 end))
        end
    end.
Proof.
  intros Hnn Hint. unfold enrich. rewrite try_catch_default_run.
  rewrite run_bind, run_lift. cbn [py_get List.length Nat.add app]. rewrite Hnn.
  cbn [negb]. rewrite Nat.add_0_r, run_bind, run_lift, Hint.
  cbn [List.length Nat.add app]. rewrite Nat.add_0_r, run_bind.
  destruct (run (Client.get_details client mt id) w n) as [t1 [details | e]];
    [| reflexivity].
  rewrite try_catch_default_run, run_bind, run_lift.
  cbn [List.length app]. rewrite Nat.add_0_r, run_bind.
  destruct (run (Client.get_ratings client mt id) w (n + List.length t1))
    as [t2 [ratings | e]]; [| reflexivity].
  rewrite run_lift. cbn [app]. rewrite app_nil_r.
  destruct (merge_ratings details ratings); reflexivity.
Qed.

(** X12.  Enrichment never raises, whatever the item and whatever the
    upstream answers: its outcome is always a value.  It makes no
    request when the item has no id; it is [{}] when the details call
    fails; and when the details call succeeds and the ratings call
    fails, it is the details as they were fetched. *)
Theorem enrichment_degrades (client : Client.client) (mt item : json) (w : world) (n : nat) :
  (exists details, snd (run (enrich client mt item) w n) = Ok details)
  /\ (forall it, item = JDict it -> dget "id" it = JNull ->
      run (enrich client mt item) w n = ([], Ok (JDict [])))
  /\ (forall it id t1,
        item = JDict it -> is_None (dget "id" it) = false ->
        py_int (dget "id" it) = Ok id ->
        (forall e, run (Client.get_details client mt id) w n = (t1, Err e) ->
           run (enrich client mt item) w n = (t1, Ok (JDict [])))
        /\ (forall details t2 e,
              run (Client.get_details client mt id) w n = (t1, Ok details) ->
              run (Client.get_ratings client mt id) w (n + List.length t1)
              = (t2, Err e) ->
              run (enrich client mt item) w n = (t1 ++ t2, Ok details))).
Proof.
  split; [| split].
  - unfold enrich. rewrite try_catch_default_run.
    destruct (run _ w n) as [t r]. eexists. reflexivity.
  - intros it -> Hid. unfold enrich. rewrite try_catch_default_run.
    rewrite run_bind, run_lift. cbn [py_get]. rewrite Hid. reflexivity.
  - intros it id t1 -> Hnn Hint. rewrite (enrich_run client mt it id w n Hnn Hint). split.
    + intros e He. rewrite He. reflexivity.
    + intros details t2 e Hd Hr. rewrite Hd, Hr. reflexivity.
Qed.

Lemma enrichment_degrades_witness :
  let item := JDict [("id", JInt 603); ("mediaType", JStr "movie")] in
  run (enrich a_client (JStr "movie") item) world_404 0
  = ([Called (HttpGet "http://overseerr:5055/api/v1/movie/603" []) (Ok not_found)],
     Ok (JDict [])).
Proof.
  intros item.
  destruct (enrichment_degrades a_client (JStr "movie") item world_404 0)
    as (_ & _ & H).
  destruct (H [("id", JInt 603); ("mediaType", JStr "movie")] 603%Z
              [Called (HttpGet "http://overseerr:5055/api/v1/movie/603" [])
                 (Ok not_found)]
              eq_refl eq_refl eq_refl) as [Hfail _].
  exact (Hfail _ eq_refl).
Defined.

End Enrichment.

(* ------------------------------------------------------------------ *)
(** * Bounds on what a handler does *)
(* ------------------------------------------------------------------ *)

Section Bounds.
Import PyStr Py IO Handlers RunFacts.

Lemma count_bind {A B} (f : event -> bool) (m1 m2 : nat) (p : io A)
    (k : A -> io B) :
  count_at_most f m1 p -> (forall a, count_at_most f m2 (k a)) ->
  count_at_most f (m1 + m2) (bind p k).
Proof.
  intros Hp Hk w n. rewrite run_bind. specialize (Hp w n).
  destruct (run p w n) as [t [a | e]]; cbn [fst] in *; [| lia].
  specialize (Hk a w (n + List.length t)%nat).
  destruct (run (k a) w (n + List.length t)) as [t' r]. cbn [fst] in *.
  rewrite filter_app, length_app. lia.
Qed.

Lemma count_try_catch {A} (f : event -> bool) (m1 m2 : nat) (p : io A)
    (h : exn -> io A) :
  count_at_most f m1 p -> (forall e, count_at_most f m2 (h e)) ->
  count_at_most f (m1 + m2) (try_catch p h).
Proof.
  intros Hp Hh w n. rewrite run_try_catch. specialize (Hp w n).
  destruct (run p w n) as [t [a | e]]; cbn [fst] in *; [lia|].
  specialize (Hh e w (n + List.length t)%nat).
  destruct (run (h e) w (n + List.length t)) as [t' r]. cbn [fst] in *.
  rewrite filter_app, length_app. lia.
Qed.

Lemma count_weaken {A} (f : event -> bool) (m m' : nat) (p : io A) :
  (m <= m')%nat -> count_at_most f m p -> count_at_most f m' p.
Proof. intros Hle H w n. specialize (H w n). lia. Qed.

Lemma count_lift {A} (f : event -> bool) (r : result A) :
  count_at_most f 0 (lift r).
Proof. intros w n. rewrite run_lift. cbn. lia. Qed.

Lemma count_ret {A} (f : event -> bool) (a : A) : count_at_most f 0 (Ret a).
Proof. intros w n. cbn. lia. Qed.

Lemma count_raise {A} (f : event -> bool) (e : exn) :
  count_at_most f 0 (@Raise A e).
Proof. intros w n. cbn. lia. Qed.

Lemma count_await {X} (f : event -> bool) (c : call X) :
  count_at_most f 1 (await c).
Proof.
  intros w n. rewrite run_await. cbn [fst filter].
  destruct (f _); cbn; lia.
Qed.

Lemma count_await_none {X} (f : event -> bool) (c : call X) :
  (forall r, f (Called c r) = false) -> count_at_most f 0 (await c).
Proof.
  intros H w n. rewrite run_await. cbn [fst filter]. rewrite H. cbn. lia.
Qed.

Lemma count_log (f : event -> bool) (m : string) :
  f (Logged m) = false -> count_at_most f 0 (log m).
Proof. intros H w n. cbn. rewrite H. cbn. lia. Qed.

Lemma count_for_each {A} (f : event -> bool) (k : nat) (xs : list A)
    (body : A -> io unit) :
  (forall x, count_at_most f k (body x)) ->
  count_at_most f (k * List.length xs) (for_each xs body).
Proof.
  intros Hb. induction xs as [| x xs IH]; cbn [for_each List.length].
  - rewrite Nat.mul_0_r. apply count_ret.
  - replace (k * S (List.length xs))%nat with (k + k * List.length xs)%nat by lia.
    apply count_bind; [apply Hb | intros _; exact IH].
Qed.

End Bounds.

Ltac count_step :=
  match goal with
  | |- count_at_most _ _ (IO.lift _) =>
      eapply count_weaken; [| apply count_lift]; lia
  | |- count_at_most _ _ (IO.Ret _) =>
      eapply count_weaken; [| apply count_ret]; lia
  | |- count_at_most _ _ (IO.Raise _) =>
      eapply count_weaken; [| apply count_raise]; lia
  | |- count_at_most _ _ (IO.log _) =>
      eapply count_weaken; [| apply count_log; reflexivity]; lia
  | |- count_at_most _ _ (if ?b then _ else _) => destruct b
  | |- count_at_most _ _ (match ?x with Some _ => _ | None => _ end) => destruct x
  end.

Section HandlerBounds.
Import PyStr Py IO Client Handlers RunFacts.

Variable cfg : config.
Variable client : Client.client.

Lemma calls_raise_for_status (url : string) (resp : response) :
  count_at_most is_upstream 0 (raise_for_status url resp).
Proof. unfold raise_for_status. repeat count_step. Qed.

(** One exchange with the upstream: a request, then the reading of its
    answer. *)
Lemma calls_exchange {X} (c : call X) (k : X -> io json) :
  (forall x, count_at_most is_upstream 0 (k x)) ->
  count_at_most is_upstream 1 (bind (await c) k).
Proof.
  intros Hk. apply (count_bind _ 1 0); [apply count_await | exact Hk].
Qed.

Lemma calls_tail (url : string) (resp : response) :
  count_at_most is_upstream 0
    (bind (raise_for_status url resp) (fun _ => resp_json resp)).
Proof.
  apply (count_bind _ 0 0); [apply calls_raise_for_status|].
  intros _. unfold resp_json. apply count_lift.
Qed.

Lemma calls_search (q : string) : count_at_most is_upstream 1 (search client q).
Proof. unfold search. apply calls_exchange. intros resp. apply calls_tail. Qed.

Lemma calls_create mid mt seasons is4k :
  count_at_most is_upstream 1 (create_request client mid mt seasons is4k).
Proof. unfold create_request. apply calls_exchange. intros resp. apply calls_tail. Qed.

Lemma calls_approve rid is4k :
  count_at_most is_upstream 1 (approve_request client rid is4k).
Proof. unfold approve_request. apply calls_exchange. intros resp. apply calls_tail. Qed.

Lemma calls_get_details mt id :
  count_at_most is_upstream 1 (get_details client mt id).
Proof.
  unfold get_details, get_movie_details, get_tv_details.
  destruct (eq_str mt "movie");
    [apply calls_exchange; intros resp; apply calls_tail|].
  destruct (eq_str mt "tv");
    [apply calls_exchange; intros resp; apply calls_tail|].
  eapply count_weaken; [| apply count_ret]. lia.
Qed.

Lemma calls_get_ratings mt id :
  count_at_most is_upstream 1 (get_ratings client mt id).
Proof.
  unfold get_ratings. apply calls_exchange. intros resp.
  destruct (status resp =? 404)%Z; [apply count_ret | apply calls_tail].
Qed.

Lemma calls_recommendations kind id page :
  count_at_most is_upstream 1
    (if String.eqb kind "tv" then get_tv_recommendations client id page
     else get_movie_recommendations client id page).
Proof.
  destruct (String.eqb kind "tv");
    [unfold get_tv_recommendations | unfold get_movie_recommendations];
    apply calls_exchange; intros resp;
    (destruct (status resp =? 404)%Z; [apply count_ret | apply calls_tail]).
Qed.

Lemma calls_enrich mt item : count_at_most is_upstream 2 (enrich client mt item).
Proof.
  unfold enrich. apply (count_try_catch _ 2 0); [| intros _; apply count_ret].
  apply (count_bind _ 0 2); [apply count_lift | intros id].
  destruct (negb (is_None id)); [| eapply count_weaken; [| apply count_ret]; lia].
  apply (count_bind _ 0 2); [apply count_lift | intros tmdb].
  apply (count_bind _ 1 1); [apply calls_get_details | intros details].
  apply (count_try_catch _ 1 0); [| intros _; apply count_ret].
  apply (count_bind _ 0 1); [apply count_lift | intros tmdb'].
  apply (count_bind _ 1 0); [apply calls_get_ratings | intros r; apply count_lift].
Qed.

Lemma calls_say (text : string) : count_at_most is_upstream 0 (say text).
Proof. unfold say. apply count_await_none. reflexivity. Qed.

Lemma calls_send_card poster caption kb :
  count_at_most is_upstream 0 (send_card cfg poster caption kb).
Proof.
  unfold send_card. apply (count_try_catch _ 0 0).
  - destruct (truthy poster); apply count_await_none; reflexivity.
  - intros _. apply count_await_none. reflexivity.
Qed.

Lemma calls_present_result item :
  count_at_most is_upstream 2 (present_result cfg client item).
Proof.
  unfold present_result.
  apply (count_bind _ 0 2); [apply count_lift | intros poster].
  apply (count_bind _ 0 2); [apply count_lift | intros base].
  apply (count_bind _ 0 2); [apply count_lift | intros mt].
  apply (count_bind _ 2 0); [apply calls_enrich | intros details].
  apply (count_bind _ 0 0); [apply count_lift | intros caption].
  apply (count_bind _ 0 0); [apply count_lift | intros kb].
  apply calls_send_card.
Qed.

Lemma calls_present_recommendation mt item :
  count_at_most is_upstream 2 (present_recommendation cfg client mt item).
Proof.
  unfold present_recommendation.
  apply (count_bind _ 0 2); [apply count_lift | intros poster].
  apply (count_bind _ 0 2); [apply count_lift | intros base].
  apply (count_bind _ 2 0); [apply calls_enrich | intros details].
  apply (count_bind _ 0 0); [apply count_lift | intros caption].
  apply (count_bind _ 0 0); [apply count_lift | intros kb].
  apply calls_send_card.
Qed.

Lemma firstn_ten_bound {A} (k : nat) (l : list A) :
  (k * List.length (firstn 10 l) <= k * 10)%nat.
Proof. rewrite length_firstn. nia. Qed.

Lemma calls_on_query (u : update) :
  count_at_most is_upstream 21 (on_query cfg client u).
Proof.
  unfold on_query.
  destruct (negb (_is_owner cfg u)); [eapply count_weaken; [| apply count_ret]; lia|].
  destruct (is_empty _); [eapply count_weaken; [| apply calls_say]; lia|].
  apply (count_bind _ 1 20).
  - apply (count_try_catch _ 1 0).
    + apply (count_bind _ 1 0); [apply calls_search | intros d; apply count_ret].
    + intros e. apply (count_bind _ 0 0); [apply count_log; reflexivity | intros _].
      apply (count_bind _ 0 0); [apply calls_say | intros _; apply count_ret].
  - intros [data |]; [| eapply count_weaken; [| apply count_ret]; lia].
    apply (count_bind _ 0 20); [apply count_lift | intros results].
    destruct results as [| r rs]; [eapply count_weaken; [| apply calls_say]; lia|].
    apply (count_bind _ 0 20); [apply count_lift | intros filtered].
    eapply count_weaken; [| apply (count_for_each _ 2), calls_present_result].
    apply (firstn_ten_bound 2).
Qed.

Lemma calls_recommend mt ids :
  count_at_most is_upstream 21 (recommend cfg client mt ids).
Proof.
  unfold recommend. destruct (parse_id ids) as [id |];
    [| eapply count_weaken; [| apply calls_say]; lia].
  apply (count_try_catch _ 21 0).
  - apply (count_bind _ 1 20); [apply calls_recommendations | intros rec].
    apply (count_bind _ 0 20); [apply count_lift | intros results].
    destruct results as [| r rs]; [eapply count_weaken; [| apply calls_say]; lia|].
    eapply count_weaken;
      [| apply (count_for_each _ 2), calls_present_recommendation].
    apply (firstn_ten_bound 2).
  - intros e. apply (count_bind _ 0 0); [apply count_log; reflexivity | intros _].
    apply calls_say.
Qed.

Lemma calls_request mt ids :
  count_at_most is_upstream 2 (request cfg client mt ids).
Proof.
  unfold request. destruct (parse_id ids) as [id |].
  - apply (count_try_catch _ 2 0).
    + apply (count_bind _ 1 1); [apply calls_create | intros created].
      apply (count_bind _ 0 1); [apply count_lift | intros rid].
      apply (count_bind _ 1 0).
      * destruct (negb (is_None rid)); [| eapply count_weaken; [| apply count_ret]; lia].
        apply (count_try_catch _ 1 0).
        -- apply (count_bind _ 1 0); [apply calls_approve | intros _; apply count_ret].
        -- intros _. apply count_log. reflexivity.
      * intros _. apply (count_bind _ 0 0);
          [apply count_await_none; reflexivity | intros _; apply calls_say].
    + intros e. apply (count_bind _ 0 0); [apply count_log; reflexivity | intros _].
      apply calls_say.
  - eapply count_weaken; [| apply (count_bind _ 0 0);
                            [apply count_await_none; reflexivity
                            | intros _; apply calls_say]]. lia.
Qed.

Lemma calls_on_callback (u : update) :
  count_at_most is_upstream 21 (on_callback cfg client u).
Proof.
  unfold on_callback.
  destruct (negb (_is_owner cfg u));
    [eapply count_weaken; [| apply count_await_none; reflexivity]; lia|].
  apply (count_bind _ 0 21); [apply count_await_none; reflexivity | intros _].
  destruct (startswith "req|" _).
  - apply (count_bind _ 0 21); [apply count_lift | intros parts].
    eapply count_weaken; [| apply calls_request]. lia.
  - destruct (startswith "rec|" _); [| eapply count_weaken; [| apply count_ret]; lia].
    apply (count_bind _ 0 21); [apply count_lift | intros parts].
    apply calls_recommend.
Qed.

(** X13.  Whatever the upstream and the chat transport answer, one text
    message makes at most 21 upstream requests (the search, then details
    and ratings for at most ten results), and one button tap makes at
    most 21 as well (two for a Download: create and approve). *)
Theorem upstream_requests_bounded (u : update) (w : world) :
  (upstream_calls (trace (on_query cfg client u) w) <= 21)%nat
  /\ (upstream_calls (trace (on_callback cfg client u) w) <= 21)%nat
  /\ (forall mt ids n,
        (upstream_calls (fst (run (request cfg client mt ids) w n)) <= 2)%nat).
Proof.
  split; [apply calls_on_query|]. split; [apply calls_on_callback|].
  intros mt ids n. apply calls_request.
Qed.

End HandlerBounds.

(* ------------------------------------------------------------------ *)
(** * Button taps *)
(* ------------------------------------------------------------------ *)

Section Taps.
Import PyStr Py IO Client Handlers RunFacts Quiet QuietFacts.

Variable cfg : config.
Variable client : Client.client.

Lemma prefix_cons (a b : ascii) (p s : string) :
  prefix (String a p) (String b s) = Ascii.eqb a b && prefix p s.
Proof.
  cbn [prefix]. destruct (ascii_dec a b) as [-> | Hn].
  - rewrite Ascii.eqb_refl. reflexivity.
  - destruct (Ascii.eqb_spec a b); [contradiction | reflexivity].
Qed.

Lemma prefix_nil_r (a : ascii) (p : string) : prefix (String a p) "" = false.
Proof. reflexivity. Qed.

Lemma rec_not_req (data : string) :
  startswith "rec|" data = true -> startswith "req|" data = false.
Proof.
  unfold startswith. destruct data as [| a [| b [| c s]]];
    rewrite ?prefix_cons, ?prefix_nil_r, ?andb_false_r; try discriminate.
  destruct (Ascii.eqb_spec "r" a) as [<- |]; [| discriminate].
  destruct (Ascii.eqb_spec "e" b) as [<- |]; [| discriminate].
  destruct (Ascii.eqb_spec "c" c) as [<- |]; [| discriminate].
  intros _. reflexivity.
Qed.

Lemma splitn_length (n : nat) (sep : ascii) (acc s : string) :
  List.length (splitn n sep acc s) = S (Nat.min n (count_char sep s)).
Proof.
  revert n acc. induction s as [| c s IH]; intros n acc; cbn [splitn count_char].
  - rewrite Nat.min_0_r. reflexivity.
  - destruct n as [| n]; [reflexivity|].
    destruct (Ascii.eqb c sep); cbn [List.length].
    + rewrite IH. reflexivity.
    + rewrite IH. reflexivity.
Qed.

Lemma unpack_token_short (data : string) :
  count_char "|" data = 1%nat ->
  unpack_token data
  = Err (ValueError "not enough values to unpack (expected 3, got 2)").
Proof.
  intros H. pose proof (splitn_length 2 "|" "" data) as Hl. rewrite H in Hl.
  unfold unpack_token.
  destruct (splitn 2 "|" "" data) as [| a [| b [| c l]]]; try discriminate.
  reflexivity.
Qed.

Lemma unpack_token_full (data : string) :
  (2 <= count_char "|" data)%nat ->
  exists mt ids, unpack_token data = Ok (mt, ids).
Proof.
  intros H. pose proof (splitn_length 2 "|" "" data) as Hl.
  rewrite Nat.min_l in Hl by exact H.
  unfold unpack_token.
  destruct (splitn 2 "|" "" data) as [| a [| b [| c [| d l]]]]; try discriminate.
  eauto.
Qed.

Lemma known_action_count (data : string) :
  known_action data = true -> (1 <= count_char "|" data)%nat.
Proof.
  unfold known_action, startswith.
  destruct data as [| a [| b [| c [| d s]]]];
    rewrite ?prefix_cons, ?prefix_nil_r, ?andb_false_r; try discriminate.
  rewrite prefix_empty, !andb_true_r. intros H.
  assert (Hd : Ascii.eqb "|" d = true).
  { apply orb_true_iff in H. destruct H as [H | H];
      repeat (apply andb_true_iff in H; destruct H as [? H]); exact H. }
  apply Ascii.eqb_eq in Hd. subst d. cbn [count_char].
  rewrite Ascii.eqb_refl. lia.
Qed.

Lemma tap_req_run (u : update) (w : world) (data mt ids : string) :
  _is_owner cfg u = true -> chat_delivers w ->
  query_data u = Some data -> startswith "req|" data = true ->
  unpack_token data = Ok (mt, ids) ->
  run (on_callback cfg client u) w 0
  = (Called Answer (Ok tt) :: fst (run (request cfg client mt ids) w 1),
     snd (run (request cfg client mt ids) w 1)).
Proof.
  intros Ho Hc Hd Hpre Hun. unfold on_callback. rewrite Ho, Hd, Hpre. cbn [negb].
  rewrite run_bind, run_await, (delivers_answer w Hc). cbn [List.length Nat.add].
  rewrite run_bind, run_lift, Hun. cbn [List.length Nat.add fst snd app].
  destruct (run (request cfg client mt ids) w 1). reflexivity.
Qed.

Lemma tap_rec_run (u : update) (w : world) (data mt ids : string) :
  _is_owner cfg u = true -> chat_delivers w ->
  query_data u = Some data -> startswith "rec|" data = true ->
  unpack_token data = Ok (mt, ids) ->
  run (on_callback cfg client u) w 0
  = (Called Answer (Ok tt) :: fst (run (recommend cfg client mt ids) w 1),
     snd (run (recommend cfg client mt ids) w 1)).
Proof.
  intros Ho Hc Hd Hpre Hun. unfold on_callback.
  rewrite Ho, Hd, (rec_not_req data Hpre), Hpre. cbn [negb].
  rewrite run_bind, run_await, (delivers_answer w Hc). cbn [List.length Nat.add].
  rewrite run_bind, run_lift, Hun. cbn [List.length Nat.add fst snd app].
  destruct (run (recommend cfg client mt ids) w 1). reflexivity.
Qed.

Lemma report_run (label text : string) (w : world) (n : nat) :
  chat_delivers w ->
  run (bind (log label) (fun _ => say text)) w n
  = ([Logged label; notice text (Ok tt)], Ok tt).
Proof.
  intros Hc. unfold log. cbn [bind run]. rewrite run_say, (delivers_text w Hc).
  reflexivity.
Qed.

Lemma try_catch_total (p : io unit) (h : exn -> io unit) (w : world) (n : nat) :
  (forall e m, snd (run (h e) w m) = Ok tt) ->
  snd (run (try_catch p h) w n) = Ok tt.
Proof.
  intros Hh. rewrite run_try_catch.
  destruct (run p w n) as [t [[] | e]]; [reflexivity|].
  specialize (Hh e (n + List.length t)%nat).
  destruct (run (h e) w (n + List.length t)). exact Hh.
Qed.

Lemma request_total (mt ids : string) (w : world) (n : nat) :
  chat_delivers w -> snd (run (request cfg client mt ids) w n) = Ok tt.
Proof.
  intros Hc. unfold request. destruct (parse_id ids).
  - apply try_catch_total. intros e m. rewrite (report_run _ _ w m Hc). reflexivity.
  - rewrite run_bind, run_await, (delivers_edit w Hc). cbn [List.length].
    rewrite run_say, (delivers_text w Hc). reflexivity.
Qed.

Lemma recommend_total (mt ids : string) (w : world) (n : nat) :
  chat_delivers w -> snd (run (recommend cfg client mt ids) w n) = Ok tt.
Proof.
  intros Hc. unfold recommend. destruct (parse_id ids).
  - apply try_catch_total. intros e m. rewrite (report_run _ _ w m Hc). reflexivity.
  - rewrite run_say, (delivers_text w Hc). reflexivity.
Qed.

Lemma tap_unknown_run (u : update) (w : world) :
  known_action (tap_data u) = false ->
  run (on_callback cfg client u) w 0
  = ([Called Answer (w 0%nat unit Answer)], w 0%nat unit Answer).
Proof.
  intros H. apply orb_false_elim in H as [H1 H2].
  unfold on_callback. cbv zeta. fold (tap_data u). rewrite H1, H2.
  destruct (negb (_is_owner cfg u)); [apply run_await|].
  rewrite run_bind, run_await.
  destruct (w 0%nat unit Answer) as [[] | e]; reflexivity.
Qed.

(** X14.  A tap whose data names neither action (missing data included)
    is acknowledged and nothing else happens, whoever the caller is and
    whatever the transport answers: the acknowledgement is the only call,
    so no message is sent, no upstream request is made and the buttons
    are not edited; the handler ends as the acknowledgement ended. *)
Theorem unknown_action_ignored (u : update) (w : world) :
  known_action (tap_data u) = false ->
  trace (on_callback cfg client u) w = [Called Answer (w 0%nat unit Answer)]
  /\ snd (run (on_callback cfg client u) w 0) = w 0%nat unit Answer
  /\ messages (trace (on_callback cfg client u) w) = []
  /\ upstream_calls (trace (on_callback cfg client u) w) = 0%nat
  /\ existsb is_edit (trace (on_callback cfg client u) w) = false.
Proof.
  intros H. unfold trace. rewrite (tap_unknown_run u w H). cbn [fst snd].
  split; [reflexivity|]. split; [reflexivity|].
  split; [reflexivity|]. split; reflexivity.
Qed.

(** X15.  Over a delivering chat transport, a tap of an authorized
    caller ends normally exactly when its data names no action or holds
    at least two separators.  With a known action and one separator only,
    unpacking the token raises [ValueError] out of the handler, after the
    tap has been acknowledged and before anything else is done. *)
Theorem tap_ends_normally_iff (u : update) (w : world) :
  _is_owner cfg u = true -> chat_delivers w ->
  (snd (run (on_callback cfg client u) w 0) = Ok tt
   <-> known_action (tap_data u) = false
       \/ (2 <= count_char "|" (tap_data u))%nat)
  /\ (known_action (tap_data u) = true ->
      count_char "|" (tap_data u) = 1%nat ->
      run (on_callback cfg client u) w 0
      = ([Called Answer (Ok tt)],
         Err (ValueError "not enough values to unpack (expected 3, got 2)"))).
Proof.
  intros Ho Hc.
  assert (Hshort : known_action (tap_data u) = true ->
                   count_char "|" (tap_data u) = 1%nat ->
                   run (on_callback cfg client u) w 0
                   = ([Called Answer (Ok tt)],
                      Err (ValueError
                             "not enough values to unpack (expected 3, got 2)"))).
  { intros Hk H1. unfold on_callback. cbv zeta. fold (tap_data u).
    rewrite Ho. cbn [negb].
    rewrite run_bind, run_await, (delivers_answer w Hc). cbn [List.length Nat.add].
    unfold known_action in Hk.
    destruct (startswith "req|" (tap_data u)).
    - rewrite run_bind, run_lift, (unpack_token_short _ H1). reflexivity.
    - cbn [orb] in Hk. rewrite Hk.
      rewrite run_bind, run_lift, (unpack_token_short _ H1). reflexivity. }
  split; [| exact Hshort]. split.
  - intros Hok. destruct (known_action (tap_data u)) eqn:Hk; [| left; reflexivity].
    right. pose proof (known_action_count _ Hk) as H1.
    destruct (Nat.eq_dec (count_char "|" (tap_data u)) 1) as [E | E]; [| lia].
    rewrite (Hshort eq_refl E) in Hok. discriminate.
  - intros [Hk | H2].
    + rewrite (tap_unknown_run u w Hk). apply (delivers_answer w Hc).
    + destruct (unpack_token_full _ H2) as (mt & ids & Hun).
      destruct (query_data u) as [data |] eqn:Hd.
      * unfold tap_data in Hun. rewrite Hd in Hun.
        destruct (startswith "req|" data) eqn:E1.
        -- rewrite (tap_req_run u w data mt ids Ho Hc Hd E1 Hun).
           apply request_total, Hc.
        -- destruct (startswith "rec|" data) eqn:E2.
           ++ rewrite (tap_rec_run u w data mt ids Ho Hc Hd E2 Hun).
              apply recommend_total, Hc.
           ++ rewrite tap_unknown_run;
                [apply (delivers_answer w Hc)|].
              unfold known_action, tap_data. rewrite Hd, E1, E2. reflexivity.
      * unfold tap_data in H2. rewrite Hd in H2. cbn in H2. lia.
Qed.

Lemma recommendations_run (mt : string) (id : Z) (w : world) (n : nat) :
  run (get_recommendations client mt id 1) w n
  = let call := HttpGet (recommendations_url client (kind_of mt) id) [("page", 1%Z)] in
    ([Called call (w n _ call)],
     match w n _ call with
     | Err e => Err e
     | Ok resp =>
         if (status resp =? 404)%Z then Ok empty_results
         else if (400 <=? status resp)%Z
              then Err (upstream_error
                          (real_url (recommendations_url client (kind_of mt) id)
                             [("page", 1%Z)]) resp)
              else body resp
     end).
Proof.
  unfold get_recommendations, kind_of.
  destruct (String.eqb mt "tv");
    rewrite recommendations_url_eq by auto; cbn [String.append];
    [unfold get_tv_recommendations | unfold get_movie_recommendations];
    rewrite run_bind, run_await; cbv zeta;
    match goal with
    | |- context [w n response ?c] => destruct (w n response c) as [resp | e]
    end; try reflexivity; cbn [List.length];
    (destruct (status resp =? 404)%Z; [reflexivity|]);
    rewrite run_bind; unfold raise_for_status;
    (destruct (400 <=? status resp)%Z; [reflexivity|]);
    cbn [run List.length]; unfold resp_json; rewrite run_lift;
    destruct (body resp); reflexivity.
Qed.

Lemma recommend_run (mt ids : string) (id : Z) (w : world) (n : nat) :
  chat_delivers w ->
  int_of_str ids = Some id ->
  forall t1,
  (forall rec,
     run (get_recommendations client mt id 1) w n = (t1, Ok (JDict rec)) ->
     truthy (dget "results" rec) = false ->
     run (recommend cfg client mt ids) w n
     = (t1 ++ [notice "No recommendations found." (Ok tt)], Ok tt))
  /\ (forall v,
        run (get_recommendations client mt id 1) w n = (t1, Ok v) ->
        is_dict v = false ->
        run (recommend cfg client mt ids) w n
        = (t1 ++ [Logged "Recommendations failed";
                  notice (fmt ["Recommendations error: "; exn_str (no_get v)])
                    (Ok tt)], Ok tt))
  /\ (forall e,
        run (get_recommendations client mt id 1) w n = (t1, Err e) ->
        run (recommend cfg client mt ids) w n
        = (t1 ++ [Logged "Recommendations failed";
                  notice (fmt ["Recommendations error: "; exn_str e]) (Ok tt)],
           Ok tt)).
Proof.
  intros Hc Hint t1. unfold get_recommendations.
  split; [| split].
  - intros rec Hr Hf. unfold recommend, parse_id. rewrite Hint.
    rewrite run_try_catch, run_bind, Hr, run_bind, run_lift.
    cbn [py_get Py.bind]. unfold py_or. rewrite Hf. cbn [py_list List.length].
    rewrite run_say, (delivers_text w Hc). cbn [app]. reflexivity.
  - intros v Hr Hv. unfold recommend, parse_id. rewrite Hint.
    rewrite run_try_catch, run_bind, Hr, run_bind, run_lift.
    destruct v; try discriminate; cbn [py_get Py.bind];
      rewrite (report_run _ _ w _ Hc), app_nil_r; reflexivity.
  - intros e Hr. unfold recommend, parse_id. rewrite Hint.
    rewrite run_try_catch, run_bind, Hr.
    rewrite (report_run _ _ w _ Hc). reflexivity.
Qed.

(** X16.  An authorized Recommendations tap over a delivering chat
    transport, with a complete token and an integer id, asks the
    recommendations of the tv endpoint for the type [tv] and of the movie
    endpoint for any other type, once.  A 404 answer, like an answer
    without results, gives the one message "No recommendations found.";
    a failed request or any other error status is logged and gives the
    one message "Recommendations error: ..." with the text of the error;
    the handler ends normally in each case. *)
Theorem recommendations_tap_outcomes (u : update) (w : world)
    (data mt ids : string) (id : Z) :
  _is_owner cfg u = true ->
  chat_delivers w ->
  query_data u = Some data ->
  startswith "rec|" data = true ->
  unpack_token data = Ok (mt, ids) ->
  int_of_str ids = Some id ->
  let call :=
    HttpGet (recommendations_url client (kind_of mt) id) [("page", 1%Z)] in
  let asked o := [Called Answer (Ok tt); Called call o] in
  (forall resp,
     w 1%nat _ call = Ok resp ->
     (status resp = 404%Z
      \/ ((status resp < 400)%Z
          /\ exists rec, body resp = Ok (JDict rec)
                         /\ truthy (dget "results" rec) = false)) ->
     run (on_callback cfg client u) w 0
     = (asked (Ok resp) ++ [notice "No recommendations found." (Ok tt)], Ok tt))
  /\ (forall resp,
        w 1%nat _ call = Ok resp ->
        (400 <= status resp)%Z -> status resp <> 404%Z ->
        let e := upstream_error
                   (real_url (recommendations_url client (kind_of mt) id)
                      [("page", 1%Z)]) resp in
        run (on_callback cfg client u) w 0
        = (asked (Ok resp)
           ++ [Logged "Recommendations failed";
               notice (fmt ["Recommendations error: "; exn_str e]) (Ok tt)],
           Ok tt))
  /\ (forall e,
        w 1%nat _ call = Err e ->
        run (on_callback cfg client u) w 0
        = (asked (Err e)
           ++ [Logged "Recommendations failed";
               notice (fmt ["Recommendations error: "; exn_str e]) (Ok tt)],
           Ok tt)).
Proof.
  intros Ho Hc Hd Hpre Hun Hint call asked.
  pose proof (recommendations_run mt id w 1) as Hrun. cbv zeta in Hrun.
  fold call in Hrun.
  rewrite (tap_rec_run u w data mt ids Ho Hc Hd Hpre Hun).
  destruct (recommend_run mt ids id w 1 Hc Hint [Called call (w 1%nat _ call)])
    as (Hnone & _ & Herr).
  split; [| split].
  - intros resp Hw Hcase. rewrite Hw in Hrun, Hnone.
    assert (Hr : exists rec,
               run (get_recommendations client mt id 1) w 1
               = ([Called call (Ok resp)], Ok (JDict rec))
               /\ truthy (dget "results" rec) = false).
    { destruct Hcase as [H404 | (Hlt & rec & Hb & Hf)].
      - exists [("results", JList [])]. rewrite Hrun, H404. split; reflexivity.
      - exists rec. rewrite Hrun, Hb.
        destruct (Z.eqb_spec (status resp) 404); [lia|].
        destruct (Z.leb_spec 400 (status resp)); [lia|]. split; [reflexivity | exact Hf]. }
    destruct Hr as (rec & Hr & Hf). rewrite (Hnone rec Hr Hf). reflexivity.
  - intros resp Hw Hge Hne e. rewrite Hw in Hrun, Herr. subst e.
    rewrite (Herr (upstream_error
                     (real_url (recommendations_url client (kind_of mt) id)
                        [("page", 1%Z)]) resp)); [reflexivity|].
    rewrite Hrun. destruct (Z.eqb_spec (status resp) 404); [contradiction|].
    destruct (Z.leb_spec 400 (status resp)); [reflexivity | lia].
  - intros e Hw. rewrite Hw in Hrun, Herr. rewrite (Herr e Hrun). reflexivity.
Qed.

Lemma without_id_read (created : json) :
  without_id created -> request_id_of created = Ok JNull.
Proof.
  destruct created as [| | | | | | d]; try reflexivity.
  intros [Hf [Hm | (q & Hq & Hn)]]; cbn [request_id_of]; rewrite Hf;
    unfold nested_request_id.
  - rewrite Hm. reflexivity.
  - destruct (dmem "request" d) eqn:Em.
    + rewrite Hq. cbn [py_get]. rewrite Hn. reflexivity.
    + reflexivity.
Qed.

Lemma request_not_object_read (created v : json) :
  request_not_object created v -> request_id_of created = Err (no_get v).
Proof.
  intros (d & -> & Hf & Hm & Hv & Hd). cbn [request_id_of]. rewrite Hf.
  unfold nested_request_id. rewrite Hm, Hv.
  destruct v; try discriminate; reflexivity.
Qed.

Lemma create_is_upstream (id : Z) (mt : string) (w : world) (n : nat) :
  forallb is_upstream
    (fst (run (create_request client id mt None (DEFAULT_IS_4K cfg)) w n)) = true.
Proof.
  pose proof (quiet_run (create_request client id mt None (DEFAULT_IS_4K cfg)) w n
                (quiet_create_request _ _ _ _ _)) as Hq.
  destruct (run _ w n). exact Hq.
Qed.

(** X17.  An authorized Download tap over a delivering chat transport
    whose create call is answered without a request id makes no approve
    call: the buttons are removed and the success confirmation is sent
    all the same.  When the answer holds under [request] something that
    is no object (JSON null, say), reading the id raises inside the
    handler: the one message sent is "Request error: ..." with the text
    of the attribute error, although the request was created, and the
    buttons stay. *)
Theorem create_answer_without_id (u : update) (w : world)
    (data media_type media_id_str : string) (media_id : Z)
    (t1 : list event) (created : json) :
  _is_owner cfg u = true ->
  chat_delivers w ->
  query_data u = Some data ->
  startswith "req|" data = true ->
  unpack_token data = Ok (media_type, media_id_str) ->
  int_of_str media_id_str = Some media_id ->
  run (create_request client media_id media_type None (DEFAULT_IS_4K cfg)) w 1
  = (t1, Ok created) ->
  (without_id created ->
   run (on_callback cfg client u) w 0
   = ([Called Answer (Ok tt)] ++ t1
      ++ [Called (EditReplyMarkup None) (Ok tt); notice success_text (Ok tt)],
      Ok tt)
   /\ messages (trace (on_callback cfg client u) w) = [success_text])
  /\ (forall v, request_not_object created v ->
      run (on_callback cfg client u) w 0
      = ([Called Answer (Ok tt)] ++ t1
         ++ [Logged "Request failed";
             notice (fmt ["Request error: "; exn_str (no_get v)]) (Ok tt)],
         Ok tt)
      /\ messages (trace (on_callback cfg client u) w)
         = [fmt ["Request error: "; exn_str (no_get v)]]
      /\ existsb is_edit (trace (on_callback cfg client u) w) = false).
Proof.
  intros Ho Hc Hd Hpre Hun Hint H1.
  pose proof (create_is_upstream media_id media_type w 1) as Hq1.
  rewrite H1 in Hq1. cbn [fst] in Hq1.
  rewrite (tap_req_run u w data media_type media_id_str Ho Hc Hd Hpre Hun).
  unfold trace. rewrite (tap_req_run u w data media_type media_id_str Ho Hc Hd Hpre Hun).
  unfold request, parse_id. rewrite Hint.
  rewrite run_try_catch, run_bind, H1, run_bind, run_lift.
  split.
  - intros Hw. rewrite (without_id_read created Hw).
    cbn [is_None negb List.length Nat.add app]. rewrite Nat.add_0_r.
    rewrite run_bind. cbn [run List.length Nat.add app].
    rewrite run_bind, run_await, (delivers_edit w Hc). cbn [List.length Nat.add].
    rewrite run_say, (delivers_text w Hc). cbn [app fst snd].
    split; [reflexivity|].
    change (Called Answer (Ok tt) :: ?l) with ([Called Answer (Ok tt)] ++ l).
    rewrite !messages_app, (upstream_no_messages t1 Hq1). reflexivity.
  - intros v Hv. rewrite (request_not_object_read created v Hv).
    rewrite (report_run _ _ w _ Hc). cbn [app fst snd]. rewrite app_nil_r.
    split; [reflexivity|].
    change (Called Answer (Ok tt) :: ?l) with ([Called Answer (Ok tt)] ++ l).
    rewrite !messages_app, !existsb_app, (upstream_no_messages t1 Hq1),
      (upstream_no_edit t1 Hq1). split; reflexivity.
Qed.

Lemma run_bind_prefix {A B} (p : io A) (k : A -> io B) (w : world) (n : nat) :
  exists t', fst (run (bind p k) w n) = fst (run p w n) ++ t'.
Proof.
  rewrite run_bind. destruct (run p w n) as [t [a | e]]; cbn [fst].
  - destruct (run (k a) w (n + List.length t)) as [t' r]. exists t'. reflexivity.
  - exists []. rewrite app_nil_r. reflexivity.
Qed.

Lemma run_try_prefix {A} (p : io A) (h : exn -> io A) (w : world) (n : nat) :
  exists t', fst (run (try_catch p h) w n) = fst (run p w n) ++ t'.
Proof.
  rewrite run_try_catch. destruct (run p w n) as [t [a | e]]; cbn [fst].
  - exists []. rewrite app_nil_r. reflexivity.
  - destruct (run (h e) w (n + List.length t)) as [t' r]. exists t'. reflexivity.
Qed.

Lemma create_request_head (id : Z) (mt : string) (is_4k : bool) (w : world)
    (n : nat) :
  let post :=
    HttpPost (fmt [base_url client; "/api/v1/request"]) (request_body id mt is_4k) in
  exists t,
    fst (run (create_request client id mt None is_4k) w n)
    = Called post (w n _ post) :: t.
Proof.
  intros post. unfold create_request. cbv zeta.
  match goal with
  | |- context [HttpPost _ ?p] =>
      replace p with (request_body id mt is_4k)
        by (unfold request_body; destruct is_4k; reflexivity)
  end.
  fold post. destruct (run_bind_prefix (await post)
                         (fun resp =>
                            bind (raise_for_status
                                    (fmt [base_url client; "/api/v1/request"]) resp)
                              (fun _ => resp_json resp)) w n) as [t' Ht].
  rewrite Ht, run_await. cbn [fst app]. exists t'. reflexivity.
Qed.

(** X18.  The first thing an authorized Download tap with a complete
    token and an integer id does after the acknowledgement is one POST to
    [<base>/api/v1/request] whose body holds the id and the media type of
    the token, and [is4k: true] only when the 4K default is on; no
    seasons are ever sent. *)
Theorem download_request_sent (u : update) (w : world)
    (data media_type media_id_str : string) (media_id : Z) :
  _is_owner cfg u = true ->
  chat_delivers w ->
  query_data u = Some data ->
  startswith "req|" data = true ->
  unpack_token data = Ok (media_type, media_id_str) ->
  int_of_str media_id_str = Some media_id ->
  let post :=
    HttpPost (fmt [base_url client; "/api/v1/request"])
      (request_body media_id media_type (DEFAULT_IS_4K cfg)) in
  exists rest,
    trace (on_callback cfg client u) w
    = Called Answer (Ok tt) :: Called post (w 1%nat _ post) :: rest.
Proof.
  intros Ho Hc Hd Hpre Hun Hint post.
  unfold trace. rewrite (tap_req_run u w data media_type media_id_str Ho Hc Hd Hpre Hun).
  cbn [fst]. unfold request, parse_id. rewrite Hint.
  match goal with
  | |- context [run (try_catch ?p ?h) w 1] =>
      destruct (run_try_prefix p h w 1) as [t1 H1]; rewrite H1
  end.
  match goal with
  | |- context [run (bind ?p ?k) w 1] =>
      destruct (run_bind_prefix p k w 1) as [t2 H2]; rewrite H2
  end.
  destruct (create_request_head media_id media_type (DEFAULT_IS_4K cfg) w 1)
    as [t3 H3].
  fold post in H3. rewrite H3. eexists. cbn [app]. reflexivity.
Qed.

End Taps.

Lemma world_null_request_delivers : chat_delivers world_null_request.
Proof. split; reflexivity. Qed.

Lemma unknown_action_ignored_witness :
  known_action (tap_data stranger_text) = false
  /\ IO.trace (Handlers.on_callback owner_42 a_client stranger_text) world_404
     = [IO.Called IO.Answer (Py.Ok tt)].
Proof.
  split; [reflexivity|].
  exact (proj1 (unknown_action_ignored owner_42 a_client stranger_text world_404
                  eq_refl)).
Defined.

Lemma tap_ends_normally_iff_witness :
  count_char "|" (tap_data short_token_tap) = 1%nat
  /\ IO.run (Handlers.on_callback owner_42 a_client short_token_tap) world_404 0
     = ([IO.Called IO.Answer (Py.Ok tt)],
        Py.Err (Py.ValueError "not enough values to unpack (expected 3, got 2)"))
  /\ snd (IO.run (Handlers.on_callback owner_42 a_client recommendations_tap)
            world_404 0) = Py.Ok tt.
Proof.
  split; [reflexivity|]. split.
  - apply (proj2 (tap_ends_normally_iff owner_42 a_client short_token_tap world_404
                    eq_refl world_404_delivers)); reflexivity.
  - apply (proj1 (tap_ends_normally_iff owner_42 a_client recommendations_tap
                    world_404 eq_refl world_404_delivers)).
    right. cbn. lia.
Defined.

Lemma recommendations_tap_outcomes_witness :
  IO.messages
    (IO.trace (Handlers.on_callback owner_42 a_client recommendations_tap) world_404)
  = ["No recommendations found."]
  /\ IO.upstream_calls
       (IO.trace (Handlers.on_callback owner_42 a_client recommendations_tap)
          world_404) = 1%nat.
Proof.
  destruct (recommendations_tap_outcomes owner_42 a_client recommendations_tap
              world_404 "rec|tv|1399" "tv" "1399" 1399
              eq_refl world_404_delivers eq_refl eq_refl eq_refl eq_refl)
    as [H404 _].
  specialize (H404 not_found eq_refl (or_introl eq_refl)).
  unfold IO.trace. rewrite H404. split; reflexivity.
Defined.

Lemma create_answer_without_id_witness :
  request_not_object (Py.JDict [("request", Py.JNull)]) Py.JNull
  /\ IO.messages
       (IO.trace (Handlers.on_callback open_mode a_client download_tap)
          world_null_request)
     = ["Request error: 'NoneType' object has no attribute 'get'"].
Proof.
  assert (Hv : request_not_object (Py.JDict [("request", Py.JNull)]) Py.JNull).
  { exists [("request", Py.JNull)]. repeat split. }
  split; [exact Hv|].
  destruct (create_answer_without_id open_mode a_client download_tap
              world_null_request "req|movie|603" "movie" "603" 603 _
              (Py.JDict [("request", Py.JNull)])
              eq_refl world_null_request_delivers eq_refl eq_refl eq_refl eq_refl
              eq_refl) as [_ Hbad].
  exact (proj1 (proj2 (Hbad Py.JNull Hv))).
Defined.

Lemma download_request_sent_witness :
  exists rest,
    IO.trace (Handlers.on_callback open_mode a_client download_tap) world_404
    = IO.Called IO.Answer (Py.Ok tt)
      :: IO.Called
           (IO.HttpPost "http://overseerr:5055/api/v1/request"
              (Py.JDict [("mediaId", Py.JInt 603); ("mediaType", Py.JStr "movie")]))
           (Py.Ok not_found)
      :: rest.
Proof.
  exact (download_request_sent open_mode a_client download_tap world_404
           "req|movie|603" "movie" "603" 603
           eq_refl world_404_delivers eq_refl eq_refl eq_refl eq_refl).
Defined.

(* ------------------------------------------------------------------ *)
(** * The cards of the recommendations *)
(* ------------------------------------------------------------------ *)

Section RecommendationCards.
Import PyStr Py Bot Handlers.
Local Open Scope py_scope.

(** X19.  The buttons under a recommended item carry the media type of
    the tapped token, whatever type the item itself names: for a movie or
    tv token and an item with an integer id, the keyboard is built, it
    holds the Recommendations button [rec|type|id], and every button of
    it is read back as that type and id. *)
Theorem recommendation_buttons_tagged (rec_item : dict) (status : json) (n : Z)
    (mt : string) :
  media_status rec_item = Some status ->
  dget "id" rec_item = JInt n ->
  mt = "movie" \/ mt = "tv" ->
  exists kb,
    (tagged <- with_media_type (JDict rec_item) mt ;; _build_keyboard tagged)
    = Ok kb
    /\ (exists b, In b (buttons_of kb)
                  /\ callback_data b = fmt ["rec|"; mt; "|"; str_of_Z n])
    /\ forall b, In b (buttons_of kb) ->
         unpack_token (callback_data b) = Ok (mt, str_of_Z n).
Proof.
  intros Hst Hid Hkind. cbn [with_media_type Py.bind].
  set (tagged := dset "mediaType" (JStr mt) rec_item).
  assert (Hst' : media_status tagged = Some status).
  { unfold media_status, tagged. rewrite dget_dset_other by discriminate. exact Hst. }
  assert (Hid' : dget "id" tagged = JInt n).
  { unfold tagged. rewrite dget_dset_other by discriminate. exact Hid. }
  assert (Hmt' : media_type_of tagged = JStr mt).
  { unfold media_type_of, tagged. rewrite dget_dset_same.
    destruct Hkind as [-> | ->]; reflexivity. }
  rewrite (keyboard_of_item tagged status n mt Hst' Hid' Hmt' Hkind).
  assert (Hreq : unpack_token (fmt ["req|"; mt; "|"; str_of_Z n])
                 = Ok (mt, str_of_Z n))
    by (apply (unpack_built_token "req"); auto).
  assert (Hrc : unpack_token (fmt ["rec|"; mt; "|"; str_of_Z n])
                = Ok (mt, str_of_Z n))
    by (apply (unpack_built_token "rec"); auto).
  eexists. split; [reflexivity|]. cbn [buttons_of List.concat]. split.
  - exists {| text := "👀 Recommendations";
              callback_data := fmt ["rec|"; mt; "|"; str_of_Z n] |}.
    split; [| reflexivity].
    rewrite app_nil_r. apply in_or_app. right. left. reflexivity.
  - intros b Hb. rewrite app_nil_r in Hb. apply in_app_or in Hb.
    destruct Hb as [Hb | [<- | []]]; [| exact Hrc].
    destruct (status_available status); [contradiction|].
    destruct Hb as [<- | []]. exact Hreq.
Qed.

Lemma recommendation_buttons_tagged_witness :
  let rec_item := [("id", JInt 1399); ("mediaType", JStr "person");
                   ("media_type", JStr "movie")] in
  media_status rec_item = Some JNull
  /\ exists kb,
       (tagged <- with_media_type (JDict rec_item) "tv" ;; _build_keyboard tagged)
       = Ok kb
       /\ forall b, In b (buttons_of kb) ->
            unpack_token (callback_data b) = Ok ("tv", "1399").
Proof.
  intros rec_item. split; [reflexivity|].
  destruct (recommendation_buttons_tagged rec_item JNull 1399 "tv" eq_refl eq_refl
              (or_intror eq_refl)) as (kb & Hk & _ & Hb).
  exists kb. split; [exact Hk | exact Hb].
Defined.

End RecommendationCards.

(* ------------------------------------------------------------------ *)
(** * The owner check *)
(* ------------------------------------------------------------------ *)

Section OwnerCheck.
Import PyStr Py IO Handlers.

(** X20.  The owner check passes exactly when no owner is configured
    (unset or empty), or the configured text reads as an integer that is
    the id of the caller.  An owner id that is set and is no integer
    locks everybody out, the owner included. *)
Theorem owner_check_iff (cfg : config) (u : update) :
  (_is_owner cfg u = true
   <-> OWNER_TELEGRAM_USER_ID cfg = None
       \/ OWNER_TELEGRAM_USER_ID cfg = Some ""
       \/ exists owner,
            OWNER_TELEGRAM_USER_ID cfg = Some owner /\ matches_owner owner u)
  /\ (forall owner,
        OWNER_TELEGRAM_USER_ID cfg = Some owner -> owner <> "" ->
        int_of_str owner = None -> _is_owner cfg u = false).
Proof.
  unfold _is_owner, matches_owner. split.
  - destruct (OWNER_TELEGRAM_USER_ID cfg) as [owner |]; [| tauto].
    destruct owner as [| c s]; cbn [is_empty]; [tauto|].
    split.
    + intros H. right. right. exists (String c s). split; [reflexivity|].
      destruct (int_of_str (String c s)) as [oid |]; [| discriminate].
      destruct (effective_user_id u) as [uid |]; [| discriminate].
      apply Z.eqb_eq in H. subst uid. exists oid. auto.
    + intros [H | [H | (owner & [= <-] & id & Hi & Hu)]]; try discriminate.
      rewrite Hi, Hu. apply Z.eqb_refl.
  - intros owner -> Hne Hi. destruct owner as [| c s]; [congruence|].
    cbn [is_empty]. rewrite Hi. reflexivity.
Qed.

Lemma owner_check_iff_witness :
  _is_owner owner_42 dune_query = true
  /\ _is_owner owner_garbled dune_query = false.
Proof.
  split.
  - apply (proj1 (owner_check_iff owner_42 dune_query)). right. right.
    exists "42". split; [reflexivity|]. exists 42%Z. split; reflexivity.
  - apply (proj2 (owner_check_iff owner_garbled dune_query) "me");
      [reflexivity | discriminate | reflexivity].
Defined.

End OwnerCheck.

(* ------------------------------------------------------------------ *)
(** * Sending a card *)
(* ------------------------------------------------------------------ *)

Section SendCard.
Import PyStr Py IO Handlers RunFacts.

(** X21.  A card goes out as a photo when the item has a poster and as
    rich text otherwise.  When that first send fails, the same caption
    with the same buttons is sent once more as rich text, and the outcome
    of this second send is the outcome of the card: a failed photo
    followed by a delivered text is a delivered card, and a second
    failure is raised. *)
Theorem card_falls_back_to_text (cfg : config) (poster : json)
    (caption : string) (kb : option Bot.markup) (w : world) (n : nat) :
  let first : call unit :=
    if truthy poster
    then ReplyPhoto (fmt [TMDB_IMAGE_BASE cfg; py_str poster]) caption kb
    else ReplyText caption kb true in
  let again := ReplyText caption kb true in
  (w n unit first = Ok tt ->
   run (send_card cfg poster caption kb) w n = ([Called first (Ok tt)], Ok tt))
  /\ (forall e,
        w n unit first = Err e ->
        run (send_card cfg poster caption kb) w n
        = ([Called first (Err e); Called again (w (S n) unit again)],
           w (S n) unit again)).
Proof.
  intros first again. unfold send_card. rewrite run_try_catch.
  assert (Hfirst :
    run (if truthy poster
         then await (ReplyPhoto (fmt [TMDB_IMAGE_BASE cfg; py_str poster]) caption kb)
         else await (ReplyText caption kb true)) w n
    = ([Called first (w n unit first)], w n unit first)).
  { unfold first. destruct (truthy poster); apply run_await. }
  rewrite Hfirst. split.
  - intros ->. reflexivity.
  - intros e ->. rewrite run_await. cbn [List.length app].
    rewrite Nat.add_1_r. fold again.
    destruct (w (S n) unit again) as [[] | e']; reflexivity.
Qed.

Lemma card_falls_back_to_text_witness :
  run (send_card owner_42 (JStr "/dune.jpg") "<b>Dune</b>" None) world_no_photo 0
  = ([Called (ReplyPhoto "https://image.tmdb.org/t/p/w500/dune.jpg" "<b>Dune</b>" None)
        (Err (Exception "Wrong type of the web page content"));
      Called (ReplyText "<b>Dune</b>" None true) (Ok tt)],
     Ok tt).
Proof.
  apply (proj2 (card_falls_back_to_text owner_42 (JStr "/dune.jpg") "<b>Dune</b>"
                  None world_no_photo 0)
           (Exception "Wrong type of the web page content")).
  reflexivity.
Defined.

End SendCard.

(* ------------------------------------------------------------------ *)
(** * The outcomes of a search *)
(* ------------------------------------------------------------------ *)

Section SearchOutcomes.
Import PyStr Py IO Client Handlers RunFacts Quiet QuietFacts.

Variable cfg : config.
Variable client : Client.client.

Lemma on_query_run (u : update) (w : world) :
  _is_owner cfg u = true ->
  strip (text_of_update u) <> "" ->
  run (on_query cfg client u) w 0
  = match run (search client (strip (text_of_update u))) w 0 with
    | (t1, Err e) =>
        let text := fmt ["Overseerr search error: "; exn_str e] in
        let o := w (S (List.length t1)) unit (ReplyText text None false) in
        (t1 ++ [Logged "Search failed"; notice text o], o)
    | (t1, Ok data) =>
        match (v <- py_get data "results" ;; py_list (py_or v (JList [])))%py with
        | Err e => (t1, Err e)
        | Ok [] =>
            let (t2, r) := run (say "No results found.") w (List.length t1) in
            (t1 ++ t2, r)
        | Ok (r :: rs) =>
            match filter_media (r :: rs) with
            | Err e => (t1, Err e)
            | Ok filtered =>
                let (t2, r) :=
                  run (for_each
                         (firstn 10 (match filtered with
                                     | [] => r :: rs
                                     | _ => filtered
                                     end))
                         (present_result cfg client)) w (List.length t1) in
                (t1 ++ t2, r)
            end
        end
    end.
Proof.
  intros Ho Hq. unfold on_query. fold (text_of_update u). rewrite Ho. cbn [negb].
  destruct (strip (text_of_update u)) as [| c q] eqn:Es; [congruence|].
  cbn [is_empty]. rewrite run_bind, run_try_catch, run_bind.
  destruct (run (search client (String c q)) w 0) as [t1 [data | e]];
    cbn [run Nat.add List.length app].
  - rewrite ?app_nil_r, ?Nat.add_0_r. rewrite run_bind, run_lift.
    destruct (v <- py_get data "results" ;; py_list (py_or v (JList [])))%py
      as [[| r rs] | e]; cbn [List.length app].
    + rewrite ?Nat.add_0_r. destruct (run (say _) w (List.length t1)). reflexivity.
    + rewrite ?Nat.add_0_r, run_bind, run_lift.
      destruct (filter_media (r :: rs)) as [filtered | e]; cbn [List.length app].
      * rewrite ?Nat.add_0_r.
        destruct (run (for_each _ _) w (List.length t1)). reflexivity.
      * rewrite ?app_nil_r. reflexivity.
    + rewrite ?app_nil_r. reflexivity.
  - unfold log, say, await. cbn [run bind lift].
    destruct (w (S (List.length t1)) unit _) as [[] | e'];
      cbn [run bind lift app List.length Nat.add]; rewrite ?app_nil_r; reflexivity.
Qed.

(** X22.  An authorized, non-empty text query over a delivering chat
    transport whose search fails (no answer, or an error status) is
    logged and answered with the one message "Overseerr search error:
    ..." carrying the text of the error; a search answer without results
    is answered with the one message "No results found.".  No card is
    sent and no further upstream request is made in either case, and the
    handler ends normally. *)
Theorem search_failure_and_no_results (u : update) (w : world) (t1 : list event) :
  _is_owner cfg u = true ->
  chat_delivers w ->
  strip (text_of_update u) <> "" ->
  (forall e,
     run (search client (strip (text_of_update u))) w 0 = (t1, Err e) ->
     run (on_query cfg client u) w 0
     = (t1 ++ [Logged "Search failed";
               notice (fmt ["Overseerr search error: "; exn_str e]) (Ok tt)],
        Ok tt)
     /\ messages (trace (on_query cfg client u) w)
        = [fmt ["Overseerr search error: "; exn_str e]])
  /\ (forall d,
        run (search client (strip (text_of_update u))) w 0 = (t1, Ok (JDict d)) ->
        truthy (dget "results" d) = false ->
        run (on_query cfg client u) w 0
        = (t1 ++ [notice "No results found." (Ok tt)], Ok tt)
        /\ messages (trace (on_query cfg client u) w) = ["No results found."]).
Proof.
  intros Ho Hc Hq.
  assert (Hq1 : forall r,
            run (search client (strip (text_of_update u))) w 0 = (t1, r) ->
            messages t1 = []).
  { intros r Hr. apply upstream_no_messages.
    pose proof (quiet_run _ w 0 (quiet_search client (strip (text_of_update u))))
      as H.
    rewrite Hr in H. exact H. }
  split.
  - intros e Hr. unfold trace. rewrite (on_query_run u w Ho Hq), Hr. cbv zeta.
    rewrite (delivers_text w Hc). split; [reflexivity|].
    cbn [fst]. rewrite messages_app, (Hq1 _ Hr). reflexivity.
  - intros d Hr Hf. unfold trace. rewrite (on_query_run u w Ho Hq), Hr.
    cbn [py_get Py.bind]. unfold py_or. rewrite Hf. cbn [py_list].
    rewrite run_say, (delivers_text w Hc). split; [reflexivity|].
    cbn [fst]. rewrite messages_app, (Hq1 _ Hr). reflexivity.
Qed.

Lemma filter_media_raises (pre post : list json) (v : json) :
  forallb is_dict pre = true -> is_dict v = false ->
  filter_media (pre ++ v :: post) = Err (no_get v).
Proof.
  intros Hpre Hv. induction pre as [| r pre IH]; cbn [app filter_media].
  - destruct v; try discriminate; reflexivity.
  - cbn [forallb] in Hpre. apply andb_prop in Hpre as [Hr Hp].
    destruct r as [| | | | | | d]; try discriminate.
    rewrite lazy_or_get, (IH Hp). cbn [py_get].
    destruct (truthy (dget "mediaType" d)); reflexivity.
Qed.

(** X23.  A search answer that is no object, or whose results hold an
    entry that is no object (wherever it stands in the list, beyond the
    tenth entry as well), makes the handler of text queries raise the
    attribute error: nothing is sent to the chat, no card and no notice,
    and no request follows the search. *)
Theorem malformed_search_answer_raises (u : update) (w : world) (t1 : list event)
    (data : json) :
  _is_owner cfg u = true ->
  strip (text_of_update u) <> "" ->
  run (search client (strip (text_of_update u))) w 0 = (t1, Ok data) ->
  (is_dict data = false ->
   run (on_query cfg client u) w 0 = (t1, Err (no_get data))
   /\ messages (trace (on_query cfg client u) w) = [])
  /\ (forall d pre v post,
        data = JDict d ->
        dget "results" d = JList (pre ++ v :: post) ->
        forallb is_dict pre = true -> is_dict v = false ->
        run (on_query cfg client u) w 0 = (t1, Err (no_get v))
        /\ messages (trace (on_query cfg client u) w) = []).
Proof.
  intros Ho Hq Hr.
  assert (Hq1 : messages t1 = []).
  { apply upstream_no_messages.
    pose proof (quiet_run _ w 0 (quiet_search client (strip (text_of_update u))))
      as H.
    rewrite Hr in H. exact H. }
  split.
  - intros Hd. unfold trace. rewrite (on_query_run u w Ho Hq), Hr.
    destruct data; try discriminate; (split; [reflexivity | exact Hq1]).
  - intros d pre v post -> Hres Hpre Hv. unfold trace.
    rewrite (on_query_run u w Ho Hq), Hr. cbn [py_get Py.bind]. rewrite Hres.
    assert (Ht : py_or (JList (pre ++ v :: post)) (JList [])
                 = JList (pre ++ v :: post)).
    { unfold py_or. destruct pre; reflexivity. }
    rewrite Ht. cbn [py_list].
    destruct (pre ++ v :: post) as [| r rs] eqn:El.
    + destruct pre; discriminate.
    + rewrite <- El, (filter_media_raises pre post v Hpre Hv).
      split; [reflexivity | exact Hq1].
Qed.

End SearchOutcomes.

Lemma world_odd_results_delivers : chat_delivers world_odd_results.
Proof. split; reflexivity. Qed.

Lemma search_failure_and_no_results_witness :
  IO.messages (IO.trace (Handlers.on_query owner_42 a_client dune_query) world_404)
  = ["Overseerr search error: 404, message='Not Found', url='http://overseerr:5055/api/v1/search?query=dune'"].
Proof.
  destruct (search_failure_and_no_results owner_42 a_client dune_query world_404
              [IO.Called
                 (IO.HttpGet "http://overseerr:5055/api/v1/search?query=dune" [])
                 (Py.Ok not_found)]
              eq_refl world_404_delivers ltac:(discriminate)) as [Hfail _].
  exact (proj2 (Hfail _ eq_refl)).
Defined.

Lemma malformed_search_answer_raises_witness :
  IO.run (Handlers.on_query owner_42 a_client dune_query) world_odd_results 0
  = ([IO.Called (IO.HttpGet "http://overseerr:5055/api/v1/search?query=dune" [])
        (world_odd_results 0%nat _
           (IO.HttpGet "http://overseerr:5055/api/v1/search?query=dune" []))],
     Py.Err (Py.AttributeError "'str' object has no attribute 'get'")).
Proof.
  destruct (malformed_search_answer_raises owner_42 a_client dune_query
              world_odd_results
              [IO.Called
                 (IO.HttpGet "http://overseerr:5055/api/v1/search?query=dune" [])
                 (world_odd_results 0%nat _
                    (IO.HttpGet "http://overseerr:5055/api/v1/search?query=dune" []))]
              (Py.JDict
                 [("results",
                   Py.JList [Py.JDict [("id", Py.JInt 1)]; Py.JStr "oops"])])
              eq_refl ltac:(discriminate) eq_refl)
    as [_ Hbad].
  exact (proj1 (Hbad _ [Py.JDict [("id", Py.JInt 1)]] (Py.JStr "oops") []
                  eq_refl eq_refl eq_refl eq_refl)).
Defined.

(* ------------------------------------------------------------------ *)
(** * The cards of a tap *)
(* ------------------------------------------------------------------ *)

Section TapCards.
Import PyStr Py IO Client Handlers RunFacts Quiet QuietFacts.

Variable cfg : config.
Variable client : Client.client.

Lemma at_most_chat (c : call unit) :
  (forall r, is_card (Called c r) = false) -> at_most 0 (await c).
Proof.
  intros H w n. rewrite run_await. unfold cards. cbn [fst filter].
  rewrite H. cbn. lia.
Qed.

Lemma present_recommendation_at_most_one (mt : string) (item : json) :
  at_most 1 (present_recommendation cfg client mt item).
Proof.
  unfold present_recommendation.
  apply (at_most_bind 0 1); [apply at_most_lift | intros poster].
  apply (at_most_bind 0 1); [apply at_most_lift | intros base].
  apply (at_most_bind 0 1); [apply at_most_quiet, quiet_enrich | intros details].
  apply (at_most_bind 0 1); [apply at_most_lift | intros caption].
  apply (at_most_bind 0 1); [apply at_most_lift | intros kb].
  apply send_card_at_most_one.
Qed.

Lemma recommend_at_most_ten (mt ids : string) :
  at_most 10 (recommend cfg client mt ids).
Proof.
  unfold recommend. destruct (parse_id ids) as [id |];
    [| apply (at_most_weaken 0); [lia | apply at_most_say]].
  apply (at_most_try_catch 10 0).
  - apply (at_most_bind 0 10).
    + apply at_most_quiet.
      destruct (String.eqb mt "tv");
        [unfold get_tv_recommendations | unfold get_movie_recommendations];
        unfold resp_json; repeat (quiet_step || apply quiet_raise_for_status).
    + intros rec. apply (at_most_bind 0 10); [apply at_most_lift | intros results].
      destruct results as [| r rs];
        [apply (at_most_weaken 0); [lia | apply at_most_say]|].
      eapply at_most_weaken;
        [| apply for_each_at_most, present_recommendation_at_most_one].
      rewrite length_firstn. lia.
  - intros e. apply (at_most_bind 0 0); [apply at_most_log | intros _].
    apply at_most_say.
Qed.

Lemma request_no_card (mt ids : string) : at_most 0 (request cfg client mt ids).
Proof.
  unfold request. destruct (parse_id ids) as [id |].
  - apply (at_most_try_catch 0 0).
    + apply (at_most_bind 0 0);
        [apply at_most_quiet, quiet_create_request | intros created].
      apply (at_most_bind 0 0); [apply at_most_lift | intros rid].
      apply (at_most_bind 0 0).
      * destruct (negb (is_None rid)); [| apply at_most_ret].
        apply (at_most_try_catch 0 0).
        -- apply (at_most_bind 0 0);
             [apply at_most_quiet, quiet_approve_request
             | intros _; apply at_most_ret].
        -- intros _. apply at_most_log.
      * intros _. apply (at_most_bind 0 0);
          [apply at_most_chat; reflexivity | intros _; apply at_most_say].
    + intros e. apply (at_most_bind 0 0); [apply at_most_log | intros _].
      apply at_most_say.
  - apply (at_most_bind 0 0);
      [apply at_most_chat; reflexivity | intros _; apply at_most_say].
Qed.

(** X24.  Whatever the upstream and the chat transport answer, a tap
    delivers at most ten cards, and a Download tap delivers none: all it
    sends are plain notices. *)
Theorem tap_cards_bounded (u : update) (w : world) :
  (cards (trace (on_callback cfg client u) w) <= 10)%nat
  /\ (startswith "req|" (tap_data u) = true ->
      cards (trace (on_callback cfg client u) w) = 0%nat).
Proof.
  unfold trace, on_callback. cbv zeta. fold (tap_data u).
  destruct (negb (_is_owner cfg u)).
  - pose proof (at_most_chat Answer ltac:(reflexivity) w 0%nat) as H.
    split; [lia | intros _; lia].
  - split.
    + apply (at_most_bind 0 10); [apply at_most_chat; reflexivity | intros _].
      destruct (startswith "req|" (tap_data u)).
      * apply (at_most_bind 0 10); [apply at_most_lift | intros parts].
        apply (at_most_weaken 0); [lia | apply request_no_card].
      * destruct (startswith "rec|" (tap_data u));
          [| apply (at_most_weaken 0); [lia | apply at_most_ret]].
        apply (at_most_bind 0 10); [apply at_most_lift | intros parts].
        apply recommend_at_most_ten.
    + intros ->.
      assert (H : at_most 0
                    (bind (await Answer)
                       (fun _ =>
                          bind (lift (unpack_token (tap_data u)))
                            (fun parts =>
                               request cfg client (fst parts) (snd parts))))).
      { apply (at_most_bind 0 0); [apply at_most_chat; reflexivity | intros _].
        apply (at_most_bind 0 0); [apply at_most_lift | intros parts].
        apply request_no_card. }
      specialize (H w 0%nat). lia.
Qed.

End TapCards.

Lemma tap_cards_bounded_witness :
  cards (IO.trace (Handlers.on_callback owner_42 a_client download_tap) world_404)
  = 0%nat.
Proof.
  apply (proj2 (tap_cards_bounded owner_42 a_client download_tap world_404)).
  reflexivity.
Defined.

(* ------------------------------------------------------------------ *)
(** * The lines of the enrichment *)
(* ------------------------------------------------------------------ *)

Section EnrichmentLines.
Import PyStr Py Bot.

Lemma shown_int (n : Z) : shown (Some (str_of_Z n)) = true.
Proof.
  unfold str_of_Z. destruct (Z.to_int n) as [d | d]; destruct d; reflexivity.
Qed.

(** X25.  The flat answer of the ratings endpoint, once under [ratings]
    of the details, is shown as two links to its [url]: the critics score
    as the Tomatometer line and the audience score as the Popcorn line,
    each followed by a percent sign, after the IMDb link when the details
    name an IMDb id (without a rating: the flat answer has none). *)
Theorem flat_ratings_shown (d e r : dict) (c a : Z) (u : string) :
  external_ids d = JDict e ->
  dget "ratings" d = JDict r ->
  no_combined_shape r = true ->
  dget "criticsScore" r = JInt c ->
  dget "audienceScore" r = JInt a ->
  dget "url" r = JStr u -> u <> "" ->
  exists rates,
    _extract_imdb_and_rt (JDict d) = Ok rates
    /\ imdb_rating rates = None
    /\ rt_tomato rates = Some (str_of_Z c)
    /\ rt_popcorn rates = Some (str_of_Z a)
    /\ rating_lines rates
       = (let id := py_or (dget "imdbId" e) (dget "imdb_id" e) in
          if truthy id
          then [link (fmt ["https://www.imdb.com/title/"; py_str id]) "IMDb"]
          else [])
         ++ [link u (fmt ["🍅 Tomatometer : "; str_of_Z c; "%"]);
             link u (fmt ["🍿 Popcorn: "; str_of_Z a; "%"])].
Proof.
  intros He Hr Hn Hc Ha Hu Hne.
  rewrite (extract_unfold d e He). unfold ratings_block. rewrite Hr.
  assert (Hm : dmem "criticsScore" r = true)
    by (apply dget_dmem; rewrite Hc; reflexivity).
  assert (Ht : py_or (JDict r) (JDict []) = JDict r).
  { unfold py_or. destruct r; [discriminate Hm | reflexivity]. }
  rewrite Ht.
  cbn [no_combined_shape combined_keys forallb] in Hn.
  repeat (apply andb_prop in Hn; destruct Hn as [?%is_None_eq Hn]).
  set (id := py_or (dget "imdbId" e) (dget "imdb_id" e)).
  assert (Hf : from_ratings id r
               = (id, None, Some (str_of_Z c), Some (str_of_Z a), JStr u)).
  { unfold from_ratings.
    repeat match goal with E : dget _ r = JNull |- _ => rewrite E; clear E end.
    rewrite Hm, Hc, Ha, Hu. reflexivity. }
  rewrite Hf. eexists. split; [reflexivity|].
  cbn [imdb_rating rt_tomato rt_popcorn].
  split; [reflexivity|]. split; [reflexivity|]. split; [reflexivity|].
  unfold rating_lines. cbn [imdb_url imdb_rating rt_url rt_tomato rt_popcorn].
  rewrite !shown_int.
  assert (Hut : py_or (JStr u) (JStr "https://www.rottentomatoes.com/") = JStr u).
  { unfold py_or. destruct u; [congruence | reflexivity]. }
  rewrite Hut. cbn [py_str text_of].
  destruct (truthy id); reflexivity.
Qed.

Lemma flat_ratings_shown_witness :
  let r := [("criticsScore", JInt 83); ("audienceScore", JInt 90);
            ("url", JStr "https://www.rottentomatoes.com/m/dune")] in
  let d := [("externalIds", JDict [("imdbId", JStr "tt1160419")]);
            ("ratings", JDict r)] in
  exists rates,
    _extract_imdb_and_rt (JDict d) = Ok rates
    /\ rating_lines rates
       = [link "https://www.imdb.com/title/tt1160419" "IMDb";
          link "https://www.rottentomatoes.com/m/dune" "🍅 Tomatometer : 83%";
          link "https://www.rottentomatoes.com/m/dune" "🍿 Popcorn: 90%"].
Proof.
  intros r d.
  destruct (flat_ratings_shown d [("imdbId", JStr "tt1160419")] r 83 90
              "https://www.rottentomatoes.com/m/dune"
              eq_refl eq_refl eq_refl eq_refl eq_refl eq_refl ltac:(discriminate))
    as (rates & Hx & _ & _ & _ & Hl).
  exists rates. split; [exact Hx | exact Hl].
Defined.

Lemma pick_tmdb_video_url (wanted : option string) (m : dict) :
  pick_tmdb wanted (JDict m) = Ok (keyed_video_url wanted (JDict m)).
Proof.
  unfold pick_tmdb, keyed_video_url. cbn [py_get bind].
  destruct (eq_str (dget "site" m) "YouTube" && _ && _); reflexivity.
Qed.

Lemma find_tmdb (wanted : option string) (vs : list json) :
  forallb is_dict vs = true ->
  find_video (pick_tmdb wanted) vs = Ok (first_keyed_video wanted vs).
Proof.
  induction vs as [| v vs IH]; cbn [forallb find_video first_keyed_video];
    [reflexivity|].
  intros H. apply andb_prop in H as [Hv Hvs]. destruct v; try discriminate Hv.
  rewrite pick_tmdb_video_url. cbn [bind].
  destruct (keyed_video_url wanted (JDict d)); [reflexivity | apply IH, Hvs].
Qed.

Lemma first_video_any_none (ty : string) (vs : list json) :
  first_video None vs = None -> first_video (Some ty) vs = None.
Proof.
  induction vs as [| v vs IH]; cbn [first_video]; [reflexivity|].
  destruct (video_url None v) eqn:E; [discriminate|]. intros H.
  assert (Hv : video_url (Some ty) v = None).
  { unfold video_url in E |- *. destruct v; try reflexivity.
    destruct (dget "url" d); try reflexivity.
    rewrite andb_true_r in E.
    destruct (eq_str (dget "site" d) "YouTube"); [discriminate | reflexivity]. }
  rewrite Hv. apply IH, H.
Qed.

(** X26.  When the related videos give no address, the trailer is read
    from the video results: the first YouTube Trailer with a key, failing
    that the first such Teaser, failing that the first YouTube video with
    a key, and its address is [https://youtu.be/] followed by the key;
    when the results give none either, there is no trailer. *)
Theorem trailer_from_video_results (d m : dict) (ws : list json) :
  related_gives_none d ->
  py_or (dget "videos" d) (JDict []) = JDict m ->
  dget "results" m = JList ws ->
  forallb is_dict ws = true ->
  _extract_trailer_url (JDict d)
  = Ok (match first_keyed_video (Some "Trailer") ws with
        | Some u => Some u
        | None =>
            match first_keyed_video (Some "Teaser") ws with
            | Some u => Some u
            | None => first_keyed_video None ws
            end
        end).
Proof.
  intros Hrel Hv Hres Hws. unfold _extract_trailer_url. cbn [py_get bind].
  change (lazy_or (Ok (dget "videos" d)) (Ok (JDict [])))
    with (lazy_or (py_get (JDict d) "videos") (Ok (JDict []))).
  rewrite lazy_or_get_default, Hv. cbn [bind]. rewrite Hres.
  assert (Hfirst :
    match dget "relatedVideos" d with
    | JList vs => preferred pick_related vs
    | _ => Ok None
    end = Ok None).
  { unfold related_gives_none in Hrel.
    destruct (dget "relatedVideos" d) as [| | | | | vs |]; try reflexivity.
    destruct Hrel as [Hd Hn]. unfold preferred, or_else.
    rewrite !find_related by exact Hd.
    rewrite !(first_video_any_none _ vs Hn), Hn. reflexivity. }
  rewrite Hfirst. unfold or_else at 1. cbn [bind].
  unfold preferred, or_else. rewrite !find_tmdb by exact Hws. cbn [bind].
  destruct (first_keyed_video (Some "Trailer") ws); [reflexivity|].
  cbn [bind]. destruct (first_keyed_video (Some "Teaser") ws); [reflexivity|].
  cbn [bind]. destruct (first_keyed_video None ws); reflexivity.
Qed.

Lemma trailer_from_video_results_witness :
  let clip := JDict [("site", JStr "YouTube"); ("type", JStr "Clip");
                     ("key", JStr "c1")] in
  let trailer := JDict [("site", JStr "YouTube"); ("type", JStr "Trailer");
                        ("key", JStr "t1")] in
  let m := [("results", JList [clip; trailer])] in
  let d := [("relatedVideos", JList [JDict [("site", JStr "Vimeo")]]);
            ("videos", JDict m)] in
  related_gives_none d
  /\ _extract_trailer_url (JDict d) = Ok (Some "https://youtu.be/t1").
Proof.
  intros clip trailer m d.
  assert (Hrel : related_gives_none d) by (split; reflexivity).
  split; [exact Hrel|].
  exact (trailer_from_video_results d m [clip; trailer] Hrel eq_refl eq_refl eq_refl).
Defined.

End EnrichmentLines.
